(** * Camera detection and cube-face rewriting of constant buffers

    A shallow embedding of [src/Camera/CameraController.cpp] and of the
    map/unmap handlers in [src/Graphics/CubemapManager_methods.cpp].

    Buffers are raw bytes.  A C++ [float] is an IEEE-754 binary32 value; its
    arithmetic and comparisons are those of [Floats.SpecFloat] instantiated
    at precision 24 and maximal exponent 128, and a float is read from
    memory by decoding four little-endian bytes.  Vectors and matrices keep
    their lanes as 32-bit patterns, so what is loaded, transposed and stored
    is moved bit for bit.  The DirectXMath routines the controller calls are
    an interface ([DirectXMath]); the controller code itself is translated
    function by function. *)

From Stdlib Require Import ZArith NArith QArith Qabs Qpower Lia List Bool.
From Stdlib Require Import Init.Byte Strings.Byte.
From Stdlib Require Import Floats.SpecFloat.
From stdpp Require Import base option list gmap.

Local Open Scope Z_scope.

(* ===================================================================== *)
(** ** Machine integers *)
(* ===================================================================== *)

(** Conversion to a 32-bit [int] (two's complement wrap-around). *)
Definition to_int (z : Z) : Z := (z + 2 ^ 31) mod 2 ^ 32 - 2 ^ 31.

(** Conversion to a 64-bit [size_t]. *)
Definition to_size_t (z : Z) : Z := z mod 2 ^ 64.

(* ===================================================================== *)
(** ** Single-precision floats *)
(* ===================================================================== *)

Abbreviation float := spec_float.

Module F32.

Definition prec : Z := 24.
Definition emax : Z := 128.

(** Decoding of a 32-bit pattern: sign bit, 8 exponent bits, 23 fraction
    bits. *)
Definition of_bits (b : Z) : float :=
  let s := Z.testbit b 31 in
  let e := Z.land (Z.shiftr b 23) (Z.ones 8) in
  let m := Z.land b (Z.ones 23) in
  if e =? 0 then
    match m with
    | Zpos p => S754_finite s p (-149)
    | _ => S754_zero s
    end
  else if e =? 255 then
    match m with
    | Z0 => S754_infinity s
    | _ => S754_nan
    end
  else
    match m + 2 ^ 23 with
    | Zpos p => S754_finite s p (e - 150)
    | _ => S754_nan
    end.

Definition add : float -> float -> float := SFadd prec emax.
Definition sub : float -> float -> float := SFsub prec emax.
Definition abs : float -> float := SFabs.
(** [a < b] and [a > b] on floats; both are false when an operand is NaN. *)
Definition ltb (a b : float) : bool := SFltb a b.
Definition gtb (a b : float) : bool := SFltb b a.

(** The literals of the source. *)
Definition zero : float := S754_zero false.                  (* 0 *)
Definition one : float := of_bits 0x3F800000.                (* 1.0f *)
Definition neg_one : float := of_bits 0xBF800000.            (* -1 *)
Definition lit_0_1 : float := of_bits 0x3DCCCCCD.            (* 0.1f *)
Definition lit_0_9 : float := of_bits 0x3F666666.            (* 0.9f *)
Definition lit_neg_0_9 : float := of_bits 0xBF666666.        (* -0.9f *)
Definition lit_1000 : float := of_bits 0x447A0000.           (* 1000.0f *)
Definition XM_PIDIV2 : float := of_bits 0x3FC90FDB.          (* 1.570796327f *)

(** The real number a float stands for, when it is a number. *)
Definition value (x : float) : option Q :=
  match x with
  | S754_zero _ => Some 0%Q
  | S754_finite s m e => Some (inject_Z (cond_Zopp s (Zpos m)) * 2 ^ e)%Q
  | S754_infinity _ | S754_nan => None
  end.

Definition is_nan (x : float) : bool :=
  match x with S754_nan => true | _ => false end.

(** [x] is a number at distance at most [tol] from [c]. *)
Definition within (tol c : Q) (x : float) : Prop :=
  match value x with
  | Some v => (Qabs (v - c) <= tol)%Q
  | None => False
  end.

(** [x] is a number at distance less than [tol] from [c]. *)
Definition strictly_within (tol c : Q) (x : float) : Prop :=
  match value x with
  | Some v => (Qabs (v - c) < tol)%Q
  | None => False
  end.

(** The exact value of the literal [0.1f], slightly above one tenth. *)
Definition eps : Q := (13421773 # 134217728)%Q.

(** The canonical binary32 significand/exponent pairs. *)
Definition canon (m : positive) (e : Z) : Prop :=
  Z.max (Zpos (digits2_pos m) + e - 24) (-149) = e.

Definition canonical (x : float) : Prop :=
  match x with S754_finite _ m e => canon m e | _ => True end.

Definition is_number (x : float) : bool :=
  match x with S754_zero _ | S754_finite _ _ _ => true | _ => false end.

(** The value of a float in units of [2^-149]; every binary32 number is
    an integer multiple of that unit. *)
Definition scaled (x : float) : Z :=
  match x with
  | S754_finite s m e => cond_Zopp s (Zpos m * 2 ^ (e + 149))
  | _ => 0
  end.

(** [0.1f] as a value, and in units of [2^-149]. *)
Definition eps_f : float := S754_finite false 13421773 (-27).
Definition eps_scaled : Z := 13421773 * 2 ^ 122.

End F32.

(* ===================================================================== *)
(** ** Memory seen through a pointer *)
(* ===================================================================== *)

(** The bytes reachable from a [const void*], by byte offset. *)
Definition memory := Z -> byte.

Definition byte_val (b : byte) : Z := Z.of_N (Byte.to_N b).

Definition byte_of_Z (z : Z) : byte :=
  match Byte.of_N (Z.to_N (z mod 256)) with
  | Some b => b
  | None => x00
  end.

(** [memcpy] source: the first [size] bytes behind the pointer. *)
Definition read_bytes (p : memory) (size : Z) : list byte :=
  map (fun k => p (Z.of_nat k)) (seq 0 (Z.to_nat size)).

(** The memory behind a pointer into a byte vector; reads past its end are
    never performed by the code and read as zero here. *)
Definition memory_of (l : list byte) : memory :=
  fun i => nth (Z.to_nat i) l x00.

Definition load_u32 (p : memory) (i : Z) : Z :=
  byte_val (p (4 * i)) + 2 ^ 8 * byte_val (p (4 * i + 1))
  + 2 ^ 16 * byte_val (p (4 * i + 2)) + 2 ^ 24 * byte_val (p (4 * i + 3)).

Definition store_u32 (w : Z) : list byte :=
  [byte_of_Z w; byte_of_Z (w / 2 ^ 8); byte_of_Z (w / 2 ^ 16); byte_of_Z (w / 2 ^ 24)].

(** A [const float*]: the float at each element index. *)
Definition float_ptr := Z -> float.

(** [(const float* )data]. *)
Definition as_floats (p : memory) : float_ptr := fun i => F32.of_bits (load_u32 p i).

(** The same pointer read as raw 32-bit words: what a load that moves a
    float without interpreting it sees, NaN payloads included. *)
Definition word_ptr := Z -> Z.

Definition as_words (p : memory) : word_ptr := fun i => load_u32 p i.

(** Pointer arithmetic [data + i]. *)
Definition offset_by {A : Type} (p : Z -> A) (i : Z) : Z -> A := fun j => p (i + j).

(** A window given by its sixteen bit patterns. *)
Definition window_of_bits (w : Z -> Z) : float_ptr := fun j => F32.of_bits (w j).

(* ===================================================================== *)
(** ** DirectXMath values and the routines used by the controller *)
(* ===================================================================== *)

(** An [XMVECTOR] is a register of four 32-bit lanes.  A lane is kept as
    its bit pattern: loads, stores and shuffles move lanes unchanged, so a
    NaN keeps its payload; comparisons read a lane as the float it
    encodes. *)
Record XMVECTOR := XMVectorSet { vx : Z; vy : Z; vz : Z; vw : Z }.

(** The lanes of the literals [0], [1] and [-1] that the source passes to
    [XMVectorSet]. *)
Module Lane.
Definition zero : Z := 0.
Definition one : Z := 0x3F800000.
Definition neg_one : Z := 0xBF800000.
End Lane.

(** [XMMATRIX] and [XMFLOAT4X4]: four rows. *)
Record XMMATRIX := { r0 : XMVECTOR; r1 : XMVECTOR; r2 : XMVECTOR; r3 : XMVECTOR }.

Definition XMVectorGetY (v : XMVECTOR) : float := F32.of_bits (vy v).
Definition XMVectorGetZ (v : XMVECTOR) : float := F32.of_bits (vz v).

(** [XMLoadFloat4x4((const XMFLOAT4X4* )p)]: sixteen words, unchanged. *)
Definition XMLoadFloat4x4 (p : word_ptr) : XMMATRIX :=
  {| r0 := XMVectorSet (p 0) (p 1) (p 2) (p 3);
     r1 := XMVectorSet (p 4) (p 5) (p 6) (p 7);
     r2 := XMVectorSet (p 8) (p 9) (p 10) (p 11);
     r3 := XMVectorSet (p 12) (p 13) (p 14) (p 15) |}.

Definition XMMatrixTranspose (m : XMMATRIX) : XMMATRIX :=
  {| r0 := XMVectorSet (vx (r0 m)) (vx (r1 m)) (vx (r2 m)) (vx (r3 m));
     r1 := XMVectorSet (vy (r0 m)) (vy (r1 m)) (vy (r2 m)) (vy (r3 m));
     r2 := XMVectorSet (vz (r0 m)) (vz (r1 m)) (vz (r2 m)) (vz (r3 m));
     r3 := XMVectorSet (vw (r0 m)) (vw (r1 m)) (vw (r2 m)) (vw (r3 m)) |}.

Definition vector_lanes (v : XMVECTOR) : list Z := [vx v; vy v; vz v; vw v].

Definition matrix_lanes (m : XMMATRIX) : list Z :=
  vector_lanes (r0 m) ++ vector_lanes (r1 m)
  ++ vector_lanes (r2 m) ++ vector_lanes (r3 m).

(** The 64 bytes [XMStoreFloat4x4] writes: the sixteen lanes, unchanged. *)
Definition matrix_bytes (m : XMMATRIX) : list byte :=
  flat_map store_u32 (matrix_lanes m).

(** [XMStoreFloat4x4((XMFLOAT4X4* )(outFloats + offset), m)] on the byte
    vector behind [outFloats]; the callers check that the slot fits. *)
Definition XMStoreFloat4x4 (out : list byte) (offset : Z) (m : XMMATRIX) : list byte :=
  take (Z.to_nat (4 * offset)) out ++ matrix_bytes m
  ++ drop (Z.to_nat (4 * offset + 64)) out.

(** The routines of the DirectXMath library the controller relies on. *)
Class DirectXMath := {
  XMMatrixInverse : XMMATRIX -> XMMATRIX;
  XMVector3Normalize : XMVECTOR -> XMVECTOR;
  XMVectorAdd : XMVECTOR -> XMVECTOR -> XMVECTOR;
  XMVectorNegate : XMVECTOR -> XMVECTOR;
  XMMatrixLookAtRH : XMVECTOR -> XMVECTOR -> XMVECTOR -> XMMATRIX;
  XMMatrixLookAtLH : XMVECTOR -> XMVECTOR -> XMVECTOR -> XMMATRIX;
  XMMatrixPerspectiveFovRH : float -> float -> float -> float -> XMMATRIX;
  XMMatrixPerspectiveFovLH : float -> float -> float -> float -> XMMATRIX
}.

Definition identity_matrix : XMMATRIX :=
  {| r0 := XMVectorSet Lane.one Lane.zero Lane.zero Lane.zero;
     r1 := XMVectorSet Lane.zero Lane.one Lane.zero Lane.zero;
     r2 := XMVectorSet Lane.zero Lane.zero Lane.one Lane.zero;
     r3 := XMVectorSet Lane.zero Lane.zero Lane.zero Lane.one |}.

(** A stand-in for the library, used to run the model on sample buffers.
    The general statements below hold for every instance of [DirectXMath]. *)
Definition sample_math : DirectXMath :=
  {| XMMatrixInverse := fun m => m;
     XMVector3Normalize := fun v => v;
     XMVectorAdd := fun a _ => a;
     XMVectorNegate := fun v => v;
     XMMatrixLookAtRH := fun _ _ _ => identity_matrix;
     XMMatrixLookAtLH := fun _ _ _ => identity_matrix;
     XMMatrixPerspectiveFovRH := fun _ _ _ _ => identity_matrix;
     XMMatrixPerspectiveFovLH := fun _ _ _ _ => identity_matrix |}.

(* ===================================================================== *)
(** ** The camera controller *)
(* ===================================================================== *)

Module Camera.

Inductive CubeFace := Right | Left | Up | Down | Front | Back.

(** Modelled from the spec: the declaration of [BufferState], the
    per-handle cache entry, is in CameraController.h, which is not among
    the sources; the spec gives a byte snapshot, two element offsets that
    are either set or "none" and the [isCamera] flag. *)
Record BufferState := {
  data : list byte;
  viewMatrixOffset : Z;
  projMatrixOffset : Z;
  isCamera : bool
}.

(** Modelled from the spec: the value [m_bufferCache[handle]] creates for
    a new handle (the member initialisers are in the absent header).  The
    offsets start as "none"; the code tests [>= 0], so "none" is [-1]. *)
Definition new_BufferState : BufferState :=
  {| data := []; viewMatrixOffset := -1; projMatrixOffset := -1; isCamera := false |}.

(** What [LOG_INFO] is called with. *)
Inductive LogEntry :=
| LogScanning (handle : N) (size : Z) (isMapped : bool) (f0 f1 f2 f3 : float)
| LogDumpStart (handle : N) (size : Z)
| LogDumpLine (byteOffset : Z) (floats : list float)
| LogDumpEnd
| LogFoundView (handle : N) (i : Z)
| LogFoundProj (handle : N) (i : Z)
| LogZUp
| LogYUp.

(** The members of [CameraController], the two function-local statics of
    [ScanBufferImpl] and the messages sent to the log so far. *)
Record CameraController := {
  m_bufferCache : gmap N BufferState;
  m_cameraBuffer : N;
  m_lastGameView : XMMATRIX;
  m_lastGameProj : XMMATRIX;
  m_isTransposed : bool;
  m_isRH : bool;
  m_worldUp : XMVECTOR;
  m_upDetected : bool;
  m_deepScanDone : bool;
  logCounter : Z;
  noiseLogCount : Z;
  logged : list LogEntry
}.

(** Modelled from the spec: the member initialisers are in
    CameraController.h, which is not among the sources.  A controller on
    which nothing has run has no camera buffer (handle 0), an empty cache
    and has not determined the world-up vector. *)
Definition fresh (c : CameraController) : Prop :=
  m_cameraBuffer c = 0%N /\ m_bufferCache c = ∅ /\ m_upDetected c = false.

Definition set_data (d : list byte) (s : BufferState) : BufferState :=
  {| data := d; viewMatrixOffset := viewMatrixOffset s;
     projMatrixOffset := projMatrixOffset s; isCamera := isCamera s |}.

(** [state.viewMatrixOffset = off; state.isCamera = true;] *)
Definition set_view (off : Z) (s : BufferState) : BufferState :=
  {| data := data s; viewMatrixOffset := off;
     projMatrixOffset := projMatrixOffset s; isCamera := true |}.

(** [state.projMatrixOffset = off; state.isCamera = true;] *)
Definition set_proj (off : Z) (s : BufferState) : BufferState :=
  {| data := data s; viewMatrixOffset := viewMatrixOffset s;
     projMatrixOffset := off; isCamera := true |}.

Definition set_bufferCache (m : gmap N BufferState) (c : CameraController) :=
  {| m_bufferCache := m; m_cameraBuffer := m_cameraBuffer c;
     m_lastGameView := m_lastGameView c; m_lastGameProj := m_lastGameProj c;
     m_isTransposed := m_isTransposed c; m_isRH := m_isRH c;
     m_worldUp := m_worldUp c; m_upDetected := m_upDetected c;
     m_deepScanDone := m_deepScanDone c; logCounter := logCounter c;
     noiseLogCount := noiseLogCount c; logged := logged c |}.

Definition set_counters (lc nc : Z) (c : CameraController) :=
  {| m_bufferCache := m_bufferCache c; m_cameraBuffer := m_cameraBuffer c;
     m_lastGameView := m_lastGameView c; m_lastGameProj := m_lastGameProj c;
     m_isTransposed := m_isTransposed c; m_isRH := m_isRH c;
     m_worldUp := m_worldUp c; m_upDetected := m_upDetected c;
     m_deepScanDone := m_deepScanDone c; logCounter := lc;
     noiseLogCount := nc; logged := logged c |}.

Definition set_deepScanDone (b : bool) (c : CameraController) :=
  {| m_bufferCache := m_bufferCache c; m_cameraBuffer := m_cameraBuffer c;
     m_lastGameView := m_lastGameView c; m_lastGameProj := m_lastGameProj c;
     m_isTransposed := m_isTransposed c; m_isRH := m_isRH c;
     m_worldUp := m_worldUp c; m_upDetected := m_upDetected c;
     m_deepScanDone := b; logCounter := logCounter c;
     noiseLogCount := noiseLogCount c; logged := logged c |}.

(** [LOG_INFO(...)]. *)
Definition LOG_INFO (es : list LogEntry) (c : CameraController) :=
  {| m_bufferCache := m_bufferCache c; m_cameraBuffer := m_cameraBuffer c;
     m_lastGameView := m_lastGameView c; m_lastGameProj := m_lastGameProj c;
     m_isTransposed := m_isTransposed c; m_isRH := m_isRH c;
     m_worldUp := m_worldUp c; m_upDetected := m_upDetected c;
     m_deepScanDone := m_deepScanDone c; logCounter := logCounter c;
     noiseLogCount := noiseLogCount c; logged := logged c ++ es |}.

(** [m_worldUp = up; m_upDetected = true;] *)
Definition set_worldUp (up : XMVECTOR) (c : CameraController) :=
  {| m_bufferCache := m_bufferCache c; m_cameraBuffer := m_cameraBuffer c;
     m_lastGameView := m_lastGameView c; m_lastGameProj := m_lastGameProj c;
     m_isTransposed := m_isTransposed c; m_isRH := m_isRH c;
     m_worldUp := up; m_upDetected := true;
     m_deepScanDone := m_deepScanDone c; logCounter := logCounter c;
     noiseLogCount := noiseLogCount c; logged := logged c |}.

(** [m_isTransposed = t; m_lastGameView = v;] *)
Definition set_view_identity (t : bool) (v : XMMATRIX) (c : CameraController) :=
  {| m_bufferCache := m_bufferCache c; m_cameraBuffer := m_cameraBuffer c;
     m_lastGameView := v; m_lastGameProj := m_lastGameProj c;
     m_isTransposed := t; m_isRH := m_isRH c;
     m_worldUp := m_worldUp c; m_upDetected := m_upDetected c;
     m_deepScanDone := m_deepScanDone c; logCounter := logCounter c;
     noiseLogCount := noiseLogCount c; logged := logged c |}.

(** [m_isRH = rh; m_lastGameProj = p;] *)
Definition set_proj_identity (rh : bool) (p : XMMATRIX) (c : CameraController) :=
  {| m_bufferCache := m_bufferCache c; m_cameraBuffer := m_cameraBuffer c;
     m_lastGameView := m_lastGameView c; m_lastGameProj := p;
     m_isTransposed := m_isTransposed c; m_isRH := rh;
     m_worldUp := m_worldUp c; m_upDetected := m_upDetected c;
     m_deepScanDone := m_deepScanDone c; logCounter := logCounter c;
     noiseLogCount := noiseLogCount c; logged := logged c |}.

(** [m_cameraBuffer = resource;] *)
Definition set_cameraBuffer (resource : N) (c : CameraController) :=
  {| m_bufferCache := m_bufferCache c; m_cameraBuffer := resource;
     m_lastGameView := m_lastGameView c; m_lastGameProj := m_lastGameProj c;
     m_isTransposed := m_isTransposed c; m_isRH := m_isRH c;
     m_worldUp := m_worldUp c; m_upDetected := m_upDetected c;
     m_deepScanDone := m_deepScanDone c; logCounter := logCounter c;
     noiseLogCount := noiseLogCount c; logged := logged c |}.

(** *** The matrix tests *)

Definition epsilon : float := F32.lit_0_1.

Definition IsProjectionMatrix (data : float_ptr) : bool :=
  if F32.gtb (F32.abs (data 1)) epsilon || F32.gtb (F32.abs (data 2)) epsilon
     || F32.gtb (F32.abs (data 3)) epsilon then false
  else if F32.gtb (F32.abs (data 4)) epsilon || F32.gtb (F32.abs (data 6)) epsilon
     || F32.gtb (F32.abs (data 7)) epsilon then false
  else if F32.gtb (F32.abs (data 15)) epsilon then false
  else if F32.gtb (F32.abs (F32.sub (data 11) F32.one)) epsilon
       && F32.gtb (F32.abs (F32.add (data 11) F32.one)) epsilon then false
  else true.

Definition rowMajor (data : float_ptr) : bool :=
  F32.ltb (F32.abs (data 3)) epsilon && F32.ltb (F32.abs (data 7)) epsilon
  && F32.ltb (F32.abs (data 11)) epsilon
  && F32.ltb (F32.abs (F32.sub (data 15) F32.one)) epsilon.

Definition colMajor (data : float_ptr) : bool :=
  F32.ltb (F32.abs (data 12)) epsilon && F32.ltb (F32.abs (data 13)) epsilon
  && F32.ltb (F32.abs (data 14)) epsilon
  && F32.ltb (F32.abs (F32.sub (data 15) F32.one)) epsilon.

(** Returns the result and the value written through [outIsTransposed]
    (the only caller passes a non-null pointer). *)
Definition IsViewMatrix (data : float_ptr) : bool * bool :=
  (rowMajor data || colMajor data, colMajor data).

Definition IsRightHandedProjection (data : float_ptr) : bool :=
  F32.ltb (data 11) F32.lit_neg_0_9.

(** *** The patterns the tests are specified by *)

(** Zeros at 3, 7, 11 and a one at 15, up to [tol]. *)
Definition row_major_pattern (tol : Q) (d : float_ptr) : Prop :=
  F32.within tol 0 (d 3) /\ F32.within tol 0 (d 7) /\ F32.within tol 0 (d 11)
  /\ F32.within tol 1 (d 15).

(** Zeros at 12, 13, 14 and a one at 15, up to [tol]. *)
Definition col_major_pattern (tol : Q) (d : float_ptr) : Prop :=
  F32.within tol 0 (d 12) /\ F32.within tol 0 (d 13) /\ F32.within tol 0 (d 14)
  /\ F32.within tol 1 (d 15).

(** Elements 12, 13, 14 pass the comparison [std::abs(x) < 0.1f]. *)
Definition bottom_row_small (d : float_ptr) : Prop :=
  F32.strictly_within F32.eps 0 (d 12) /\ F32.strictly_within F32.eps 0 (d 13)
  /\ F32.strictly_within F32.eps 0 (d 14).

(** Zeros at 1, 2, 3, 4, 6, 7, 15 and plus or minus one at 11, up to [tol]. *)
Definition projection_pattern (tol : Q) (d : float_ptr) : Prop :=
  F32.within tol 0 (d 1) /\ F32.within tol 0 (d 2) /\ F32.within tol 0 (d 3)
  /\ F32.within tol 0 (d 4) /\ F32.within tol 0 (d 6) /\ F32.within tol 0 (d 7)
  /\ F32.within tol 0 (d 15)
  /\ (F32.within tol 1 (d 11) \/ F32.within tol (inject_Z (-1)) (d 11)).

(** None of the elements the projection test reads is a NaN. *)
Definition tested_not_nan (d : float_ptr) : Prop :=
  Forall (fun i => F32.is_nan (d i) = false) [1; 2; 3; 4; 6; 7; 11; 15].

Section WithMath.
Context {dx : DirectXMath}.

Definition DetectWorldUp (viewMat : XMMATRIX) (c : CameraController) : CameraController :=
  let invView := XMMatrixInverse viewMat in
  let up := XMVector3Normalize (r1 invView) in
  let y := XMVectorGetY up in
  let z := XMVectorGetZ up in
  if F32.gtb (F32.abs z) (F32.abs y) then
    let up' := if F32.gtb z F32.zero
               then XMVectorSet Lane.zero Lane.zero Lane.one Lane.zero
               else XMVectorSet Lane.zero Lane.zero Lane.neg_one Lane.zero in
    set_worldUp up' (LOG_INFO [LogZUp] c)
  else
    let up' := if F32.gtb y F32.zero
               then XMVectorSet Lane.zero Lane.one Lane.zero Lane.zero
               else XMVectorSet Lane.zero Lane.neg_one Lane.zero Lane.zero in
    set_worldUp up' (LOG_INFO [LogYUp] c).

(** *** The scan *)

(** Neither early return of [ScanBufferImpl] is taken. *)
Definition accepted (size : Z) (isMapped : bool) : bool :=
  negb (size <? 64) && negb (isMapped && (4096 <? size)).

(** The values [i] takes in [for (i = 0; i <= floatCount - 16; i += 4)];
    the callers have [floatCount >= 16]. *)
Definition scan_offsets (floatCount : Z) : list Z :=
  map (fun k => 4 * Z.of_nat k) (seq 0 (Z.to_nat ((floatCount - 16) / 4 + 1))).

(** The first offset at which the view-matrix loop breaks, if any. *)
Definition find_view (floatData : float_ptr) (floatCount : Z) : option Z :=
  List.find (fun i => fst (IsViewMatrix (offset_by floatData i))) (scan_offsets floatCount).

Definition find_proj (floatData : float_ptr) (floatCount : Z) : option Z :=
  List.find (fun i => IsProjectionMatrix (offset_by floatData i)) (scan_offsets floatCount).

(** The lines of the full buffer dump. *)
Definition dump_lines (floatData : float_ptr) (floatCount : Z) : list LogEntry :=
  flat_map (fun k =>
    let i := 8 * Z.of_nat k in
    if i + 7 <? floatCount
    then [LogDumpLine (i * 4) (map (fun j => floatData (i + Z.of_nat j)) (seq 0 8))]
    else [])
    (seq 0 (Z.to_nat ((floatCount + 7) / 8))).

(** The body of the view-matrix loop at its first match [i]. *)
Definition on_view_match (resource : N) (data : memory) (i : Z)
    (sc : BufferState * CameraController) : BufferState * CameraController :=
  let '(state, c) := sc in
  let floatData := as_floats data in
  let transposed := snd (IsViewMatrix (offset_by floatData i)) in
  let state := set_view (to_int i) state in
  let c := LOG_INFO [LogFoundView resource i] c in
  let viewMat := XMLoadFloat4x4 (offset_by (as_words data) i) in
  let viewMat := if transposed then XMMatrixTranspose viewMat else viewMat in
  let c := set_view_identity transposed viewMat c in
  let c := if negb (m_upDetected c) then DetectWorldUp viewMat c else c in
  (state, set_cameraBuffer resource c).

(** The body of the projection-matrix loop at its first match [i]. *)
Definition on_proj_match (resource : N) (data : memory) (i : Z)
    (sc : BufferState * CameraController) : BufferState * CameraController :=
  let '(state, c) := sc in
  let floatData := as_floats data in
  let state := set_proj (to_int i) state in
  let c := LOG_INFO [LogFoundProj resource i] c in
  let c := set_proj_identity (IsRightHandedProjection (offset_by floatData i))
                             (XMLoadFloat4x4 (offset_by (as_words data) i)) c in
  (state, set_cameraBuffer resource c).

(** The sampling of verbose logging: [logCounter++ % 500 == 0], the noisy
    size class and its budget of five messages. *)
Definition log_sampling (size : Z) (c : CameraController) : bool * CameraController :=
  let logThisFrame := Z.rem (logCounter c) 500 =? 0 in
  let c := set_counters (to_int (logCounter c + 1)) (noiseLogCount c) c in
  let isNoisy := (9000 <? size) && (size <? 11000) in
  if logThisFrame then
    if negb isNoisy then (true, c)
    else if noiseLogCount c <? 5
         then (true, set_counters (logCounter c) (noiseLogCount c + 1) c)
         else (false, c)
  else (false, c).

Definition ScanBufferImpl (resource : N) (data : memory) (size : Z) (isMapped : bool)
    (c : CameraController) : CameraController :=
  if size <? 64 then c
  else if isMapped && (4096 <? size) then c
  else
    let '(shouldLog, c) := log_sampling size c in
    let handle := resource in
    let state := default new_BufferState (m_bufferCache c !! handle) in
    let state := set_data (read_bytes data size) state in
    let floatData := as_floats data in
    let floatCount := size / 4 in
    let c :=
      if shouldLog && (m_cameraBuffer c =? 0)%N
      then LOG_INFO [LogScanning handle size isMapped (floatData 0) (floatData 1)
                                 (floatData 2) (floatData 3)] c
      else c in
    let c :=
      if (m_cameraBuffer c =? 0)%N && negb (m_deepScanDone c)
         && (200 <? size) && (size <? 2000)
      then LOG_INFO ([LogDumpStart handle size] ++ dump_lines floatData floatCount
                     ++ [LogDumpEnd]) (set_deepScanDone true c)
      else c in
    let sc := (state, c) in
    let sc := match find_view floatData floatCount with
              | Some i => on_view_match resource data i sc
              | None => sc
              end in
    let sc := match find_proj floatData floatCount with
              | Some i => on_proj_match resource data i sc
              | None => sc
              end in
    set_bufferCache (<[handle := fst sc]> (m_bufferCache (snd sc))) (snd sc).

Definition OnUpdateBuffer (resource : N) (data : memory) (size : Z) :=
  ScanBufferImpl resource data size false.

Definition OnScanBuffer (resource : N) (data : memory) (size : Z) :=
  ScanBufferImpl resource data size true.

(** *** The rewriter *)

Definition GetViewMatrixForFace (face : CubeFace) (c : CameraController) : XMMATRIX :=
  let invView := XMMatrixInverse (m_lastGameView c) in
  let eyePos := r3 invView in
  let isZUp := F32.gtb (F32.abs (XMVectorGetZ (m_worldUp c))) F32.lit_0_9 in
  let vRight := XMVectorSet Lane.one Lane.zero Lane.zero Lane.zero in
  let vLeft := XMVectorSet Lane.neg_one Lane.zero Lane.zero Lane.zero in
  let vUp := if isZUp then XMVectorSet Lane.zero Lane.zero Lane.one Lane.zero
             else XMVectorSet Lane.zero Lane.one Lane.zero Lane.zero in
  let vDown := if isZUp then XMVectorSet Lane.zero Lane.zero Lane.neg_one Lane.zero
               else XMVectorSet Lane.zero Lane.neg_one Lane.zero Lane.zero in
  let vFront := if isZUp then XMVectorSet Lane.zero Lane.one Lane.zero Lane.zero
                else if m_isRH c then XMVectorSet Lane.zero Lane.zero Lane.neg_one Lane.zero
                else XMVectorSet Lane.zero Lane.zero Lane.one Lane.zero in
  let vBack := if isZUp then XMVectorSet Lane.zero Lane.neg_one Lane.zero Lane.zero
               else if m_isRH c then XMVectorSet Lane.zero Lane.zero Lane.one Lane.zero
               else XMVectorSet Lane.zero Lane.zero Lane.neg_one Lane.zero in
  let '(targetDir, upDir) :=
    match face with
    | Right => (vRight, m_worldUp c)
    | Left => (vLeft, m_worldUp c)
    | Up => (vUp, vFront)
    | Down => (vDown, XMVectorNegate vFront)
    | Front => (vFront, m_worldUp c)
    | Back => (vBack, m_worldUp c)
    end in
  if m_isRH c then XMMatrixLookAtRH eyePos (XMVectorAdd eyePos targetDir) upDir
  else XMMatrixLookAtLH eyePos (XMVectorAdd eyePos targetDir) upDir.

(** [offset >= 0 && (size_t)(offset + 16) <= floatCount] *)
Definition slot_fits (offset floatCount : Z) : bool :=
  (0 <=? offset) && (to_size_t (to_int (offset + 16)) <=? floatCount).

(** Returns the controller after the call, the result and the contents of
    [outputData] after the call. *)
Definition GetModifiedBufferData (face : CubeFace) (outputData : list byte)
    (c : CameraController) : CameraController * (bool * list byte) :=
  if (m_cameraBuffer c =? 0)%N then (c, (false, outputData))
  else
    match m_bufferCache c !! m_cameraBuffer c with
    | None => (c, (false, outputData))
    | Some state =>
        let outputData := data state in
        let floatCount := Z.of_nat (length outputData) / 4 in
        let outputData :=
          if slot_fits (viewMatrixOffset state) floatCount then
            let newView := GetViewMatrixForFace face c in
            let newView := if m_isTransposed c then XMMatrixTranspose newView else newView in
            XMStoreFloat4x4 outputData (viewMatrixOffset state) newView
          else outputData in
        let outputData :=
          if slot_fits (projMatrixOffset state) floatCount then
            let newProj :=
              if m_isRH c
              then XMMatrixPerspectiveFovRH F32.XM_PIDIV2 F32.one F32.lit_0_1 F32.lit_1000
              else XMMatrixPerspectiveFovLH F32.XM_PIDIV2 F32.one F32.lit_0_1 F32.lit_1000 in
            XMStoreFloat4x4 outputData (projMatrixOffset state) newProj
          else outputData in
        (c, (true, outputData))
    end.

(** *** Sequences of calls *)

Inductive Call :=
| CallUpdateBuffer (resource : N) (data : memory) (size : Z)
| CallScanBuffer (resource : N) (data : memory) (size : Z)
| CallGetModifiedBufferData (face : CubeFace) (outputData : list byte).

Definition step (c : CameraController) (op : Call) : CameraController :=
  match op with
  | CallUpdateBuffer r d n => OnUpdateBuffer r d n c
  | CallScanBuffer r d n => OnScanBuffer r d n c
  | CallGetModifiedBufferData f o => fst (GetModifiedBufferData f o c)
  end.

Definition run (ops : list Call) (c : CameraController) : CameraController :=
  fold_left step ops c.

(** A scan that is not rejected and finds a view or a projection matrix. *)
Definition finds_camera (data : memory) (size : Z) (isMapped : bool) : bool :=
  accepted size isMapped
  && (bool_decide (is_Some (find_view (as_floats data) (size / 4)))
      || bool_decide (is_Some (find_proj (as_floats data) (size / 4)))).

Definition detects (op : Call) : bool :=
  match op with
  | CallUpdateBuffer _ d n => finds_camera d n false
  | CallScanBuffer _ d n => finds_camera d n true
  | CallGetModifiedBufferData _ _ => false
  end.

(** The cache entry a scan that is not rejected leaves for its handle. *)
Definition scanned_state (data : memory) (size : Z) (old : BufferState) : BufferState :=
  let st := set_data (read_bytes data size) old in
  let st := match find_view (as_floats data) (size / 4) with
            | Some i => set_view (to_int i) st
            | None => st
            end in
  match find_proj (as_floats data) (size / 4) with
  | Some i => set_proj (to_int i) st
  | None => st
  end.

(** The size of a scanned buffer is a [uint64_t]. *)
Definition call_size_ok (op : Call) : Prop :=
  match op with
  | CallUpdateBuffer _ _ n | CallScanBuffer _ _ n => 0 <= n < 2 ^ 64
  | CallGetModifiedBufferData _ _ => True
  end.

(** The camera handle is zero or has an entry in the cache. *)
Definition camera_cached (c : CameraController) : Prop :=
  m_cameraBuffer c = 0%N \/ is_Some (m_bufferCache c !! m_cameraBuffer c).

(** The bytes [GetModifiedBufferData] overwrites for an offset: the 64
    bytes of the slot when it fits, none otherwise. *)
Definition in_replaced_slot (state : BufferState) (offset : Z) (i : nat) : Prop :=
  slot_fits offset (Z.of_nat (length (data state)) / 4) = true
  /\ 4 * offset <= Z.of_nat i < 4 * offset + 64.

(** Offsets are [int]s and a vector has fewer than [2^64] bytes. *)
Definition representable (state : BufferState) : Prop :=
  - 2 ^ 31 <= viewMatrixOffset state < 2 ^ 31
  /\ - 2 ^ 31 <= projMatrixOffset state < 2 ^ 31
  /\ Z.of_nat (length (data state)) < 2 ^ 64.

End WithMath.

End Camera.

(* ===================================================================== *)
(** ** The map/unmap handlers of the cubemap manager *)
(* ===================================================================== *)

Module Graphics.

(** A ledger entry [{ data, size }]; a pointer is an address, null is 0. *)
Record MappedBuffer := { data : Z; size : Z }.

Record CubemapManager := {
  m_mappedBuffers : gmap N MappedBuffer;
  m_cameraController : option Camera.CameraController
}.

Definition OnMapBuffer (resource : N) (size : Z) (data : Z) (g : CubemapManager)
    : CubemapManager :=
  if data =? 0 then g
  else {| m_mappedBuffers := <[resource := {| data := data; size := size |}]> (m_mappedBuffers g);
          m_cameraController := m_cameraController g |}.

(** [heap] gives the memory behind each address at the time of the call. *)
Definition OnUnmapBuffer {dx : DirectXMath} (heap : Z -> memory) (resource : N)
    (g : CubemapManager) : CubemapManager :=
  let '(dataPtr, size, ledger) :=
    match m_mappedBuffers g !! resource with
    | Some it => (data it, size it, delete resource (m_mappedBuffers g))
    | None => (0, 0, m_mappedBuffers g)
    end in
  if negb (dataPtr =? 0) && (64 <? size) then
    match m_cameraController g with
    | Some c =>
        {| m_mappedBuffers := ledger;
           m_cameraController := Some (Camera.OnUpdateBuffer resource (heap dataPtr) size c) |}
    | None => {| m_mappedBuffers := ledger; m_cameraController := None |}
    end
  else {| m_mappedBuffers := ledger; m_cameraController := m_cameraController g |}.

End Graphics.

(* ===================================================================== *)
(** ** Sample inputs *)
(* ===================================================================== *)

(** A window or buffer given by the bit patterns of its floats. *)
Definition bits_of_list (l : list Z) : Z -> Z := fun j => nth (Z.to_nat j) l 0.

(** The identity matrix: it has the zeros and the one of both patterns. *)
Definition identity_bits : Z -> Z :=
  bits_of_list [0x3F800000; 0; 0; 0;  0; 0x3F800000; 0; 0;
                0; 0; 0x3F800000; 0;  0; 0; 0; 0x3F800000].

(** A row-major view matrix with the translation (5, 5, 5) in its last row. *)
Definition translated_view_bits : Z -> Z :=
  bits_of_list [0x3F800000; 0; 0; 0;  0; 0x3F800000; 0; 0;
                0; 0; 0x3F800000; 0;  0x40A00000; 0x40A00000; 0x40A00000; 0x3F800000].

(** Sixteen times the word 0xFFFFFFFF (the integer -1), a NaN as a float. *)
Definition nan_bits : Z -> Z := fun _ => 0xFFFFFFFF.

(** A right-handed perspective projection: [data[11] = -1]. *)
Definition rh_projection_bits : Z -> Z :=
  bits_of_list [0x3F800000; 0; 0; 0;  0; 0x3F800000; 0; 0;
                0; 0; 0xBF800000; 0xBF800000;  0; 0; 0xBE4CCCCD; 0].

(** Modelled from the spec: a controller on which nothing has run, as
    [Camera.fresh] describes it; the members the spec does not fix get the
    identity matrix, Y as the up axis and cleared flags. *)
Definition initial_controller : Camera.CameraController :=
  {| Camera.m_bufferCache := ∅; Camera.m_cameraBuffer := 0%N;
     Camera.m_lastGameView := identity_matrix; Camera.m_lastGameProj := identity_matrix;
     Camera.m_isTransposed := false; Camera.m_isRH := false;
     Camera.m_worldUp := XMVectorSet Lane.zero Lane.one Lane.zero Lane.zero;
     Camera.m_upDetected := false; Camera.m_deepScanDone := false;
     Camera.logCounter := 0; Camera.noiseLogCount := 0; Camera.logged := [] |}.

(** An 80-byte buffer, zero except for the float 1.0 at element 19: the
    window at element 4 passes the view-matrix test, the one at 0 does not. *)
Definition view_at_4_buffer : list byte :=
  repeat x00 76 ++ store_u32 0x3F800000.

(** The bytes of a buffer given by the bit patterns of its floats. *)
Definition buffer_of_bits (l : list Z) : list byte := flat_map store_u32 l.

(** A 64-byte row-major view matrix whose second row is (0, 0, 1, 0): taken
    as its own inverse it puts the up axis along Z. *)
Definition z_up_view_buffer : list byte :=
  buffer_of_bits [0x3F800000; 0; 0; 0;  0; 0; 0x3F800000; 0;
                  0; 0x3F800000; 0; 0;  0x40A00000; 0x40A00000; 0x40A00000; 0x3F800000].

(** The window whose element 1 is exactly [0.1f] and which otherwise is a
    left-handed projection pattern. *)
Definition boundary_projection_bits : Z -> Z :=
  bits_of_list [0x3F800000; 0x3DCCCCCD; 0; 0;  0; 0x3F800000; 0; 0;
                0; 0; 0x3F800000; 0x3F800000;  0; 0; 0xBE4CCCCD; 0].

(** A 64-byte buffer of zeros: no window passes either test. *)
Definition zero_buffer : list byte := repeat x00 64.

(** A 4100-byte buffer that starts like [view_at_4_buffer]. *)
Definition large_view_buffer : list byte := view_at_4_buffer ++ repeat x00 4020.

(** A matrix with NaN lanes of two different payloads in its first row and
    column, and a stand-in for the library whose look-at routines return
    it. *)
Definition nan_lanes_matrix : XMMATRIX :=
  {| r0 := XMVectorSet 0xFFFFFFFF 0x7F800001 Lane.zero Lane.zero;
     r1 := XMVectorSet 0x7F800001 Lane.one Lane.zero Lane.zero;
     r2 := XMVectorSet Lane.zero Lane.zero Lane.one Lane.zero;
     r3 := XMVectorSet Lane.zero Lane.zero Lane.zero Lane.one |}.

Definition nan_math : DirectXMath :=
  {| XMMatrixInverse := fun m => m;
     XMVector3Normalize := fun v => v;
     XMVectorAdd := fun a _ => a;
     XMVectorNegate := fun v => v;
     XMMatrixLookAtRH := fun _ _ _ => nan_lanes_matrix;
     XMMatrixLookAtLH := fun _ _ _ => nan_lanes_matrix;
     XMMatrixPerspectiveFovRH := fun _ _ _ _ => identity_matrix;
     XMMatrixPerspectiveFovLH := fun _ _ _ _ => identity_matrix |}.

(** Memory that reads as zero everywhere. *)
Definition zero_memory : memory := fun _ => x00.

(** A ledger holding one mapping of 8192 bytes at address 4096 for
    resource 7, with a controller attached. *)
Definition large_mapping : Graphics.CubemapManager :=
  {| Graphics.m_mappedBuffers := {[ 7%N := {| Graphics.data := 4096; Graphics.size := 8192 |} ]};
     Graphics.m_cameraController := Some initial_controller |}.

(* ===================================================================== *)
(** ** Vocabulary for call sequences, the log and the rewritten slots *)
(* ===================================================================== *)

(** The resource a call scans, if it is a scan. *)
Definition call_resource (op : Camera.Call) : option N :=
  match op with
  | Camera.CallUpdateBuffer r _ _ | Camera.CallScanBuffer r _ _ => Some r
  | Camera.CallGetModifiedBufferData _ _ => None
  end.

(** The resource of the last scan of [ops] that found a matrix, [h0] when
    there is none. *)
Definition last_camera (ops : list Camera.Call) (h0 : N) : N :=
  fold_left (fun h op => if Camera.detects op then default h (call_resource op) else h) ops h0.

(** The four vectors [DetectWorldUp] chooses from. *)
Definition z_up : XMVECTOR := XMVectorSet Lane.zero Lane.zero Lane.one Lane.zero.
Definition z_down : XMVECTOR := XMVectorSet Lane.zero Lane.zero Lane.neg_one Lane.zero.
Definition y_up : XMVECTOR := XMVectorSet Lane.zero Lane.one Lane.zero Lane.zero.
Definition y_down : XMVECTOR := XMVectorSet Lane.zero Lane.neg_one Lane.zero Lane.zero.

(** A "Scanning Buffer" message for a buffer of the noisy size class. *)
Definition is_noisy_scanning (e : Camera.LogEntry) : bool :=
  match e with
  | Camera.LogScanning _ size _ _ _ _ _ => (9000 <? size) && (size <? 11000)
  | _ => false
  end.

Definition count_noisy (l : list Camera.LogEntry) : Z :=
  Z.of_nat (length (List.filter is_noisy_scanning l)).

(** The opening line of a full buffer dump. *)
Definition is_dump_start (e : Camera.LogEntry) : bool :=
  match e with
  | Camera.LogDumpStart _ _ => true
  | _ => false
  end.

Definition count_dumps (l : list Camera.LogEntry) : Z :=
  Z.of_nat (length (List.filter is_dump_start l)).

(** The controller without its log. *)
Definition clear_log (c : Camera.CameraController) : Camera.CameraController :=
  {| Camera.m_bufferCache := Camera.m_bufferCache c;
     Camera.m_cameraBuffer := Camera.m_cameraBuffer c;
     Camera.m_lastGameView := Camera.m_lastGameView c;
     Camera.m_lastGameProj := Camera.m_lastGameProj c;
     Camera.m_isTransposed := Camera.m_isTransposed c;
     Camera.m_isRH := Camera.m_isRH c;
     Camera.m_worldUp := Camera.m_worldUp c;
     Camera.m_upDetected := Camera.m_upDetected c;
     Camera.m_deepScanDone := Camera.m_deepScanDone c;
     Camera.logCounter := Camera.logCounter c;
     Camera.noiseLogCount := Camera.noiseLogCount c;
     Camera.logged := [] |}.

(** The view matrix [GetModifiedBufferData] stores for a face. *)
Definition synthesized_view {dx : DirectXMath} (face : Camera.CubeFace)
    (c : Camera.CameraController) : XMMATRIX :=
  if Camera.m_isTransposed c
  then XMMatrixTranspose (Camera.GetViewMatrixForFace face c)
  else Camera.GetViewMatrixForFace face c.

(** The projection matrix [GetModifiedBufferData] stores. *)
Definition synthesized_proj {dx : DirectXMath} (c : Camera.CameraController) : XMMATRIX :=
  if Camera.m_isRH c
  then XMMatrixPerspectiveFovRH F32.XM_PIDIV2 F32.one F32.lit_0_1 F32.lit_1000
  else XMMatrixPerspectiveFovLH F32.XM_PIDIV2 F32.one F32.lit_0_1 F32.lit_1000.

(** Byte [i] lies in the 64-byte slot of element offset [offset]. *)
Definition in_slot (offset : Z) (i : nat) : Prop :=
  4 * offset <= Z.of_nat i < 4 * offset + 64.

(** The two remaining signed axes. *)
Definition x_pos : XMVECTOR := XMVectorSet Lane.one Lane.zero Lane.zero Lane.zero.
Definition x_neg : XMVECTOR := XMVectorSet Lane.neg_one Lane.zero Lane.zero Lane.zero.

(** [targetDir] and [upDir] as [GetViewMatrixForFace] has them after its
    [switch (face)]. *)
Definition face_directions {dx : DirectXMath} (face : Camera.CubeFace)
    (c : Camera.CameraController) : XMVECTOR * XMVECTOR :=
  let isZUp := F32.gtb (F32.abs (XMVectorGetZ (Camera.m_worldUp c))) F32.lit_0_9 in
  let vFront := if isZUp then y_up else if Camera.m_isRH c then z_down else z_up in
  let vBack := if isZUp then y_down else if Camera.m_isRH c then z_up else z_down in
  match face with
  | Camera.Right => (x_pos, Camera.m_worldUp c)
  | Camera.Left => (x_neg, Camera.m_worldUp c)
  | Camera.Up => (if isZUp then z_up else y_up, vFront)
  | Camera.Down => (if isZUp then z_down else y_down, XMVectorNegate vFront)
  | Camera.Front => (vFront, Camera.m_worldUp c)
  | Camera.Back => (vBack, Camera.m_worldUp c)
  end.

(** The faces of the cube map, in the order of the [switch]. *)
Definition all_faces : list Camera.CubeFace :=
  [Camera.Right; Camera.Left; Camera.Up; Camera.Down; Camera.Front; Camera.Back].

(* ===================================================================== *)
(** ** Facts about single-precision arithmetic *)
(* ===================================================================== *)

Section FloatFacts.

Lemma digits2_size p : digits2_pos p = Pos.size p.
Proof. induction p; simpl; congruence. Qed.

Lemma digits_upper p : Zpos p < 2 ^ Zpos (digits2_pos p).
Proof.
  rewrite digits2_size. pose proof (Pos.size_gt p) as H.
  apply Pos2Z.pos_lt_pos in H. rewrite Pos2Z.inj_pow in H. exact H.
Qed.

Lemma digits_lower p : 2 ^ (Zpos (digits2_pos p) - 1) <= Zpos p.
Proof.
  rewrite digits2_size. pose proof (Pos.size_le p) as H.
  assert (2 ^ Zpos (Pos.size p) <= 2 * Zpos p).
  { apply Pos2Z.pos_le_pos in H. rewrite Pos2Z.inj_pow in H. exact H. }
  replace (Zpos (Pos.size p)) with (Z.succ (Zpos (Pos.size p) - 1)) in H0 by lia.
  rewrite Z.pow_succ_r in H0 by lia. lia.
Qed.

Lemma digits_unique p d : 2 ^ (d - 1) <= Zpos p < 2 ^ d -> Zpos (digits2_pos p) = d.
Proof.
  intros [Hl Hu]. pose proof (digits_upper p). pose proof (digits_lower p).
  destruct (Z.lt_trichotomy (Zpos (digits2_pos p)) d) as [Hc|[Hc|Hc]]; [|done|].
  - assert (2 ^ Zpos (digits2_pos p) <= 2 ^ (d - 1)) by (apply Z.pow_le_mono_r; lia). lia.
  - assert (0 <= d).
    { destruct (Z.le_gt_cases 0 d); [done|]. rewrite (Z.pow_neg_r 2 d) in Hu by lia. lia. }
    assert (2 ^ d <= 2 ^ (Zpos (digits2_pos p) - 1)) by (apply Z.pow_le_mono_r; lia). lia.
Qed.

Lemma iter_xO p d : Zpos (Pos.iter xO p d) = Zpos p * 2 ^ Zpos d.
Proof.
  induction d using Pos.peano_ind.
  - simpl. lia.
  - rewrite Pos.iter_succ, Pos2Z.inj_succ, Z.pow_succ_r by lia.
    rewrite Pos2Z.inj_xO, IHd. lia.
Qed.

Lemma shl_align_val mx ex ez :
  ez <= ex -> shl_align mx ex ez = (Z.to_pos (Zpos mx * 2 ^ (ex - ez)), ez).
Proof.
  intros H. unfold shl_align.
  destruct (ez - ex) eqn:E; try lia.
  - assert (ex = ez) by lia. subst. rewrite Z.sub_diag. simpl. f_equal. lia.
  - f_equal. replace (ex - ez) with (Zpos p) by lia.
    rewrite <- iter_xO. done.
Qed.

Lemma shr_1_m r : 0 <= shr_m r -> shr_m (shr_1 r) = shr_m r / 2.
Proof.
  destruct r as [m r s]. cbn [shr_m]. intros H.
  destruct m as [|[p|p|]|p]; cbn [shr_1 shr_m]; try lia; try reflexivity.
  - apply Z.div_unique with 1; lia.
  - apply Z.div_unique with 0; lia.
Qed.

Lemma iter_shr_1_m n : forall r, 0 <= shr_m r ->
  shr_m (SpecFloat.iter_pos shr_1 n r) = shr_m r / 2 ^ Zpos n.
Proof.
  induction n; intros r H; simpl SpecFloat.iter_pos.
  - assert (H1 : 0 <= shr_m (shr_1 r)) by (rewrite shr_1_m by done; apply Z.div_pos; lia).
    assert (H2 : 0 <= shr_m (SpecFloat.iter_pos shr_1 n (shr_1 r))).
    { rewrite IHn by done. apply Z.div_pos; [done|]. apply Z.pow_pos_nonneg; lia. }
    rewrite IHn, IHn, shr_1_m by done.
    rewrite !Z.div_div by (try apply Z.pow_pos_nonneg; lia).
    f_equal. change 2 with (2 ^ 1) at 1.
    rewrite <- !Z.pow_add_r by lia. f_equal. lia.
  - assert (H2 : 0 <= shr_m (SpecFloat.iter_pos shr_1 n r)).
    { rewrite IHn by done. apply Z.div_pos; [done|]. apply Z.pow_pos_nonneg; lia. }
    rewrite IHn, IHn by done.
    rewrite !Z.div_div by (try apply Z.pow_pos_nonneg; lia).
    f_equal. rewrite <- !Z.pow_add_r by lia. f_equal. lia.
  - rewrite shr_1_m by done. reflexivity.
Qed.

Lemma fexp32 e : fexp 24 128 e = Z.max (e - 24) (-149).
Proof. reflexivity. Qed.

Lemma shr_fexp_id q e :
  Z.max (Zpos (digits2_pos q) + e - 24) (-149) = e ->
  shr_fexp 24 128 (Zpos q) e loc_Exact
  = ({| shr_m := Zpos q; shr_r := false; shr_s := false |}, e).
Proof.
  intros H. unfold shr_fexp. rewrite fexp32. cbn [Zdigits2].
  rewrite H, Z.sub_diag. reflexivity.
Qed.

Lemma digits_shift p k :
  0 <= k -> Zpos (digits2_pos (Z.to_pos (Zpos p * 2 ^ k))) = Zpos (digits2_pos p) + k.
Proof.
  intros Hk. pose proof (digits_upper p). pose proof (digits_lower p).
  assert (0 < 2 ^ k) by (apply Z.pow_pos_nonneg; lia).
  apply digits_unique. rewrite Z2Pos.id by lia.
  replace (Zpos (digits2_pos p) + k - 1) with (Zpos (digits2_pos p) - 1 + k) by lia.
  rewrite !Z.pow_add_r by lia. nia.
Qed.

(** Rounding a significand that fits is exact. *)
Lemma binary_round_exact s p ez :
  let e' := Z.max (Zpos (digits2_pos p) + ez - 24) (-149) in
  e' <= ez -> e' <= 104 ->
  binary_round 24 128 s p ez = S754_finite s (Z.to_pos (Zpos p * 2 ^ (ez - e'))) e'.
Proof.
  intros e' He Hmax. unfold binary_round. rewrite fexp32. fold e'.
  rewrite shl_align_val by done.
  assert (0 < 2 ^ (ez - e')) by (apply Z.pow_pos_nonneg; lia).
  assert (Hid : Z.max (Zpos (digits2_pos (Z.to_pos (Zpos p * 2 ^ (ez - e')))) + e' - 24) (-149) = e').
  { rewrite digits_shift by lia. unfold e'. lia. }
  unfold binary_round_aux. rewrite Z2Pos.id by lia.
  set (q := Zpos p * 2 ^ (ez - e')). assert (Hq : q = Zpos (Z.to_pos q)) by (unfold q; rewrite Z2Pos.id; lia).
  rewrite Hq at 1. rewrite shr_fexp_id by (unfold q; exact Hid).
  cbn [shr_m loc_of_shr_record round_nearest_even].
  rewrite shr_fexp_id by (unfold q; exact Hid).
  cbn [shr_m]. replace (e' <=? 128 - 24) with true by (symmetry; apply Z.leb_le; lia).
  reflexivity.
Qed.

Lemma round_nearest_even_range m l :
  round_nearest_even m l = m \/ round_nearest_even m l = m + 1.
Proof. destruct l as [|[]]; simpl; auto. destruct (Z.even m); auto. Qed.

(** Rounding a longer significand keeps at least its leading exponent. *)
Lemma binary_round_big s p ez :
  24 < Zpos (digits2_pos p) -> -149 <= ez ->
  binary_round 24 128 s p ez = S754_infinity s \/
  exists m' e', Zpos (digits2_pos p) + ez - 24 <= e'
                /\ binary_round 24 128 s p ez = S754_finite s m' e'.
Proof.
  intros Hd Hez. set (d := Zpos (digits2_pos p)) in *.
  set (e1 := d + ez - 24).
  pose proof (digits_upper p) as Hu. pose proof (digits_lower p) as Hl. fold d in Hu, Hl.
  unfold binary_round. rewrite fexp32. fold d.
  replace (Z.max (d + ez - 24) (-149)) with e1 by (unfold e1; lia).
  assert (Hal : shl_align p ez e1 = (p, ez)).
  { unfold shl_align. destruct (e1 - ez) eqn:E; try reflexivity. unfold e1 in E. lia. }
  rewrite Hal. unfold binary_round_aux.
  assert (Hs1 : shr_fexp 24 128 (Zpos p) ez loc_Exact
                = (SpecFloat.iter_pos shr_1 (Z.to_pos (d - 24))
                     {| shr_m := Zpos p; shr_r := false; shr_s := false |}, e1)).
  { unfold shr_fexp. rewrite fexp32. cbn [Zdigits2]. fold d.
    replace (Z.max (d + ez - 24) (-149) - ez) with (d - 24) by lia.
    unfold shr. destruct (d - 24) eqn:E; try lia. cbn [shr_record_of_loc].
    f_equal. unfold e1. lia. }
  rewrite Hs1.
  set (r1 := SpecFloat.iter_pos shr_1 _ _).
  assert (Hm1 : shr_m r1 = Zpos p / 2 ^ (d - 24)).
  { unfold r1. rewrite iter_shr_1_m by (cbn; lia). cbn [shr_m]. rewrite Z2Pos.id by lia. done. }
  assert (Hb : 2 ^ 23 <= shr_m r1 < 2 ^ 24).
  { rewrite Hm1. assert (0 < 2 ^ (d - 24)) by (apply Z.pow_pos_nonneg; lia).
    assert (E1 : 2 ^ (d - 1) = 2 ^ 23 * 2 ^ (d - 24)).
    { rewrite <- Z.pow_add_r by lia. f_equal. lia. }
    assert (E2 : 2 ^ d = 2 ^ 24 * 2 ^ (d - 24)).
    { rewrite <- Z.pow_add_r by lia. f_equal. lia. }
    split.
    - apply Z.div_le_lower_bound; lia.
    - apply Z.div_lt_upper_bound; lia. }
  set (m2 := round_nearest_even (shr_m r1) (loc_of_shr_record r1)).
  assert (Hm2 : 2 ^ 23 <= m2 <= 2 ^ 24).
  { unfold m2. destruct (round_nearest_even_range (shr_m r1) (loc_of_shr_record r1)) as [->| ->]; lia. }
  destruct m2 as [|q2|q2] eqn:Eq2; try lia.
  destruct (Z.eq_dec (Zpos q2) (2 ^ 24)) as [Hc|Hc].
  - (* carry *)
    assert (q2 = 16777216%positive) by lia. subst q2.
    assert (Hs2 : shr_fexp 24 128 16777216 e1 loc_Exact
                  = ({| shr_m := 8388608; shr_r := false; shr_s := false |}, e1 + 1)).
    { unfold shr_fexp. rewrite fexp32. change (Zdigits2 16777216) with 25.
      replace (Z.max (25 + e1 - 24) (-149) - e1) with 1 by (unfold e1; lia).
      reflexivity. }
    rewrite Hs2. cbn [shr_m].
    destruct (e1 + 1 <=? 128 - 24); [right|left; reflexivity].
    eexists _, _. split; [|reflexivity]. fold e1. lia.
  - rewrite shr_fexp_id.
    + cbn [shr_m]. destruct (e1 <=? 128 - 24); [right|left; reflexivity].
      eexists _, _. split; [|reflexivity]. fold e1. lia.
    + rewrite (digits_unique q2 24) by lia. unfold e1. lia.
Qed.

Lemma canon_bounds m e :
  F32.canon m e -> -149 <= e /\ Zpos m < 2 ^ 24 /\ (-149 < e -> 2 ^ 23 <= Zpos m).
Proof.
  unfold F32.canon. intros H. pose proof (digits_upper m). pose proof (digits_lower m).
  split; [lia|]. split.
  - assert (2 ^ Zpos (digits2_pos m) <= 2 ^ 24) by (apply Z.pow_le_mono_r; lia). lia.
  - intros He. replace (Zpos (digits2_pos m)) with 24 in * by lia. exact H1.
Qed.

Lemma pow2_split a b : 0 <= a -> 0 <= b -> 2 ^ (a + b) = 2 ^ a * 2 ^ b.
Proof. intros. apply Z.pow_add_r; lia. Qed.

Lemma SFcompare_canon m1 e1 m2 e2 :
  F32.canon m1 e1 -> F32.canon m2 e2 ->
  SFcompare (S754_finite false m1 e1) (S754_finite false m2 e2)
  = Some (Zpos m1 * 2 ^ (e1 + 149) ?= Zpos m2 * 2 ^ (e2 + 149)).
Proof.
  intros [He1 [Hu1 Hl1]]%canon_bounds [He2 [Hu2 Hl2]]%canon_bounds.
  cbn [SFcompare]. f_equal.
  destruct (Z.compare_spec e1 e2) as [->|Hlt|Hgt].
  - rewrite Pos.compare_cont_spec.
    assert (0 < 2 ^ (e2 + 149)) by (apply Z.pow_pos_nonneg; lia).
    rewrite <- Zmult_compare_compat_r by lia.
    change (Zpos m1 ?= Zpos m2) with (m1 ?= m2)%positive.
    destruct (m1 ?= m2)%positive; reflexivity.
  - symmetry. apply Z.compare_lt_iff.
    replace (e2 + 149) with ((e1 + 149) + (e2 - e1)) by lia.
    rewrite (pow2_split (e1 + 149) (e2 - e1)) by lia.
    assert (HA : 0 < 2 ^ (e1 + 149)) by (apply Z.pow_pos_nonneg; lia).
    assert (HK : 2 ^ 1 <= 2 ^ (e2 - e1)) by (apply Z.pow_le_mono_r; lia).
    specialize (Hl2 ltac:(lia)). change (2 ^ 1) with 2 in HK.
    revert HA HK. generalize (2 ^ (e1 + 149)) (2 ^ (e2 - e1)). intros A K HA HK.
    assert (Zpos m1 * A < 2 ^ 24 * A) by nia.
    assert (2 ^ 23 * A <= Zpos m2 * A) by nia.
    assert (2 * (Zpos m2 * A) <= K * (Zpos m2 * A)) by nia.
    lia.
  - symmetry. apply Z.compare_gt_iff.
    replace (e1 + 149) with ((e2 + 149) + (e1 - e2)) by lia.
    rewrite (pow2_split (e2 + 149) (e1 - e2)) by lia.
    assert (HA : 0 < 2 ^ (e2 + 149)) by (apply Z.pow_pos_nonneg; lia).
    assert (HK : 2 ^ 1 <= 2 ^ (e1 - e2)) by (apply Z.pow_le_mono_r; lia).
    specialize (Hl1 ltac:(lia)). change (2 ^ 1) with 2 in HK.
    revert HA HK. generalize (2 ^ (e2 + 149)) (2 ^ (e1 - e2)). intros A K HA HK.
    assert (Zpos m2 * A < 2 ^ 24 * A) by nia.
    assert (2 ^ 23 * A <= Zpos m1 * A) by nia.
    assert (2 * (Zpos m1 * A) <= K * (Zpos m1 * A)) by nia.
    lia.
Qed.

Lemma epsilon_eq : Camera.epsilon = F32.eps_f.
Proof. reflexivity. Qed.

Lemma one_eq : F32.one = S754_finite false 8388608 (-23).
Proof. reflexivity. Qed.

Lemma canon_eps : F32.canon 13421773 (-27).
Proof. reflexivity. Qed.

(** Comparing the magnitude of a number with [0.1f]. *)
Lemma abs_compare_eps x :
  F32.canonical x -> F32.is_number x = true ->
  SFcompare (SFabs x) F32.eps_f = Some (Z.abs (F32.scaled x) ?= F32.eps_scaled).
Proof.
  destruct x as [s| | |s m e]; intros Hc Hn; try discriminate.
  - reflexivity.
  - cbn [SFabs F32.canonical F32.scaled] in *. unfold F32.eps_f. rewrite SFcompare_canon by (done || apply canon_eps).
    f_equal. pose proof (canon_bounds _ _ Hc) as [? _].
    assert (0 < 2 ^ (e + 149)) by (apply Z.pow_pos_nonneg; lia).
    replace (Z.abs (cond_Zopp s (Zpos m * 2 ^ (e + 149)))) with (Zpos m * 2 ^ (e + 149))
      by (destruct s; cbn [cond_Zopp]; lia).
    reflexivity.
Qed.

Lemma binary_normalize_compare_eps M ez :
  -149 <= ez <= -23 ->
  Z.abs M < 2 ^ 24 \/ 2 ^ 146 <= Z.abs M * 2 ^ (ez + 149) ->
  SFcompare (SFabs (binary_normalize 24 128 M ez false)) F32.eps_f
  = Some (Z.abs M * 2 ^ (ez + 149) ?= F32.eps_scaled).
Proof.
  intros Hez Hside.
  assert (Hp : 0 < 2 ^ (ez + 149)) by (apply Z.pow_pos_nonneg; lia).
  assert (forall s p, Z.abs M = Zpos p ->
            SFcompare (SFabs (binary_round 24 128 s p ez)) F32.eps_f
            = Some (Zpos p * 2 ^ (ez + 149) ?= F32.eps_scaled)) as Hround.
  { intros s p HM. rewrite HM in Hside.
    pose proof (digits_upper p) as Hu. pose proof (digits_lower p) as Hl.
    destruct (Z_le_gt_dec (Zpos (digits2_pos p)) 24) as [Hd|Hd].
    - set (e' := Z.max (Zpos (digits2_pos p) + ez - 24) (-149)).
      rewrite binary_round_exact by lia. fold e'. cbn [SFabs].
      assert (0 < 2 ^ (ez - e')) by (apply Z.pow_pos_nonneg; unfold e'; lia).
      unfold F32.eps_f. rewrite SFcompare_canon; [|unfold F32.canon; rewrite digits_shift by (unfold e'; lia); unfold e'; lia|apply canon_eps].
      f_equal. rewrite Z2Pos.id by lia. rewrite <- Z.mul_assoc, <- pow2_split by (unfold e'; lia).
      replace (ez - e' + (e' + 149)) with (ez + 149) by lia. reflexivity.
    - assert (2 ^ 24 <= 2 ^ (Zpos (digits2_pos p) - 1)) by (apply Z.pow_le_mono_r; lia).
      destruct Hside as [Hside|Hside]; [lia|].
      assert (Hgt : (Zpos p * 2 ^ (ez + 149) ?= F32.eps_scaled) = Gt).
      { apply Z.compare_gt_iff. unfold F32.eps_scaled. change (2 ^ 146) with (16777216 * 2 ^ 122) in Hside. lia. }
      rewrite Hgt.
      assert (Hde : -2 <= Zpos (digits2_pos p) + ez).
      { destruct (Z_le_gt_dec (-2) (Zpos (digits2_pos p) + ez)); [done|exfalso].
        assert (Zpos p * 2 ^ (ez + 149) < 2 ^ Zpos (digits2_pos p) * 2 ^ (ez + 149)) by nia.
        rewrite <- pow2_split in H0 by lia.
        assert (2 ^ (Zpos (digits2_pos p) + (ez + 149)) <= 2 ^ 146) by (apply Z.pow_le_mono_r; lia).
        lia. }
      destruct (binary_round_big s p ez) as [->|(m' & e' & He' & ->)]; [lia|lia| |].
      + reflexivity.
      + unfold F32.eps_f. cbn [SFabs SFcompare].
        destruct (Z.compare_spec e' (-27)); try lia. reflexivity. }
  destruct M as [|p|p]; cbn [binary_normalize].
  - reflexivity.
  - apply Hround. reflexivity.
  - apply Hround. reflexivity.
Qed.

Lemma add_const_compare_eps s m e (sg : Z) :
  sg = 1 \/ sg = -1 -> F32.canon m e ->
  let ez := Z.min e (-23) in
  SFcompare
    (SFabs (binary_normalize 24 128
              (cond_Zopp s (Zpos m * 2 ^ (e - ez)) + sg * (8388608 * 2 ^ (-23 - ez))) ez false))
    F32.eps_f
  = Some (Z.abs (cond_Zopp s (Zpos m * 2 ^ (e + 149)) + sg * 2 ^ 149) ?= F32.eps_scaled).
Proof.
  intros Hsg Hc ez. pose proof (canon_bounds _ _ Hc) as (He & Hu & Hl).
  set (A := Zpos m * 2 ^ (e - ez)). set (B := 8388608 * 2 ^ (-23 - ez)).
  set (P := 2 ^ (ez + 149)). set (X := Zpos m * 2 ^ (e + 149)).
  assert (HP : 0 < P) by (apply Z.pow_pos_nonneg; unfold ez; lia).
  assert (HAP : A * P = X).
  { unfold A, P, X. rewrite <- Z.mul_assoc, <- pow2_split by (unfold ez; lia).
    do 2 f_equal. lia. }
  assert (HBP : B * P = 2 ^ 149).
  { unfold B, P. change 8388608 with (2 ^ 23).
    rewrite <- !pow2_split by (unfold ez; lia). f_equal. lia. }
  assert (HMP : Z.abs (cond_Zopp s A + sg * B) * P = Z.abs (cond_Zopp s X + sg * 2 ^ 149)).
  { rewrite <- (Z.abs_eq P) at 1 by lia. rewrite <- Z.abs_mul. f_equal.
    rewrite <- HAP, <- HBP. destruct s; cbn [cond_Zopp]; ring. }
  rewrite <- HMP. apply binary_normalize_compare_eps; [unfold ez; lia|].
  fold P. rewrite HMP.
  destruct (Z_le_gt_dec (-26) e) as [Hcase|Hcase].
  - destruct (Z_lt_ge_dec (Z.abs (cond_Zopp s A + sg * B)) (2 ^ 24)) as [?|Hbig]; [by left|right].
    rewrite <- HMP.
    assert (2 ^ 123 <= P) by (apply Z.pow_le_mono_r; unfold ez; lia).
    apply Z.le_trans with (2 ^ 24 * 2 ^ 123); [lia|].
    apply Z.mul_le_mono_nonneg; lia.
  - right.
    assert (HX : 0 < X < 2 ^ 146).
    { unfold X. assert (0 < 2 ^ (e + 149)) by (apply Z.pow_pos_nonneg; lia).
      assert (2 ^ (e + 149) <= 2 ^ 122) by (apply Z.pow_le_mono_r; lia).
      change (2 ^ 146) with (2 ^ 24 * 2 ^ 122). nia. }
    change (2 ^ 149) with (8 * 2 ^ 146). revert HX. generalize (2 ^ 146). intros T HX.
    destruct s, Hsg as [-> | ->]; cbn [cond_Zopp]; lia.
Qed.

(** [|x - 1.0f|] against [0.1f], for a number [x]: the subtraction is
    exact whenever the outcome could depend on it. *)
Lemma sub_one_compare x :
  F32.canonical x -> F32.is_number x = true ->
  SFcompare (SFabs (F32.sub x F32.one)) F32.eps_f = Some (Z.abs (F32.scaled x - 2 ^ 149) ?= F32.eps_scaled).
Proof.
  destruct x as [s| | |s m e]; intros Hc Hn; try discriminate.
  - destruct s; reflexivity.
  - cbn [F32.canonical F32.scaled] in *. pose proof (canon_bounds _ _ Hc) as (He & _).
    unfold F32.sub. rewrite one_eq. cbn [SFsub].
    rewrite !shl_align_val by lia. cbn [fst cond_Zopp].
    assert (0 < 2 ^ (e - Z.min e (-23))) by (apply Z.pow_pos_nonneg; lia).
    assert (0 < 2 ^ (-23 - Z.min e (-23))) by (apply Z.pow_pos_nonneg; lia).
    rewrite !Z2Pos.id by lia.
    pose proof (add_const_compare_eps s m e (-1) ltac:(auto) Hc) as H1.
    cbv zeta in H1.
    replace (cond_Zopp s (Zpos m * 2 ^ (e + 149)) - 2 ^ 149)
      with (cond_Zopp s (Zpos m * 2 ^ (e + 149)) + -1 * 2 ^ 149) by lia.
    rewrite <- H1. do 3 f_equal; lia.
Qed.

Lemma add_one_compare x :
  F32.canonical x -> F32.is_number x = true ->
  SFcompare (SFabs (F32.add x F32.one)) F32.eps_f = Some (Z.abs (F32.scaled x + 2 ^ 149) ?= F32.eps_scaled).
Proof.
  destruct x as [s| | |s m e]; intros Hc Hn; try discriminate.
  - destruct s; reflexivity.
  - cbn [F32.canonical F32.scaled] in *. pose proof (canon_bounds _ _ Hc) as (He & _).
    unfold F32.add. rewrite one_eq. cbn [SFadd].
    rewrite !shl_align_val by lia. cbn [fst cond_Zopp].
    assert (0 < 2 ^ (e - Z.min e (-23))) by (apply Z.pow_pos_nonneg; lia).
    assert (0 < 2 ^ (-23 - Z.min e (-23))) by (apply Z.pow_pos_nonneg; lia).
    rewrite !Z2Pos.id by lia.
    pose proof (add_const_compare_eps s m e 1 ltac:(auto) Hc) as H1.
    cbv zeta in H1.
    replace (cond_Zopp s (Zpos m * 2 ^ (e + 149)) + 2 ^ 149)
      with (cond_Zopp s (Zpos m * 2 ^ (e + 149)) + 1 * 2 ^ 149) by lia.
    rewrite <- H1. do 3 f_equal; lia.
Qed.

(** Every bit pattern decodes to a F32.canonical binary32 value. *)
Lemma of_bits_canonical b : F32.canonical (F32.of_bits b).
Proof.
  unfold F32.of_bits.
  rewrite !Z.land_ones by lia.
  pose proof (Z.mod_pos_bound (Z.shiftr b 23) (2 ^ 8) ltac:(lia)) as He.
  pose proof (Z.mod_pos_bound b (2 ^ 23) ltac:(lia)) as Hm.
  set (e := Z.shiftr b 23 mod 2 ^ 8) in *. set (m := b mod 2 ^ 23) in *.
  destruct (e =? 0) eqn:E0.
  - destruct m as [|p|p] eqn:Em; cbn [F32.canonical]; try done.
    unfold F32.canon. pose proof (digits_lower p).
    assert (Zpos (digits2_pos p) <= 23); [|lia].
    destruct (Z_le_gt_dec (Zpos (digits2_pos p)) 23); [done|].
    assert (2 ^ 23 <= 2 ^ (Zpos (digits2_pos p) - 1)) by (apply Z.pow_le_mono_r; lia). lia.
  - destruct (e =? 255) eqn:E255.
    + destruct m; done.
    + destruct (m + 2 ^ 23) as [|p|p] eqn:Em; cbn [F32.canonical]; try done.
      unfold F32.canon. rewrite (digits_unique p 24) by (change (2 ^ (24 - 1)) with (2 ^ 23); lia).
      apply Z.eqb_neq in E0. lia.
Qed.

Lemma Qpow2_scaled e :
  -149 <= e -> (2 ^ e == (2 ^ (e + 149))%Z # (2 ^ 149)%positive)%Q.
Proof.
  intros He.
  assert (H2 : ~ (2 == 0)%Q) by discriminate.
  assert (H : (inject_Z (2 ^ (e + 149)) == 2 ^ e * inject_Z (2 ^ 149))%Q).
  { rewrite !Zpower_Qpower by lia. change (inject_Z 2) with 2%Q.
    apply Qpower_plus. done. }
  revert H. generalize (2 ^ e)%Q. intros q.
  unfold Qeq, Qmult, inject_Z; cbn [Qnum Qden].
  rewrite Pos2Z.inj_pow. lia.
Qed.

Lemma value_scaled x :
  F32.canonical x -> F32.is_number x = true ->
  exists v, F32.value x = Some v /\ (v == F32.scaled x # (2 ^ 149)%positive)%Q.
Proof.
  destruct x as [s| | |s m e]; intros Hc Hn; try discriminate.
  - exists 0%Q. split; reflexivity.
  - cbn [F32.canonical F32.value F32.scaled] in *. pose proof (canon_bounds _ _ Hc) as (He & _).
    eexists; split; [reflexivity|].
    rewrite Qpow2_scaled by lia.
    unfold Qeq, Qmult, inject_Z; cbn [Qnum Qden].
    destruct s; cbn [cond_Zopp]; lia.
Qed.

(** Distances to an integer in exact arithmetic on the F32.scaled value. *)
Lemma within_scaled (a : Z) (b : positive) (n : Z) x :
  F32.canonical x ->
  F32.within (a # b) (inject_Z n) x
  <-> F32.is_number x = true /\ Zpos b * Z.abs (F32.scaled x - n * 2 ^ 149) <= a * 2 ^ 149.
Proof.
  intros Hc. unfold F32.within.
  destruct (F32.is_number x) eqn:Hn.
  - destruct (value_scaled x Hc Hn) as (v & -> & Hv).
    rewrite Hv.
    assert (Hd : (F32.scaled x # 2 ^ 149) - inject_Z n == (F32.scaled x - n * 2 ^ 149) # (2 ^ 149)%positive).
    { unfold Qeq, Qminus, Qplus, Qopp, inject_Z; cbn [Qnum Qden].
      rewrite Pos2Z.inj_mul, !Pos2Z.inj_pow. lia. }
    rewrite Hd. unfold Qabs, Qle; cbn [Qnum Qden]. rewrite Pos2Z.inj_pow.
    split; [intros H; split; [done|lia] | intros [_ H]; lia].
  - destruct x; try discriminate; cbn [F32.value]; split; try tauto; intros [? _]; discriminate.
Qed.

Lemma strictly_within_scaled (a : Z) (b : positive) (n : Z) x :
  F32.canonical x ->
  F32.strictly_within (a # b) (inject_Z n) x
  <-> F32.is_number x = true /\ Zpos b * Z.abs (F32.scaled x - n * 2 ^ 149) < a * 2 ^ 149.
Proof.
  intros Hc. unfold F32.strictly_within.
  destruct (F32.is_number x) eqn:Hn.
  - destruct (value_scaled x Hc Hn) as (v & -> & Hv).
    rewrite Hv.
    assert (Hd : (F32.scaled x # 2 ^ 149) - inject_Z n == (F32.scaled x - n * 2 ^ 149) # (2 ^ 149)%positive).
    { unfold Qeq, Qminus, Qplus, Qopp, inject_Z; cbn [Qnum Qden].
      rewrite Pos2Z.inj_mul, !Pos2Z.inj_pow. lia. }
    rewrite Hd. unfold Qabs, Qlt; cbn [Qnum Qden]. rewrite Pos2Z.inj_pow.
    split; [intros H; split; [done|lia] | intros [_ H]; lia].
  - destruct x; try discriminate; cbn [F32.value]; split; try tauto; intros [? _]; discriminate.
Qed.

Lemma SFcompare_swap a b : SFcompare b a = CompOpp <$> SFcompare a b.
Proof.
  destruct a as [sa|sa| |sa ma ea], b as [sb|sb| |sb mb eb]; cbn [SFcompare fmap option_fmap option_map];
    try reflexivity; try (destruct sa; reflexivity); try (destruct sb; reflexivity);
    try (destruct sa, sb; reflexivity).
  f_equal. rewrite (Z.compare_antisym ea eb).
  destruct sa, sb; try reflexivity; destruct (ea ?= eb); cbn [CompOpp]; try reflexivity.
  all: pose proof (Pos.compare_cont_antisym ma mb Eq) as Hanti; cbn [CompOpp] in Hanti;
    rewrite <- Hanti; destruct (Pos.compare_cont Eq ma mb); reflexivity.
Qed.

Lemma compare_eps_ltb r V :
  SFcompare r F32.eps_f = Some (V ?= F32.eps_scaled) -> F32.ltb r Camera.epsilon = true <-> V < F32.eps_scaled.
Proof.
  intros H. unfold F32.ltb, SFltb. rewrite epsilon_eq, H.
  destruct (Z.compare_spec V F32.eps_scaled); split; intros; (done || lia).
Qed.

Lemma compare_eps_gtb r V :
  SFcompare r F32.eps_f = Some (V ?= F32.eps_scaled) -> F32.gtb r Camera.epsilon = false <-> V <= F32.eps_scaled.
Proof.
  intros H. unfold F32.gtb, SFltb. rewrite epsilon_eq, SFcompare_swap, H.
  cbn [fmap option_fmap option_map].
  destruct (Z.compare_spec V F32.eps_scaled); cbn [CompOpp]; split; intros; (done || lia).
Qed.

Lemma eps_scaled_eq : 134217728 * F32.eps_scaled = 13421773 * 2 ^ 149.
Proof. reflexivity. Qed.

(** [std::abs(x) < epsilon] *)
Lemma ltb_abs_spec x :
  F32.canonical x ->
  F32.ltb (F32.abs x) Camera.epsilon = true <-> F32.strictly_within F32.eps 0 x.
Proof.
  intros Hc. unfold F32.eps. change 0%Q with (inject_Z 0).
  rewrite strictly_within_scaled by done.
  destruct (F32.is_number x) eqn:Hn.
  - rewrite (compare_eps_ltb _ _ (abs_compare_eps x Hc Hn)).
    pose proof eps_scaled_eq. replace (F32.scaled x - 0 * 2 ^ 149) with (F32.scaled x) by lia. lia.
  - destruct x; try discriminate; split; (discriminate || intros [? _]; discriminate).
Qed.

(** [std::abs(x) > epsilon] *)
Lemma gtb_abs_spec x :
  F32.canonical x -> F32.is_nan x = false ->
  F32.gtb (F32.abs x) Camera.epsilon = false <-> F32.within F32.eps 0 x.
Proof.
  intros Hc Hnan. unfold F32.eps. change 0%Q with (inject_Z 0).
  rewrite within_scaled by done.
  destruct (F32.is_number x) eqn:Hn.
  - rewrite (compare_eps_gtb _ _ (abs_compare_eps x Hc Hn)).
    pose proof eps_scaled_eq. replace (F32.scaled x - 0 * 2 ^ 149) with (F32.scaled x) by lia. lia.
  - destruct x; try discriminate; split; (discriminate || intros [? _]; discriminate).
Qed.

(** [std::abs(x - 1.0f) < epsilon] *)
Lemma ltb_sub_one_spec x :
  F32.canonical x ->
  F32.ltb (F32.abs (F32.sub x F32.one)) Camera.epsilon = true
  <-> F32.strictly_within F32.eps 1 x.
Proof.
  intros Hc. unfold F32.eps. change 1%Q with (inject_Z 1).
  rewrite strictly_within_scaled by done.
  destruct (F32.is_number x) eqn:Hn.
  - rewrite (compare_eps_ltb _ _ (sub_one_compare x Hc Hn)).
    pose proof eps_scaled_eq. replace (F32.scaled x - 1 * 2 ^ 149) with (F32.scaled x - 2 ^ 149) by lia. lia.
  - destruct x as [| [] | |]; try discriminate; split; (discriminate || intros [? _]; discriminate).
Qed.

(** [std::abs(x - 1.0f) > epsilon] *)
Lemma gtb_sub_one_spec x :
  F32.canonical x -> F32.is_nan x = false ->
  F32.gtb (F32.abs (F32.sub x F32.one)) Camera.epsilon = false
  <-> F32.within F32.eps 1 x.
Proof.
  intros Hc Hnan. unfold F32.eps. change 1%Q with (inject_Z 1).
  rewrite within_scaled by done.
  destruct (F32.is_number x) eqn:Hn.
  - rewrite (compare_eps_gtb _ _ (sub_one_compare x Hc Hn)).
    pose proof eps_scaled_eq. replace (F32.scaled x - 1 * 2 ^ 149) with (F32.scaled x - 2 ^ 149) by lia. lia.
  - destruct x as [| [] | |]; try discriminate; split; (discriminate || intros [? _]; discriminate).
Qed.

(** [std::abs(x + 1.0f) > epsilon] *)
Lemma gtb_add_one_spec x :
  F32.canonical x -> F32.is_nan x = false ->
  F32.gtb (F32.abs (F32.add x F32.one)) Camera.epsilon = false
  <-> F32.within F32.eps (inject_Z (-1)) x.
Proof.
  intros Hc Hnan. unfold F32.eps.
  rewrite within_scaled by done.
  destruct (F32.is_number x) eqn:Hn.
  - rewrite (compare_eps_gtb _ _ (add_one_compare x Hc Hn)).
    pose proof eps_scaled_eq. replace (F32.scaled x - -1 * 2 ^ 149) with (F32.scaled x + 2 ^ 149) by lia. lia.
  - destruct x as [| [] | |]; try discriminate; split; (discriminate || intros [? _]; discriminate).
Qed.

(** One tenth is below [0.1f]. *)
Lemma within_tenth_strict (n : Z) x :
  F32.canonical x -> F32.within (1 # 10) (inject_Z n) x -> F32.strictly_within F32.eps (inject_Z n) x.
Proof.
  intros Hc. unfold F32.eps. rewrite within_scaled, strictly_within_scaled by done.
  intros [Hn H]. split; [done|]. lia.
Qed.

Lemma strictly_within_weaken tol c x : F32.strictly_within tol c x -> F32.within tol c x.
Proof.
  unfold F32.strictly_within, F32.within. destruct (F32.value x); [|done]. apply Qlt_le_weak.
Qed.

End FloatFacts.

(* ===================================================================== *)
(** ** The matrix tests *)
(* ===================================================================== *)

Section MatrixTests.

Variable w : Z -> Z.
Let d : float_ptr := window_of_bits w.

Local Lemma window_canonical i : F32.canonical (d i).
Proof. apply of_bits_canonical. Qed.

Lemma rowMajor_spec :
  Camera.rowMajor d = true
  <-> F32.strictly_within F32.eps 0 (d 3) /\ F32.strictly_within F32.eps 0 (d 7)
      /\ F32.strictly_within F32.eps 0 (d 11) /\ F32.strictly_within F32.eps 1 (d 15).
Proof.
  unfold Camera.rowMajor.
  pose proof (ltb_abs_spec _ (window_canonical 3)).
  pose proof (ltb_abs_spec _ (window_canonical 7)).
  pose proof (ltb_abs_spec _ (window_canonical 11)).
  pose proof (ltb_sub_one_spec _ (window_canonical 15)).
  repeat match goal with |- context [F32.ltb ?a ?b] => destruct (F32.ltb a b) end;
    cbn [andb]; intuition discriminate.
Qed.

Lemma colMajor_spec :
  Camera.colMajor d = true
  <-> F32.strictly_within F32.eps 0 (d 12) /\ F32.strictly_within F32.eps 0 (d 13)
      /\ F32.strictly_within F32.eps 0 (d 14) /\ F32.strictly_within F32.eps 1 (d 15).
Proof.
  unfold Camera.colMajor.
  pose proof (ltb_abs_spec _ (window_canonical 12)).
  pose proof (ltb_abs_spec _ (window_canonical 13)).
  pose proof (ltb_abs_spec _ (window_canonical 14)).
  pose proof (ltb_sub_one_spec _ (window_canonical 15)).
  repeat match goal with |- context [F32.ltb ?a ?b] => destruct (F32.ltb a b) end;
    cbn [andb]; intuition discriminate.
Qed.

Lemma row_pattern_rowMajor : Camera.row_major_pattern (1 # 10) d -> Camera.rowMajor d = true.
Proof.
  intros (H3 & H7 & H11 & H15). apply rowMajor_spec.
  pose proof (within_tenth_strict 0 _ (window_canonical 3) H3).
  pose proof (within_tenth_strict 0 _ (window_canonical 7) H7).
  pose proof (within_tenth_strict 0 _ (window_canonical 11) H11).
  pose proof (within_tenth_strict 1 _ (window_canonical 15) H15).
  tauto.
Qed.

Lemma col_pattern_colMajor : Camera.col_major_pattern (1 # 10) d -> Camera.colMajor d = true.
Proof.
  intros (H12 & H13 & H14 & H15). apply colMajor_spec.
  pose proof (within_tenth_strict 0 _ (window_canonical 12) H12).
  pose proof (within_tenth_strict 0 _ (window_canonical 13) H13).
  pose proof (within_tenth_strict 0 _ (window_canonical 14) H14).
  pose proof (within_tenth_strict 1 _ (window_canonical 15) H15).
  tauto.
Qed.

(** C4 (as amended).  A window with zeros at 3, 7, 11 and a one at 15
    (within 0.1), or with zeros at 12, 13, 14 and a one at 15, is a match.
    With the pattern at 12..15 it is reported transposed.  It is reported
    non-transposed exactly when elements 12, 13, 14 are not all below
    [0.1f] in magnitude: the flag is the outcome of the column-major test,
    whatever the row-major test says. *)
Theorem IsViewMatrix_patterns :
  Camera.row_major_pattern (1 # 10) d \/ Camera.col_major_pattern (1 # 10) d ->
  fst (Camera.IsViewMatrix d) = true
  /\ (Camera.col_major_pattern (1 # 10) d -> snd (Camera.IsViewMatrix d) = true)
  /\ (snd (Camera.IsViewMatrix d) = false <-> ~ Camera.bottom_row_small d).
Proof.
  intros Hpat. unfold Camera.IsViewMatrix. cbn [fst snd].
  split; [|split].
  - destruct Hpat as [H|H].
    + rewrite row_pattern_rowMajor by done. reflexivity.
    + rewrite col_pattern_colMajor by done. apply orb_true_r.
  - apply col_pattern_colMajor.
  - assert (H15 : F32.strictly_within F32.eps 1 (d 15)).
    { destruct Hpat as [(_ & _ & _ & H)|(_ & _ & _ & H)];
        exact (within_tenth_strict 1 _ (window_canonical 15) H). }
    pose proof colMajor_spec as Hc. unfold Camera.bottom_row_small.
    destruct (Camera.colMajor d).
    + split; [discriminate|]. intros Hn. exfalso. apply Hn.
      destruct (proj1 Hc eq_refl) as (A & B & C & _). exact (conj A (conj B C)).
    + split; [|reflexivity]. intros _ (A & B & C).
      pose proof (proj2 Hc (conj A (conj B (conj C H15)))) as Hf. discriminate Hf.
Qed.

Lemma within_not_nan tol c x : F32.within tol c x -> F32.is_nan x = false.
Proof. unfold F32.within. destruct x; cbn; tauto. Qed.

Lemma IsProjectionMatrix_true_iff (p : float_ptr) :
  Camera.IsProjectionMatrix p = true
  <-> F32.gtb (F32.abs (p 1)) Camera.epsilon = false
      /\ F32.gtb (F32.abs (p 2)) Camera.epsilon = false
      /\ F32.gtb (F32.abs (p 3)) Camera.epsilon = false
      /\ F32.gtb (F32.abs (p 4)) Camera.epsilon = false
      /\ F32.gtb (F32.abs (p 6)) Camera.epsilon = false
      /\ F32.gtb (F32.abs (p 7)) Camera.epsilon = false
      /\ F32.gtb (F32.abs (p 15)) Camera.epsilon = false
      /\ (F32.gtb (F32.abs (F32.sub (p 11) F32.one)) Camera.epsilon = false
          \/ F32.gtb (F32.abs (F32.add (p 11) F32.one)) Camera.epsilon = false).
Proof.
  unfold Camera.IsProjectionMatrix.
  destruct (F32.gtb (F32.abs (p 1)) _); [cbn; intuition discriminate|].
  destruct (F32.gtb (F32.abs (p 2)) _); [cbn; intuition discriminate|].
  destruct (F32.gtb (F32.abs (p 3)) _); [cbn; intuition discriminate|].
  destruct (F32.gtb (F32.abs (p 4)) _); [cbn; intuition discriminate|].
  destruct (F32.gtb (F32.abs (p 6)) _); [cbn; intuition discriminate|].
  destruct (F32.gtb (F32.abs (p 7)) _); [cbn; intuition discriminate|].
  destruct (F32.gtb (F32.abs (p 15)) _); [cbn; intuition discriminate|].
  destruct (F32.gtb (F32.abs (F32.sub _ _)) _), (F32.gtb (F32.abs (F32.add _ _)) _);
    cbn; intuition discriminate.
Qed.

Lemma projection_pattern_eps :
  Camera.tested_not_nan d ->
  Camera.IsProjectionMatrix d = true <-> Camera.projection_pattern F32.eps d.
Proof.
  intros Hnan. unfold Camera.tested_not_nan in Hnan.
  repeat match goal with
         | H : Forall _ (_ :: _) |- _ => apply Forall_cons in H; destruct H as [? H]
         end.
  pose proof (IsProjectionMatrix_true_iff d) as Hiff. unfold Camera.projection_pattern.
  pose proof (gtb_abs_spec (d 1) (window_canonical 1) ltac:(assumption)).
  pose proof (gtb_abs_spec (d 2) (window_canonical 2) ltac:(assumption)).
  pose proof (gtb_abs_spec (d 3) (window_canonical 3) ltac:(assumption)).
  pose proof (gtb_abs_spec (d 4) (window_canonical 4) ltac:(assumption)).
  pose proof (gtb_abs_spec (d 6) (window_canonical 6) ltac:(assumption)).
  pose proof (gtb_abs_spec (d 7) (window_canonical 7) ltac:(assumption)).
  pose proof (gtb_abs_spec (d 15) (window_canonical 15) ltac:(assumption)).
  pose proof (gtb_sub_one_spec (d 11) (window_canonical 11) ltac:(assumption)).
  pose proof (gtb_add_one_spec (d 11) (window_canonical 11) ltac:(assumption)).
  change 0%Q with (inject_Z 0). change 1%Q with (inject_Z 1).
  tauto.
Qed.

Lemma within_tenth_eps (n : Z) x :
  F32.canonical x -> F32.within (1 # 10) (inject_Z n) x -> F32.within F32.eps (inject_Z n) x.
Proof. intros. by apply strictly_within_weaken, within_tenth_strict. Qed.

(** C6 (as amended).  A window with the zero pattern and plus or minus one
    at 11, within 0.1, is accepted.  When none of the tested elements is a
    NaN, the test accepts exactly the windows whose elements 1, 2, 3, 4, 6,
    7, 15 have magnitude at most the single-precision constant [0.1f] and
    whose element 11 is at most [0.1f] away from +1 or from -1.  A window
    with [data[11] = -1] is right-handed, one with [data[11] = 1] is
    left-handed. *)
Theorem IsProjectionMatrix_pattern :
  (Camera.projection_pattern (1 # 10) d -> Camera.IsProjectionMatrix d = true)
  /\ (Camera.tested_not_nan d ->
      (Camera.IsProjectionMatrix d = true <-> Camera.projection_pattern F32.eps d))
  /\ (d 11 = F32.neg_one -> Camera.IsRightHandedProjection d = true)
  /\ (d 11 = F32.one -> Camera.IsRightHandedProjection d = false).
Proof.
  split; [|split; [|split]].
  - intros (H1 & H2 & H3 & H4 & H6 & H7 & H15 & H11).
    apply projection_pattern_eps.
    + unfold Camera.tested_not_nan.
      pose proof (within_not_nan _ _ _ H1). pose proof (within_not_nan _ _ _ H2).
      pose proof (within_not_nan _ _ _ H3). pose proof (within_not_nan _ _ _ H4).
      pose proof (within_not_nan _ _ _ H6). pose proof (within_not_nan _ _ _ H7).
      pose proof (within_not_nan _ _ _ H15).
      assert (F32.is_nan (d 11) = false) by (destruct H11 as [Hp|Hm]; [exact (within_not_nan _ _ _ Hp)|exact (within_not_nan _ _ _ Hm)]).
      repeat (constructor; [assumption|]). constructor.
    + pose proof (within_tenth_eps 0 _ (window_canonical 1) H1).
      pose proof (within_tenth_eps 0 _ (window_canonical 2) H2).
      pose proof (within_tenth_eps 0 _ (window_canonical 3) H3).
      pose proof (within_tenth_eps 0 _ (window_canonical 4) H4).
      pose proof (within_tenth_eps 0 _ (window_canonical 6) H6).
      pose proof (within_tenth_eps 0 _ (window_canonical 7) H7).
      pose proof (within_tenth_eps 0 _ (window_canonical 15) H15).
      assert (F32.within F32.eps 1 (d 11) \/ F32.within F32.eps (inject_Z (-1)) (d 11)).
      { destruct H11 as [H11|H11]; [left|right].
        - exact (within_tenth_eps 1 _ (window_canonical 11) H11).
        - exact (within_tenth_eps (-1) _ (window_canonical 11) H11). }
      unfold Camera.projection_pattern. tauto.
  - apply projection_pattern_eps.
  - intros H. unfold Camera.IsRightHandedProjection. rewrite H. reflexivity.
  - intros H. unfold Camera.IsRightHandedProjection. rewrite H. reflexivity.
Qed.

End MatrixTests.

(* ===================================================================== *)
(** ** The scan *)
(* ===================================================================== *)

Section Controller.
Context {dx : DirectXMath}.
Import Camera.

(** Case analysis on every branch taken by a scan. *)
Ltac scan_cases :=
  unfold ScanBufferImpl, accepted, log_sampling, on_view_match, on_proj_match,
    DetectWorldUp, scanned_state;
  repeat match goal with
         | |- context [if ?b then _ else _] => destruct b eqn:?
         | |- context [match ?o with Some _ => _ | None => _ end] => destruct o eqn:?
         end;
  cbn; try reflexivity.

Lemma ScanBufferImpl_rejected resource data size isMapped c :
  accepted size isMapped = false -> ScanBufferImpl resource data size isMapped c = c.
Proof.
  unfold ScanBufferImpl, accepted. destruct (size <? 64); [done|].
  destruct (isMapped && (4096 <? size)); [done|discriminate].
Qed.

Lemma ScanBufferImpl_cache resource data size isMapped c :
  accepted size isMapped = true ->
  m_bufferCache (ScanBufferImpl resource data size isMapped c)
  = <[resource := scanned_state data size (default new_BufferState (m_bufferCache c !! resource))]>
      (m_bufferCache c).
Proof. intros Ha. revert Ha. scan_cases; discriminate. Qed.

Lemma ScanBufferImpl_cameraBuffer resource data size isMapped c :
  m_cameraBuffer (ScanBufferImpl resource data size isMapped c)
  = if finds_camera data size isMapped then resource else m_cameraBuffer c.
Proof.
  unfold finds_camera.
  destruct (accepted size isMapped) eqn:Ha;
    [|rewrite ScanBufferImpl_rejected by done; reflexivity].
  revert Ha. cbn [andb]. scan_cases; discriminate.
Qed.

Lemma ScanBufferImpl_sticky resource data size isMapped c :
  m_upDetected c = true ->
  m_upDetected (ScanBufferImpl resource data size isMapped c) = true
  /\ m_worldUp (ScanBufferImpl resource data size isMapped c) = m_worldUp c.
Proof.
  intros Hup. scan_cases; cbn in *; rewrite ?Hup in *; try discriminate;
    split; (assumption || reflexivity).
Qed.

(** The first view matrix found triggers the detection. *)
Lemma ScanBufferImpl_detects_up resource data size isMapped c i :
  accepted size isMapped = true ->
  find_view (as_floats data) (size / 4) = Some i ->
  m_upDetected (ScanBufferImpl resource data size isMapped c) = true.
Proof.
  intros Ha Hv. destruct (m_upDetected c) eqn:Hup.
  { by apply ScanBufferImpl_sticky. }
  revert Ha. unfold ScanBufferImpl at 1. rewrite Hv.
  scan_cases; cbn in *; rewrite ?Hup in *; try discriminate; try congruence.
Qed.

Lemma GetModifiedBufferData_state face out c : fst (GetModifiedBufferData face out c) = c.
Proof.
  unfold GetModifiedBufferData.
  destruct (m_cameraBuffer c =? 0)%N; [done|].
  destruct (m_bufferCache c !! m_cameraBuffer c); done.
Qed.

Lemma step_sticky c op :
  m_upDetected c = true ->
  m_upDetected (step c op) = true /\ m_worldUp (step c op) = m_worldUp c.
Proof.
  intros Hup. destruct op; cbn [step].
  - by apply ScanBufferImpl_sticky.
  - by apply ScanBufferImpl_sticky.
  - rewrite GetModifiedBufferData_state. done.
Qed.

(** C5.  Once the world-up vector has been determined, no sequence of
    scans (or rewrites) changes it or clears the flag, whatever view
    matrices the later buffers hold. *)
Theorem world_up_sticky ops c :
  m_upDetected c = true ->
  m_upDetected (run ops c) = true /\ m_worldUp (run ops c) = m_worldUp c.
Proof.
  revert c. induction ops as [|op ops IH]; intros c Hup; [done|].
  cbn [run fold_left]. destruct (step_sticky c op Hup) as [Hup' Hw].
  destruct (IH _ Hup') as [H1 H2]. unfold run in *. split; congruence.
Qed.

(** C8.  A buffer of fewer than 64 bytes leaves the controller as it is:
    neither entry point touches the cache, the camera identity, the
    counters or the log. *)
Theorem small_buffer_ignored resource data size c :
  size < 64 ->
  OnUpdateBuffer resource data size c = c /\ OnScanBuffer resource data size c = c.
Proof.
  intros Hs. unfold OnUpdateBuffer, OnScanBuffer.
  split; apply ScanBufferImpl_rejected; unfold accepted;
    (replace (size <? 64) with true by (symmetry; apply Z.ltb_lt; lia)); reflexivity.
Qed.

(** C9.  A buffer of more than 4096 bytes arriving through the mapped
    entry point leaves the controller as it is, whatever its contents. *)
Theorem large_mapped_buffer_skipped resource data size c :
  4096 < size -> OnScanBuffer resource data size c = c.
Proof.
  intros Hs. unfold OnScanBuffer. apply ScanBufferImpl_rejected. unfold accepted.
  replace (4096 <? size) with true by (symmetry; apply Z.ltb_lt; lia).
  cbn. apply andb_false_r.
Qed.

(** *** Requests before a camera is known *)

Lemma step_no_detection c op :
  detects op = false -> m_cameraBuffer (step c op) = m_cameraBuffer c.
Proof.
  destruct op; cbn [step detects]; intros Hd.
  - unfold OnUpdateBuffer. rewrite ScanBufferImpl_cameraBuffer, Hd. done.
  - unfold OnScanBuffer. rewrite ScanBufferImpl_cameraBuffer, Hd. done.
  - by rewrite GetModifiedBufferData_state.
Qed.

Lemma run_no_detection ops c :
  Forall (fun op => detects op = false) ops -> m_cameraBuffer (run ops c) = m_cameraBuffer c.
Proof.
  revert c. induction ops as [|op ops IH]; intros c Hall; [done|].
  inversion Hall; subst. cbn [run fold_left].
  etrans; [apply IH; assumption|]. by apply step_no_detection.
Qed.

(** C7.  The rewrite fails, leaving [outputData] alone, when the camera
    handle is zero or the handle has no cache entry; in particular after
    any sequence of calls, starting from a new controller, in which no scan
    found a matrix. *)
Theorem GetModifiedBufferData_no_camera face out c :
  m_cameraBuffer c = 0%N
  \/ m_bufferCache c !! m_cameraBuffer c = None
  \/ (exists c0 ops, fresh c0 /\ Forall (fun op => detects op = false) ops /\ c = run ops c0) ->
  GetModifiedBufferData face out c = (c, (false, out)).
Proof.
  intros H.
  assert (Hcase : m_cameraBuffer c = 0%N \/ m_bufferCache c !! m_cameraBuffer c = None).
  { destruct H as [H|[H|(c0 & ops & (H0 & _) & Hall & ->)]]; auto.
    left. by rewrite run_no_detection. }
  unfold GetModifiedBufferData. destruct Hcase as [-> | Hnone].
  - reflexivity.
  - rewrite Hnone. by destruct (m_cameraBuffer c =? 0)%N.
Qed.

(** *** The camera handle always has a cache entry *)

Lemma ScanBufferImpl_camera_cached resource data size isMapped c :
  camera_cached c -> camera_cached (ScanBufferImpl resource data size isMapped c).
Proof.
  intros Hinv. destruct (accepted size isMapped) eqn:Ha.
  - unfold camera_cached. rewrite ScanBufferImpl_cache, ScanBufferImpl_cameraBuffer by done.
    destruct (finds_camera data size isMapped).
    + right. rewrite lookup_insert_eq. eauto.
    + destruct Hinv as [?|Hs]; [by left|right].
      rewrite lookup_insert_is_Some. destruct (decide (resource = m_cameraBuffer c)); auto.
  - by rewrite ScanBufferImpl_rejected.
Qed.

Lemma run_camera_cached ops c : camera_cached c -> camera_cached (run ops c).
Proof.
  revert c. induction ops as [|op ops IH]; intros c Hinv; [done|].
  cbn [run fold_left]. apply IH. destruct op; cbn [step].
  - by apply ScanBufferImpl_camera_cached.
  - by apply ScanBufferImpl_camera_cached.
  - by rewrite GetModifiedBufferData_state.
Qed.

(** C10.  After any sequence of calls on a new controller, a nonzero
    camera handle has an entry in the cache, so the rewrite cannot fail
    for want of the entry: it succeeds whenever the handle is nonzero. *)
Theorem camera_entry_present c0 ops :
  fresh c0 ->
  m_cameraBuffer (run ops c0) <> 0%N ->
  is_Some (m_bufferCache (run ops c0) !! m_cameraBuffer (run ops c0))
  /\ forall face out, fst (snd (GetModifiedBufferData face out (run ops c0))) = true.
Proof.
  intros (H0 & _ & _) Hnz.
  destruct (run_camera_cached ops c0 (or_introl H0)) as [?|[st Hst]]; [done|].
  split; [eauto|]. intros face out. unfold GetModifiedBufferData.
  destruct (N.eqb_spec (m_cameraBuffer (run ops c0)) 0); [done|].
  rewrite Hst. reflexivity.
Qed.

(** *** Offsets recorded by a scan *)

Lemma scan_offsets_bound floatCount i :
  In i (scan_offsets floatCount) -> 0 <= i /\ i + 16 <= floatCount.
Proof.
  unfold scan_offsets. intros (k & <- & Hk%in_seq)%in_map_iff.
  assert (Z.of_nat k < (floatCount - 16) / 4 + 1) by lia.
  pose proof (Z.mul_div_le (floatCount - 16) 4 ltac:(lia)). lia.
Qed.

Lemma find_view_bound floatData floatCount i :
  find_view floatData floatCount = Some i -> 0 <= i /\ i + 16 <= floatCount.
Proof. intros [H _]%find_some. by apply scan_offsets_bound. Qed.

Lemma find_proj_bound floatData floatCount i :
  find_proj floatData floatCount = Some i -> 0 <= i /\ i + 16 <= floatCount.
Proof. intros [H _]%find_some. by apply scan_offsets_bound. Qed.

Lemma to_int_range z : - 2 ^ 31 <= to_int z < 2 ^ 31.
Proof. unfold to_int. pose proof (Z.mod_pos_bound (z + 2 ^ 31) (2 ^ 32) ltac:(lia)). lia. Qed.

Lemma to_int_le z : 0 <= z -> to_int z <= z.
Proof.
  intros Hz. unfold to_int.
  pose proof (Z.mod_le (z + 2 ^ 31) (2 ^ 32) ltac:(lia) ltac:(lia)). lia.
Qed.

Lemma read_bytes_length p size : length (read_bytes p size) = Z.to_nat size.
Proof. unfold read_bytes. by rewrite length_map, length_seq. Qed.

Lemma scanned_state_data p size old : data (scanned_state p size old) = read_bytes p size.
Proof.
  unfold scanned_state.
  destruct (find_view _ _), (find_proj _ _); reflexivity.
Qed.

Lemma scanned_state_view p size old :
  viewMatrixOffset (scanned_state p size old)
  = match find_view (as_floats p) (size / 4) with
    | Some i => to_int i
    | None => viewMatrixOffset old
    end.
Proof.
  unfold scanned_state.
  destruct (find_view _ _), (find_proj _ _); reflexivity.
Qed.

Lemma scanned_state_proj p size old :
  projMatrixOffset (scanned_state p size old)
  = match find_proj (as_floats p) (size / 4) with
    | Some i => to_int i
    | None => projMatrixOffset old
    end.
Proof.
  unfold scanned_state.
  destruct (find_view _ _), (find_proj _ _); reflexivity.
Qed.

(** *** The rewriter *)

Lemma matrix_bytes_length m : length (matrix_bytes m) = 64%nat.
Proof. reflexivity. Qed.

Lemma XMStoreFloat4x4_length out offset m :
  0 <= offset -> 4 * offset + 64 <= Z.of_nat (length out) ->
  length (XMStoreFloat4x4 out offset m) = length out.
Proof.
  intros H0 Hfit. unfold XMStoreFloat4x4.
  rewrite !length_app, length_take, length_drop, matrix_bytes_length. lia.
Qed.

Lemma XMStoreFloat4x4_outside out offset m (i : nat) :
  0 <= offset -> 4 * offset + 64 <= Z.of_nat (length out) ->
  ~ (4 * offset <= Z.of_nat i < 4 * offset + 64) ->
  XMStoreFloat4x4 out offset m !! i = out !! i.
Proof.
  intros H0 Hfit Hout. unfold XMStoreFloat4x4.
  destruct (Z_lt_ge_dec (Z.of_nat i) (4 * offset)) as [Hlt|Hge].
  - rewrite lookup_app_l by (rewrite length_take; lia).
    apply lookup_take_lt. lia.
  - rewrite lookup_app_r by (rewrite length_take; lia).
    rewrite lookup_app_r by (rewrite length_take, matrix_bytes_length; lia).
    rewrite lookup_drop, length_take, matrix_bytes_length. f_equal. lia.
Qed.

Lemma slot_fits_bound offset floatCount :
  - 2 ^ 31 <= offset < 2 ^ 31 -> 0 <= floatCount < 2 ^ 62 ->
  slot_fits offset floatCount = true -> 0 <= offset /\ offset + 16 <= floatCount.
Proof.
  intros Hoff Hfc. unfold slot_fits, to_size_t, to_int.
  intros [H0%Z.leb_le Hle%Z.leb_le]%andb_true_iff. split; [done|].
  revert Hle. Z.div_mod_to_equations. lia.
Qed.

(** C2.  The rewrite returns the controller unchanged, cache included.
    On success the output has the length of the cached snapshot of the
    camera buffer and agrees with it at every byte outside the 64-byte
    slots of the matrices it replaced, for every face. *)
Theorem GetModifiedBufferData_preserves face out c :
  (forall state, m_bufferCache c !! m_cameraBuffer c = Some state -> representable state) ->
  fst (GetModifiedBufferData face out c) = c
  /\ (fst (snd (GetModifiedBufferData face out c)) = true ->
      exists state,
        m_bufferCache c !! m_cameraBuffer c = Some state
        /\ length (snd (snd (GetModifiedBufferData face out c))) = length (data state)
        /\ forall i : nat,
             ~ in_replaced_slot state (viewMatrixOffset state) i ->
             ~ in_replaced_slot state (projMatrixOffset state) i ->
             snd (snd (GetModifiedBufferData face out c)) !! i = data state !! i).
Proof.
  intros Hrep. split; [apply GetModifiedBufferData_state|].
  unfold GetModifiedBufferData.
  destruct (m_cameraBuffer c =? 0)%N; [discriminate|].
  destruct (m_bufferCache c !! m_cameraBuffer c) as [state|] eqn:Hst; [|discriminate].
  intros _. exists state. split; [done|]. cbn [fst snd].
  destruct (Hrep state eq_refl) as (Hv & Hp & Hlen).
  unfold in_replaced_slot.
  set (fc := Z.of_nat (length (data state)) / 4).
  assert (Hfc : 0 <= fc < 2 ^ 62) by (unfold fc; Z.div_mod_to_equations; lia).
  assert (H4 : 4 * fc <= Z.of_nat (length (data state))) by (unfold fc; Z.div_mod_to_equations; lia).
  set (newView := if m_isTransposed c then _ else _).
  set (newProj := if m_isRH c then _ else _).
  destruct (slot_fits (viewMatrixOffset state) fc) eqn:Ev;
    destruct (slot_fits (projMatrixOffset state) fc) eqn:Ep;
    try apply (slot_fits_bound _ _ Hv Hfc) in Ev as Hbv;
    try apply (slot_fits_bound _ _ Hp Hfc) in Ep as Hbp.
  - assert (Hl1 : length (XMStoreFloat4x4 (data state) (viewMatrixOffset state) newView)
                  = length (data state)) by (apply XMStoreFloat4x4_length; lia).
    split.
    + rewrite XMStoreFloat4x4_length by (rewrite ?Hl1; lia). exact Hl1.
    + intros i Hiv Hip.
      rewrite XMStoreFloat4x4_outside by (rewrite ?Hl1; (lia || tauto)).
      apply XMStoreFloat4x4_outside; (lia || tauto).
  - split; [apply XMStoreFloat4x4_length; lia|].
    intros i Hiv _. apply XMStoreFloat4x4_outside; (lia || tauto).
  - split; [apply XMStoreFloat4x4_length; lia|].
    intros i _ Hip. apply XMStoreFloat4x4_outside; (lia || tauto).
  - split; reflexivity.
Qed.

(** Scans from a new controller only store representable entries. *)
Lemma scanned_state_representable p size old :
  0 <= size < 2 ^ 64 -> representable old -> representable (scanned_state p size old).
Proof.
  intros Hs (Hv & Hp & Hl). unfold representable.
  rewrite scanned_state_data, read_bytes_length, scanned_state_view, scanned_state_proj.
  split; [|split; [|lia]].
  - destruct (find_view _ _); [apply to_int_range|done].
  - destruct (find_proj _ _); [apply to_int_range|done].
Qed.

Lemma run_representable ops c :
  Forall call_size_ok ops ->
  (forall h st, m_bufferCache c !! h = Some st -> representable st) ->
  forall h st, m_bufferCache (run ops c) !! h = Some st -> representable st.
Proof.
  revert c. induction ops as [|op ops IH]; intros c Hall Hc; [done|].
  inversion Hall as [|? ? Hop Hops]; subst. cbn [run fold_left]. apply IH; [done|].
  assert (Hscan : forall resource p size isMapped, 0 <= size < 2 ^ 64 ->
            forall h st, m_bufferCache (ScanBufferImpl resource p size isMapped c) !! h = Some st ->
                         representable st).
  { intros resource p size isMapped Hs h st.
    destruct (accepted size isMapped) eqn:Ha; [|rewrite ScanBufferImpl_rejected by done; apply Hc].
    rewrite ScanBufferImpl_cache by done.
    destruct (decide (resource = h)) as [->|Hne].
    - rewrite lookup_insert_eq. intros [= <-]. apply scanned_state_representable; [done|].
      destruct (m_bufferCache c !! h) eqn:Hl; cbn [default]; [by eapply Hc|].
      repeat split; cbn; lia.
    - rewrite lookup_insert_ne by done. apply Hc. }
  destruct op; cbn [step call_size_ok] in *.
  - by apply Hscan.
  - by apply Hscan.
  - by rewrite GetModifiedBufferData_state.
Qed.

Lemma read_bytes_lookup p size (k : nat) :
  Z.of_nat k < size -> read_bytes p size !! k = Some (p (Z.of_nat k)).
Proof.
  intros Hk. unfold read_bytes. rewrite list_lookup_fmap.
  rewrite lookup_seq_lt by lia. reflexivity.
Qed.

Lemma GetModifiedBufferData_output face out c state :
  m_cameraBuffer c <> 0%N -> m_bufferCache c !! m_cameraBuffer c = Some state ->
  GetModifiedBufferData face out c
  = (c, (true,
         let fc := Z.of_nat (length (data state)) / 4 in
         let o1 := if slot_fits (viewMatrixOffset state) fc
                   then XMStoreFloat4x4 (data state) (viewMatrixOffset state)
                          (synthesized_view face c)
                   else data state in
         if slot_fits (projMatrixOffset state) fc
         then XMStoreFloat4x4 o1 (projMatrixOffset state) (synthesized_proj c)
         else o1)).
Proof.
  intros Hnz Hst. unfold GetModifiedBufferData.
  destruct (N.eqb_spec (m_cameraBuffer c) 0); [done|]. rewrite Hst. reflexivity.
Qed.

(** The rewriter writes nothing for an offset that fails its bound check:
    every byte outside the slots of the offsets that pass it is the
    snapshot's. *)
Lemma GetModifiedBufferData_rechecks face out c state :
  m_cameraBuffer c <> 0%N -> m_bufferCache c !! m_cameraBuffer c = Some state ->
  representable state ->
  let fc := Z.of_nat (length (data state)) / 4 in
  forall k : nat,
    ~ (0 <= viewMatrixOffset state /\ viewMatrixOffset state + 16 <= fc
       /\ in_slot (viewMatrixOffset state) k) ->
    ~ (0 <= projMatrixOffset state /\ projMatrixOffset state + 16 <= fc
       /\ in_slot (projMatrixOffset state) k) ->
    snd (snd (GetModifiedBufferData face out c)) !! k = data state !! k.
Proof.
  intros Hnz Hst (Hv & Hp & Hlen) fc k Hkv Hkp.
  rewrite (GetModifiedBufferData_output face out c state Hnz Hst).
  cbn [fst snd]. cbv zeta. fold fc.
  assert (Hfc : 0 <= fc < 2 ^ 62) by (unfold fc; Z.div_mod_to_equations; lia).
  assert (H4 : 4 * fc <= Z.of_nat (length (data state)))
    by (unfold fc; Z.div_mod_to_equations; lia).
  set (o1 := if slot_fits (viewMatrixOffset state) fc then _ else _).
  assert (Hl1 : length o1 = length (data state)).
  { unfold o1. destruct (slot_fits (viewMatrixOffset state) fc) eqn:Ev; [|done].
    apply (slot_fits_bound _ _ Hv Hfc) in Ev. apply XMStoreFloat4x4_length; lia. }
  assert (Ho1 : o1 !! k = data state !! k).
  { unfold o1. destruct (slot_fits (viewMatrixOffset state) fc) eqn:Ev; [|done].
    apply (slot_fits_bound _ _ Hv Hfc) in Ev.
    apply XMStoreFloat4x4_outside; [lia|lia|].
    intros Hin. apply Hkv. split; [lia|]. split; [lia|exact Hin]. }
  destruct (slot_fits (projMatrixOffset state) fc) eqn:Ep; [|exact Ho1].
  apply (slot_fits_bound _ _ Hp Hfc) in Ep. rewrite <- Ho1.
  apply XMStoreFloat4x4_outside; [lia|rewrite Hl1; lia|].
  intros Hin. apply Hkp. split; [lia|]. split; [lia|exact Hin].
Qed.

(** C3 (as amended).  After a scan that is not rejected, the entry of the
    scanned handle holds the buffer's current bytes: it has [size] bytes
    and byte [k] is the byte at [k] behind the scanned pointer.  An offset
    of a matrix found by this scan, if it is set (not negative), satisfies
    [offset + 16 <= floatCount] for that size.  The offset of a matrix this
    scan did not find keeps the value it had before the scan, whether or
    not it still satisfies the bound.  The rewriter checks the bound again
    before it writes: when the scanned handle is the camera buffer,
    [GetModifiedBufferData] succeeds and every byte of its output that does
    not lie in the slot of an offset satisfying the bound is the byte of
    the entry, so an offset that fails the bound is not written through.
    (The last part takes the entry's offsets to be [int]s and the size to
    be a [uint64_t].) *)
Theorem recorded_offsets_fit resource p size isMapped c :
  accepted size isMapped = true ->
  let old := default new_BufferState (m_bufferCache c !! resource) in
  let c' := ScanBufferImpl resource p size isMapped c in
  exists st,
    m_bufferCache c' !! resource = Some st
    /\ Z.of_nat (length (data st)) = size
    /\ (forall k : nat, Z.of_nat k < size -> data st !! k = Some (p (Z.of_nat k)))
    /\ match find_view (as_floats p) (size / 4) with
       | Some _ => 0 <= viewMatrixOffset st -> viewMatrixOffset st + 16 <= size / 4
       | None => viewMatrixOffset st = viewMatrixOffset old
       end
    /\ match find_proj (as_floats p) (size / 4) with
       | Some _ => 0 <= projMatrixOffset st -> projMatrixOffset st + 16 <= size / 4
       | None => projMatrixOffset st = projMatrixOffset old
       end
    /\ (representable old -> size < 2 ^ 64 ->
        resource <> 0%N -> m_cameraBuffer c' = resource ->
        forall face out,
          fst (snd (GetModifiedBufferData face out c')) = true
          /\ forall k : nat,
               ~ (0 <= viewMatrixOffset st /\ viewMatrixOffset st + 16 <= size / 4
                  /\ in_slot (viewMatrixOffset st) k) ->
               ~ (0 <= projMatrixOffset st /\ projMatrixOffset st + 16 <= size / 4
                  /\ in_slot (projMatrixOffset st) k) ->
               snd (snd (GetModifiedBufferData face out c')) !! k = data st !! k).
Proof.
  intros Ha old c'.
  assert (H64 : 64 <= size).
  { unfold accepted in Ha. destruct (Z.ltb_spec size 64); [discriminate|lia]. }
  set (st := scanned_state p size old).
  assert (Hst : m_bufferCache c' !! resource = Some st).
  { unfold c'. rewrite ScanBufferImpl_cache by done. apply lookup_insert_eq. }
  assert (Hlen : Z.of_nat (length (data st)) = size).
  { unfold st. rewrite scanned_state_data, read_bytes_length. lia. }
  exists st. split; [exact Hst|]. split; [exact Hlen|]. split.
  { intros k Hk. unfold st. rewrite scanned_state_data. by apply read_bytes_lookup. }
  split.
  { unfold st. rewrite scanned_state_view.
    destruct (find_view _ _) as [i|] eqn:Hv; [|done].
    apply find_view_bound in Hv. pose proof (to_int_le i). lia. }
  split.
  { unfold st. rewrite scanned_state_proj.
    destruct (find_proj _ _) as [i|] eqn:Hp; [|done].
    apply find_proj_bound in Hp. pose proof (to_int_le i). lia. }
  intros Hold Hsize Hnz Hcam face out.
  assert (Hnz' : m_cameraBuffer c' <> 0%N) by (rewrite Hcam; exact Hnz).
  assert (Hst' : m_bufferCache c' !! m_cameraBuffer c' = Some st) by (rewrite Hcam; exact Hst).
  assert (Hrep : representable st).
  { unfold st. apply scanned_state_representable; [lia|exact Hold]. }
  split.
  - by rewrite (GetModifiedBufferData_output face out c' st Hnz' Hst').
  - pose proof (GetModifiedBufferData_rechecks face out c' st Hnz' Hst' Hrep) as H.
    cbv zeta in H. rewrite Hlen in H. exact H.
Qed.

End Controller.

(* ===================================================================== *)
(** ** The unmap handler *)
(* ===================================================================== *)

Section Interceptor.
Context {dx : DirectXMath}.
Import Graphics.

(** Without a ledger entry the handler does nothing. *)
Lemma OnUnmapBuffer_missing heap resource g :
  m_mappedBuffers g !! resource = None -> OnUnmapBuffer heap resource g = g.
Proof. intros H. unfold OnUnmapBuffer. rewrite H. by destruct g. Qed.

(** With an entry of more than 64 bytes, the entry is erased and the
    buffer is handed to [OnUpdateBuffer]: the scan runs with [isMapped]
    false. *)
Lemma OnUnmapBuffer_found heap resource g it c :
  m_mappedBuffers g !! resource = Some it ->
  data it <> 0 -> 64 < size it -> m_cameraController g = Some c ->
  OnUnmapBuffer heap resource g
  = {| m_mappedBuffers := delete resource (m_mappedBuffers g);
       m_cameraController :=
         Some (Camera.ScanBufferImpl resource (heap (data it)) (size it) false c) |}.
Proof.
  intros H Hd Hs Hc. unfold OnUnmapBuffer. rewrite H, Hc.
  replace (data it =? 0) with false by (symmetry; apply Z.eqb_neq; done).
  replace (64 <? size it) with true by (symmetry; apply Z.ltb_lt; done).
  reflexivity.
Qed.

(** C1 (the code departs from the claim).  For the mapping of 8192 bytes
    the handler forwards the buffer through [OnUpdateBuffer], so the scan
    runs with the mapped flag clear and caches the buffer; tagged as
    mapped, as the claim has it, the same buffer is skipped. *)
Theorem OnUnmapBuffer_large_mapping :
  m_cameraController (OnUnmapBuffer (fun _ => zero_memory) 7%N large_mapping)
  = Some (Camera.ScanBufferImpl 7%N zero_memory 8192 false initial_controller)
  /\ is_Some (Camera.m_bufferCache
                (Camera.ScanBufferImpl 7%N zero_memory 8192 false initial_controller) !! 7%N)
  /\ Camera.OnScanBuffer 7%N zero_memory 8192 initial_controller = initial_controller.
Proof.
  split; [|split].
  - rewrite (OnUnmapBuffer_found _ _ _ {| data := 4096; size := 8192 |} initial_controller);
      try done.
  - rewrite ScanBufferImpl_cache by reflexivity. rewrite lookup_insert_eq. eauto.
  - by apply ScanBufferImpl_rejected.
Qed.

End Interceptor.

(* ===================================================================== *)
(** ** The claims on sample inputs *)
(* ===================================================================== *)

Lemma fresh_initial_controller : Camera.fresh initial_controller.
Proof. repeat split. Qed.

(** C4 fails as stated: the identity matrix has the zeros at 3, 7, 11 and
    the one at 15, and is reported transposed. *)
Lemma IsViewMatrix_identity_transposed :
  Camera.row_major_pattern (1 # 10) (window_of_bits identity_bits)
  /\ Camera.IsViewMatrix (window_of_bits identity_bits) = (true, true).
Proof.
  split; [|vm_compute; reflexivity].
  repeat split; vm_compute; intros H; discriminate H.
Qed.

Lemma IsViewMatrix_patterns_witness :
  Camera.row_major_pattern (1 # 10) (window_of_bits translated_view_bits)
  /\ Camera.IsViewMatrix (window_of_bits translated_view_bits) = (true, false).
Proof.
  assert (Hrow : Camera.row_major_pattern (1 # 10) (window_of_bits translated_view_bits)).
  { repeat split; vm_compute; intros H; discriminate H. }
  split; [exact Hrow|].
  destruct (IsViewMatrix_patterns translated_view_bits (or_introl Hrow)) as (Hm & _ & Ht).
  apply injective_projections; cbn [fst snd]; [exact Hm|].
  apply Ht. intros (H12 & _). vm_compute in H12. discriminate H12.
Defined.

(** C6 fails as stated, in the "only if" direction: a window of sixteen
    NaNs is accepted, and so is a window whose element 1 is the float
    [0.1f], which is more than one tenth. *)
Lemma IsProjectionMatrix_accepts_outside_pattern :
  (Camera.IsProjectionMatrix (window_of_bits nan_bits) = true
   /\ ~ Camera.projection_pattern (1 # 10) (window_of_bits nan_bits))
  /\ (Camera.IsProjectionMatrix (window_of_bits boundary_projection_bits) = true
      /\ ~ Camera.projection_pattern (1 # 10) (window_of_bits boundary_projection_bits)).
Proof.
  split; (split; [vm_compute; reflexivity|]).
  - intros (H1 & _). exact H1.
  - intros (H1 & _). vm_compute in H1. apply H1. reflexivity.
Qed.

Lemma IsProjectionMatrix_pattern_witness :
  Camera.projection_pattern (1 # 10) (window_of_bits rh_projection_bits)
  /\ Camera.IsProjectionMatrix (window_of_bits rh_projection_bits) = true
  /\ Camera.IsRightHandedProjection (window_of_bits rh_projection_bits) = true.
Proof.
  assert (Hpat : Camera.projection_pattern (1 # 10) (window_of_bits rh_projection_bits)).
  { repeat split; try (vm_compute; intros H; discriminate H).
    right. vm_compute. intros H; discriminate H. }
  destruct (IsProjectionMatrix_pattern rh_projection_bits) as (Hacc & _ & Hrh & _).
  split; [exact Hpat|]. split; [exact (Hacc Hpat)|]. apply Hrh. reflexivity.
Defined.

(** C3 fails as stated: a view matrix found at element 4 of an 80-byte
    buffer, then a 64-byte buffer without one for the same handle, leave the
    offset 4 in an entry of 16 floats. *)
Lemma stale_offset_after_shrink :
  let c := Camera.run (dx := sample_math)
             [Camera.CallUpdateBuffer 7%N (memory_of view_at_4_buffer) 80;
              Camera.CallUpdateBuffer 7%N (memory_of zero_buffer) 64]
             initial_controller in
  exists st, Camera.m_bufferCache c !! 7%N = Some st
             /\ Camera.viewMatrixOffset st = 4
             /\ Z.of_nat (length (Camera.data st)) / 4 = 16
             /\ ~ (Camera.viewMatrixOffset st + 16 <= Z.of_nat (length (Camera.data st)) / 4).
Proof.
  eexists. split; [vm_compute; reflexivity|]. cbn [Camera.viewMatrixOffset Camera.data].
  split; [reflexivity|]. split; [reflexivity|]. vm_compute. intros H. apply H. reflexivity.
Qed.

Lemma recorded_offsets_fit_witness :
  let c1 := Camera.ScanBufferImpl (dx := sample_math) 7%N (memory_of view_at_4_buffer) 80 false
              initial_controller in
  let c2 := Camera.ScanBufferImpl (dx := sample_math) 7%N (memory_of zero_buffer) 64 false c1 in
  (exists st,
     Camera.m_bufferCache c1 !! 7%N = Some st
     /\ Camera.data st !! 79%nat = Some x3f
     /\ Camera.viewMatrixOffset st = 4
     /\ Camera.viewMatrixOffset st + 16 <= 80 / 4)
  /\ (exists st,
        Camera.m_bufferCache c2 !! 7%N = Some st
        /\ Z.of_nat (length (Camera.data st)) = 64
        /\ Camera.viewMatrixOffset st = 4
        /\ fst (snd (Camera.GetModifiedBufferData (dx := sample_math) Camera.Front [] c2)) = true
        /\ snd (snd (Camera.GetModifiedBufferData (dx := sample_math) Camera.Front [] c2))
             !! 16%nat = Some x00).
Proof.
  intros c1 c2. split.
  - destruct (recorded_offsets_fit (dx := sample_math) 7%N (memory_of view_at_4_buffer) 80 false
                initial_controller eq_refl) as (st & Hst & _ & Hbytes & Hv & _).
    exists st. split; [exact Hst|].
    assert (Hoff : Camera.viewMatrixOffset st = 4).
    { vm_compute in Hst. injection Hst as <-. reflexivity. }
    split; [|split; [exact Hoff|]].
    + rewrite (Hbytes 79%nat) by lia. reflexivity.
    + replace (Camera.find_view (as_floats (memory_of view_at_4_buffer)) (80 / 4))
        with (Some 4) in Hv by (vm_compute; reflexivity).
      apply Hv. rewrite Hoff. lia.
  - destruct (recorded_offsets_fit (dx := sample_math) 7%N (memory_of zero_buffer) 64 false
                c1 eq_refl) as (st & Hst & Hlen & Hbytes & Hv & _ & Hrw).
    exists st. split; [exact Hst|]. split; [exact Hlen|].
    assert (Hold : Camera.m_bufferCache c1 !! 7%N
                   = Some {| Camera.data := view_at_4_buffer; Camera.viewMatrixOffset := 4;
                             Camera.projMatrixOffset := -1; Camera.isCamera := true |})
      by (vm_compute; reflexivity).
    assert (Hoff : Camera.viewMatrixOffset st = 4).
    { replace (Camera.find_view (as_floats (memory_of zero_buffer)) (64 / 4))
        with (@None Z) in Hv by (vm_compute; reflexivity).
      rewrite Hv, Hold. reflexivity. }
    assert (Hpoff : Camera.projMatrixOffset st = -1).
    { vm_compute in Hst. injection Hst as <-. reflexivity. }
    split; [exact Hoff|].
    destruct (Hrw) with (face := Camera.Front) (out := @nil byte) as [Hok Hkeep].
    + rewrite Hold. vm_compute. repeat split; intros H; discriminate H.
    + lia.
    + discriminate.
    + vm_compute. reflexivity.
    + split; [exact Hok|]. unfold c2.
      rewrite (Hkeep 16%nat).
      * rewrite (Hbytes 16%nat) by lia. reflexivity.
      * rewrite Hoff. intros (_ & H & _). vm_compute in H. apply H. reflexivity.
      * rewrite Hpoff. intros (H & _). lia.
Defined.

(** The controller after the 80-byte buffer with a view matrix at element 4
    has been seen for resource 7. *)
Lemma camera_found_at_4 :
  let c := Camera.OnUpdateBuffer (dx := sample_math) 7%N (memory_of view_at_4_buffer) 80
             initial_controller in
  Camera.m_cameraBuffer c = 7%N /\ Camera.m_upDetected c = true
  /\ Camera.m_worldUp c = XMVectorSet Lane.zero Lane.neg_one Lane.zero Lane.zero.
Proof. vm_compute. repeat split. Qed.

Lemma GetModifiedBufferData_preserves_witness :
  let c := Camera.OnUpdateBuffer (dx := sample_math) 7%N (memory_of view_at_4_buffer) 80
             initial_controller in
  let r := Camera.GetModifiedBufferData (dx := sample_math) Camera.Front [] c in
  fst r = c /\ fst (snd r) = true /\ length (snd (snd r)) = 80%nat
  /\ snd (snd r) !! 15%nat = Some x00.
Proof.
  intros c r.
  assert (Hrep : forall state, Camera.m_bufferCache c !! Camera.m_cameraBuffer c = Some state ->
                               Camera.representable state).
  { intros state Hst. vm_compute in Hst. injection Hst as <-. vm_compute.
    repeat split; intros H; discriminate H. }
  destruct (GetModifiedBufferData_preserves (dx := sample_math) Camera.Front [] c Hrep)
    as (Hc & Hok).
  assert (Htrue : fst (snd r) = true) by (vm_compute; reflexivity).
  destruct (Hok Htrue) as (state & Hst & Hlen & Hbytes).
  assert (Hstate : state = {| Camera.data := view_at_4_buffer; Camera.viewMatrixOffset := 4;
                              Camera.projMatrixOffset := -1; Camera.isCamera := true |}).
  { vm_compute in Hst. injection Hst as <-. reflexivity. }
  split; [exact Hc|]. split; [exact Htrue|]. split.
  - unfold r. rewrite Hlen, Hstate. reflexivity.
  - unfold r. rewrite (Hbytes 15%nat).
    + rewrite Hstate. reflexivity.
    + rewrite Hstate. intros [_ H]. cbn in H. lia.
    + rewrite Hstate. intros [H _]. vm_compute in H. discriminate H.
Defined.

(** The Z-up view matrix alone makes a new controller choose (0, 0, 1). *)
Lemma z_up_view_detected :
  Camera.m_worldUp (Camera.OnUpdateBuffer (dx := sample_math) 8%N (memory_of z_up_view_buffer) 64
                      initial_controller)
  = XMVectorSet Lane.zero Lane.zero Lane.one Lane.zero.
Proof. vm_compute. reflexivity. Qed.

Lemma world_up_sticky_witness :
  let c := Camera.OnUpdateBuffer (dx := sample_math) 7%N (memory_of view_at_4_buffer) 80
             initial_controller in
  let c' := Camera.run (dx := sample_math)
              [Camera.CallUpdateBuffer 8%N (memory_of z_up_view_buffer) 64] c in
  Camera.m_upDetected c = true
  /\ Camera.m_cameraBuffer c' = 8%N
  /\ Camera.m_upDetected c' = true
  /\ Camera.m_worldUp c' = XMVectorSet Lane.zero Lane.neg_one Lane.zero Lane.zero.
Proof.
  intros c c'.
  assert (Hup : Camera.m_upDetected c = true) by (vm_compute; reflexivity).
  destruct (world_up_sticky (dx := sample_math)
              [Camera.CallUpdateBuffer 8%N (memory_of z_up_view_buffer) 64] c Hup) as [H1 H2].
  split; [exact Hup|]. split; [vm_compute; reflexivity|]. split; [exact H1|].
  unfold c'. rewrite H2. vm_compute. reflexivity.
Defined.

Lemma GetModifiedBufferData_no_camera_witness :
  let c := Camera.run (dx := sample_math)
             [Camera.CallScanBuffer 7%N (memory_of zero_buffer) 64] initial_controller in
  Camera.GetModifiedBufferData (dx := sample_math) Camera.Front [] c = (c, (false, [])).
Proof.
  intros c. apply (GetModifiedBufferData_no_camera (dx := sample_math)).
  right. right. exists initial_controller, [Camera.CallScanBuffer 7%N (memory_of zero_buffer) 64].
  split; [apply fresh_initial_controller|]. split; [|reflexivity].
  constructor; [vm_compute; reflexivity|constructor].
Defined.

Lemma small_buffer_ignored_witness :
  Camera.OnUpdateBuffer (dx := sample_math) 7%N (memory_of zero_buffer) 63 initial_controller
  = initial_controller
  /\ Camera.OnScanBuffer (dx := sample_math) 7%N (memory_of zero_buffer) 63 initial_controller
     = initial_controller.
Proof.
  apply (small_buffer_ignored (dx := sample_math)). lia.
Defined.

(** The buffer of the next lemma holds a view matrix: through the update
    path it is scanned and becomes the camera buffer. *)
Lemma large_view_buffer_detected :
  Camera.finds_camera (memory_of large_view_buffer) 4100 false = true
  /\ Camera.m_cameraBuffer
       (Camera.OnUpdateBuffer (dx := sample_math) 7%N (memory_of large_view_buffer) 4100
          initial_controller) = 7%N.
Proof.
  assert (H : Camera.finds_camera (memory_of large_view_buffer) 4100 false = true)
    by (vm_compute; reflexivity).
  split; [exact H|].
  unfold Camera.OnUpdateBuffer. rewrite ScanBufferImpl_cameraBuffer, H. reflexivity.
Qed.

Lemma large_mapped_buffer_skipped_witness :
  Camera.OnScanBuffer (dx := sample_math) 7%N (memory_of large_view_buffer) 4100
    initial_controller
  = initial_controller.
Proof.
  apply (large_mapped_buffer_skipped (dx := sample_math)). lia.
Defined.

Lemma camera_entry_present_witness :
  let c := Camera.run (dx := sample_math)
             [Camera.CallUpdateBuffer 7%N (memory_of view_at_4_buffer) 80] initial_controller in
  Camera.m_cameraBuffer c = 7%N
  /\ is_Some (Camera.m_bufferCache c !! Camera.m_cameraBuffer c)
  /\ fst (snd (Camera.GetModifiedBufferData (dx := sample_math) Camera.Back [] c)) = true.
Proof.
  intros c.
  assert (Hcam : Camera.m_cameraBuffer c = 7%N) by (vm_compute; reflexivity).
  assert (Hnz : Camera.m_cameraBuffer c <> 0%N) by (rewrite Hcam; discriminate).
  destruct (camera_entry_present (dx := sample_math) initial_controller
              [Camera.CallUpdateBuffer 7%N (memory_of view_at_4_buffer) 80]
              fresh_initial_controller Hnz) as [Hsome Hok].
  split; [exact Hcam|]. split; [exact Hsome|]. apply Hok.
Defined.

(* ===================================================================== *)
(** ** Further properties of the mapped-buffer ledger *)
(* ===================================================================== *)

Section Ledger.
Context {dx : DirectXMath}.
Import Graphics.

(** X1.  Mapping with a null pointer changes nothing.  Mapping with a
    pointer records it with its size under the resource handle, and leaves
    the other entries and the controller alone. *)
Theorem OnMapBuffer_records resource size data g :
  (data = 0 -> OnMapBuffer resource size data g = g)
  /\ (data <> 0 ->
      m_mappedBuffers (OnMapBuffer resource size data g) !! resource
      = Some {| Graphics.data := data; Graphics.size := size |}
      /\ (forall h, h <> resource ->
            m_mappedBuffers (OnMapBuffer resource size data g) !! h = m_mappedBuffers g !! h)
      /\ m_cameraController (OnMapBuffer resource size data g) = m_cameraController g).
Proof.
  unfold OnMapBuffer. split.
  - intros ->. reflexivity.
  - intros Hd. replace (data =? 0) with false by (symmetry; by apply Z.eqb_neq).
    cbn [m_mappedBuffers m_cameraController]. split; [apply lookup_insert_eq|].
    split; [|reflexivity]. intros h Hh. by apply lookup_insert_ne.
Qed.

(** X2.  Mapping a resource again replaces its entry: the last pointer
    and size are the ones kept.  A later mapping with a null pointer does
    not clear the entry of an earlier one. *)
Theorem OnMapBuffer_last_wins resource size1 data1 size2 data2 g :
  OnMapBuffer resource size2 data2 (OnMapBuffer resource size1 data1 g)
  = if data2 =? 0 then OnMapBuffer resource size1 data1 g
    else OnMapBuffer resource size2 data2 g.
Proof.
  unfold OnMapBuffer. destruct (data2 =? 0); [reflexivity|].
  destruct (data1 =? 0); [reflexivity|].
  cbn [m_mappedBuffers m_cameraController]. by rewrite insert_insert_eq.
Qed.

Lemma OnUnmapBuffer_ledger heap resource g :
  m_mappedBuffers (OnUnmapBuffer heap resource g) = delete resource (m_mappedBuffers g).
Proof.
  unfold OnUnmapBuffer.
  destruct (m_mappedBuffers g !! resource) as [it|] eqn:Hit.
  - destruct (negb (data it =? 0) && (64 <? size it)); [|done].
    by destruct (m_cameraController g).
  - cbn. symmetry. by apply delete_id.
Qed.

(** X3.  Whatever it finds, unmapping leaves the ledger without an entry
    for the resource and with every other entry as it was; a manager
    without a controller stays without one. *)
Theorem OnUnmapBuffer_erases heap resource g :
  m_mappedBuffers (OnUnmapBuffer heap resource g) = delete resource (m_mappedBuffers g)
  /\ (m_cameraController g = None -> m_cameraController (OnUnmapBuffer heap resource g) = None).
Proof.
  split; [apply OnUnmapBuffer_ledger|].
  intros Hnone. unfold OnUnmapBuffer. rewrite Hnone.
  destruct (m_mappedBuffers g !! resource) as [it|]; [|done].
  by destruct (negb (data it =? 0) && (64 <? size it)).
Qed.

(** X4.  A mapped buffer of at most 64 bytes is dropped on unmap: its
    entry is erased and the controller does not see it.  This includes a
    buffer of exactly 64 bytes, which the scan itself would take. *)
Theorem OnUnmapBuffer_small_not_forwarded heap resource g it :
  m_mappedBuffers g !! resource = Some it -> size it <= 64 ->
  OnUnmapBuffer heap resource g
  = {| m_mappedBuffers := delete resource (m_mappedBuffers g);
       m_cameraController := m_cameraController g |}.
Proof.
  intros Hit Hs. unfold OnUnmapBuffer. rewrite Hit.
  replace (64 <? size it) with false by (symmetry; apply Z.ltb_ge; lia).
  by rewrite andb_false_r.
Qed.

(** X5.  Map followed by unmap of the same resource: the ledger ends up
    without the resource, and the controller has scanned the mapped bytes
    through the update path when there are more than 64 of them, and is
    untouched otherwise. *)
Theorem map_then_unmap heap resource size data g :
  data <> 0 ->
  OnUnmapBuffer heap resource (OnMapBuffer resource size data g)
  = {| m_mappedBuffers := delete resource (m_mappedBuffers g);
       m_cameraController :=
         if 64 <? size
         then Camera.OnUpdateBuffer resource (heap data) size <$> m_cameraController g
         else m_cameraController g |}.
Proof.
  intros Hd. unfold OnUnmapBuffer, OnMapBuffer.
  replace (data =? 0) with false by (symmetry; by apply Z.eqb_neq).
  cbn [m_mappedBuffers m_cameraController]. rewrite lookup_insert_eq.
  cbn [Graphics.data Graphics.size]. rewrite delete_insert_eq.
  replace (data =? 0) with false by (symmetry; by apply Z.eqb_neq).
  cbn [negb andb]. destruct (64 <? size); [|reflexivity].
  destruct (m_cameraController g); reflexivity.
Qed.

(** X6.  Unmapping twice is the same as unmapping once: the second call
    finds no entry and does nothing, whatever the memory holds by then. *)
Theorem OnUnmapBuffer_twice heap heap' resource g :
  OnUnmapBuffer heap' resource (OnUnmapBuffer heap resource g)
  = OnUnmapBuffer heap resource g.
Proof.
  apply OnUnmapBuffer_missing.
  rewrite OnUnmapBuffer_ledger. apply lookup_delete_eq.
Qed.

End Ledger.

(* ===================================================================== *)
(** ** Further properties of the matrix tests *)
(* ===================================================================== *)

Section MoreMatrixTests.

Variable w : Z -> Z.
Let d : float_ptr := window_of_bits w.

Lemma either_test_iff (r c : bool) (R C O : Prop) :
  (r = true <-> R /\ O) -> (c = true <-> C /\ O) ->
  (r || c = true <-> O /\ (R \/ C)) /\ (c = true <-> O /\ C).
Proof. destruct r, c; cbn [orb]; intuition discriminate. Qed.

(** X7.  The view-matrix test matches exactly the windows whose element
    15 is a number less than [0.1f] away from one and whose elements 3, 7,
    11, or else 12, 13, 14, are numbers of magnitude less than [0.1f]; the
    transposed flag is set exactly when the second alternative holds. *)
Theorem IsViewMatrix_iff :
  (fst (Camera.IsViewMatrix d) = true
   <-> F32.strictly_within F32.eps 1 (d 15)
       /\ ((F32.strictly_within F32.eps 0 (d 3) /\ F32.strictly_within F32.eps 0 (d 7)
            /\ F32.strictly_within F32.eps 0 (d 11))
           \/ Camera.bottom_row_small d))
  /\ (snd (Camera.IsViewMatrix d) = true
      <-> F32.strictly_within F32.eps 1 (d 15) /\ Camera.bottom_row_small d).
Proof.
  pose proof (rowMajor_spec w) as Hr. pose proof (colMajor_spec w) as Hc.
  unfold Camera.IsViewMatrix, Camera.bottom_row_small. cbn [fst snd].
  apply either_test_iff.
  - etrans; [exact Hr|]. clear. tauto.
  - etrans; [exact Hc|]. clear. tauto.
Qed.

Lemma near_one_not_small x :
  F32.canonical x -> F32.strictly_within F32.eps 1 x ->
  F32.gtb (F32.abs x) Camera.epsilon = true.
Proof.
  intros Hc H1.
  assert (Hn : F32.is_nan x = false).
  { unfold F32.strictly_within in H1. by destruct x. }
  destruct (F32.gtb (F32.abs x) Camera.epsilon) eqn:Hg; [done|exfalso].
  apply (gtb_abs_spec x Hc Hn) in Hg.
  change 1%Q with (inject_Z 1) in H1. change 0%Q with (inject_Z 0) in Hg.
  unfold F32.eps in *.
  apply (strictly_within_scaled _ _ _ _ Hc) in H1 as [_ H1].
  apply (within_scaled _ _ _ _ Hc) in Hg as [_ Hg]. lia.
Qed.

(** X8.  No window passes both tests: one that matches as a view matrix
    is rejected as a projection matrix (element 15 cannot be near one and
    near zero). *)
Theorem view_window_not_projection :
  fst (Camera.IsViewMatrix d) = true -> Camera.IsProjectionMatrix d = false.
Proof.
  intros Hv.
  assert (H15 : F32.strictly_within F32.eps 1 (d 15)).
  { unfold Camera.IsViewMatrix in Hv. cbn [fst] in Hv.
    apply orb_true_iff in Hv as [Hv|Hv].
    - exact (proj2 (proj2 (proj2 (proj1 (rowMajor_spec w) Hv)))).
    - exact (proj2 (proj2 (proj2 (proj1 (colMajor_spec w) Hv)))). }
  pose proof (near_one_not_small (d 15) (of_bits_canonical _) H15) as Hg.
  unfold Camera.IsProjectionMatrix. rewrite Hg.
  destruct (_ || _ || _); [done|]. destruct (_ || _ || _); done.
Qed.

(** Comparison of two numbers is comparison of their values. *)
Lemma SFcompare_scaled x y :
  F32.canonical x -> F32.canonical y -> F32.is_number x = true -> F32.is_number y = true ->
  SFcompare x y = Some (F32.scaled x ?= F32.scaled y).
Proof.
  destruct x as [sx| | |sx mx ex], y as [sy| | |sy my ey]; intros Hx Hy Hnx Hny;
    try discriminate; cbn [F32.canonical F32.scaled] in *.
  - reflexivity.
  - pose proof (canon_bounds _ _ Hy) as (He & _).
    assert (0 < Zpos my * 2 ^ (ey + 149)) by (apply Z.mul_pos_pos; [lia|apply Z.pow_pos_nonneg; lia]).
    cbn [SFcompare]. f_equal. symmetry.
    destruct sy; cbn [cond_Zopp]; [apply Z.compare_gt_iff|apply Z.compare_lt_iff]; lia.
  - pose proof (canon_bounds _ _ Hx) as (He & _).
    assert (0 < Zpos mx * 2 ^ (ex + 149)) by (apply Z.mul_pos_pos; [lia|apply Z.pow_pos_nonneg; lia]).
    cbn [SFcompare]. f_equal. symmetry.
    destruct sx; cbn [cond_Zopp]; [apply Z.compare_lt_iff|apply Z.compare_gt_iff]; lia.
  - pose proof (canon_bounds _ _ Hx) as (Hex & _). pose proof (canon_bounds _ _ Hy) as (Hey & _).
    assert (0 < Zpos mx * 2 ^ (ex + 149)) by (apply Z.mul_pos_pos; [lia|apply Z.pow_pos_nonneg; lia]).
    assert (0 < Zpos my * 2 ^ (ey + 149)) by (apply Z.mul_pos_pos; [lia|apply Z.pow_pos_nonneg; lia]).
    pose proof (SFcompare_canon mx ex my ey Hx Hy) as Hpos. cbn [SFcompare] in Hpos.
    injection Hpos as Hpos.
    destruct sx, sy; cbn [SFcompare cond_Zopp]; f_equal.
    + rewrite Z.compare_opp, (Z.compare_antisym (Zpos mx * _)), <- Hpos.
      rewrite (Z.compare_antisym ey ex).
      destruct (ey ?= ex); cbn [CompOpp]; reflexivity.
    + symmetry. apply Z.compare_lt_iff. lia.
    + symmetry. apply Z.compare_gt_iff. lia.
    + exact Hpos.
Qed.

Lemma handedness_arith (b n : bool) (S : Z) (Pm Pp : Prop) :
  (b = true <-> S < - (15099494 * 2 ^ 125)) ->
  (Pp <-> n = true /\ 134217728 * Z.abs (S - 1 * 2 ^ 149) <= 13421773 * 2 ^ 149) ->
  (Pm <-> n = true /\ 134217728 * Z.abs (S - -1 * 2 ^ 149) <= 13421773 * 2 ^ 149) ->
  Pp \/ Pm ->
  (b = true <-> Pm) /\ (b = false <-> Pp).
Proof.
  intros Hrh Hp Hm H11. destruct b.
  - assert (S < - (15099494 * 2 ^ 125)) by (apply Hrh; reflexivity).
    split; split.
    + intros _. destruct H11 as [H11|H11]; [|exact H11]. apply Hp in H11 as [_ H11]. lia.
    + reflexivity.
    + discriminate.
    + intros H1. apply Hp in H1 as [_ H1]. lia.
  - assert (~ S < - (15099494 * 2 ^ 125)) by (intros Hlt; apply Hrh in Hlt; discriminate).
    split; split.
    + discriminate.
    + intros H1. apply Hm in H1 as [_ H1]. lia.
    + intros _. destruct H11 as [H11|H11]; [exact H11|]. apply Hm in H11 as [_ H11]. lia.
    + reflexivity.
Qed.

(** X9.  On an accepted window without NaNs the handedness follows the
    sign of element 11: the window is right-handed exactly when that
    element is within [0.1f] of -1, and left-handed exactly when it is
    within [0.1f] of +1. *)
Theorem handedness_of_accepted :
  Camera.tested_not_nan d -> Camera.IsProjectionMatrix d = true ->
  (Camera.IsRightHandedProjection d = true <-> F32.within F32.eps (inject_Z (-1)) (d 11))
  /\ (Camera.IsRightHandedProjection d = false <-> F32.within F32.eps 1 (d 11)).
Proof.
  intros Hnan Hacc.
  apply (projection_pattern_eps w Hnan) in Hacc.
  destruct Hacc as (_ & _ & _ & _ & _ & _ & _ & H11).
  pose proof (of_bits_canonical (w 11)) as Hc. fold (window_of_bits w 11) in Hc. fold d in Hc.
  change 1%Q with (inject_Z 1) in *. unfold F32.eps in *.
  pose proof (within_scaled 13421773 134217728 1 (d 11) Hc) as Hp.
  pose proof (within_scaled 13421773 134217728 (-1) (d 11) Hc) as Hm.
  assert (Hnum : F32.is_number (d 11) = true).
  { destruct H11 as [H|H]; [exact (proj1 (proj1 Hp H))|exact (proj1 (proj1 Hm H))]. }
  assert (Hrh : Camera.IsRightHandedProjection d = true
                <-> F32.scaled (d 11) < - (15099494 * 2 ^ 125)).
  { assert (Hcl : F32.canonical F32.lit_neg_0_9) by (vm_compute; reflexivity).
    assert (Hnl : F32.is_number F32.lit_neg_0_9 = true) by (vm_compute; reflexivity).
    pose proof (SFcompare_scaled _ _ Hc Hcl Hnum Hnl) as Hcmp.
    assert (Hs : F32.scaled F32.lit_neg_0_9 = - (15099494 * 2 ^ 125)) by (vm_compute; reflexivity).
    rewrite Hs in Hcmp.
    unfold Camera.IsRightHandedProjection, F32.ltb, SFltb. rewrite Hcmp.
    clear. generalize (F32.scaled (d 11)). intros S.
    destruct (Z.compare_spec S (- (15099494 * 2 ^ 125))) as [Heq|Hlt|Hgt].
    - split; [discriminate|lia].
    - split; [intros _; exact Hlt|reflexivity].
    - split; [discriminate|lia]. }
  exact (handedness_arith _ _ _ _ _ Hrh Hp Hm H11).
Qed.

End MoreMatrixTests.

(* ===================================================================== *)
(** ** Further properties of the scan *)
(* ===================================================================== *)

Section MoreController.
Context {dx : DirectXMath}.
Import Camera.

Ltac scan_cases :=
  unfold ScanBufferImpl, accepted, log_sampling, on_view_match, on_proj_match,
    DetectWorldUp, scanned_state;
  repeat match goal with
         | |- context [if ?b then _ else _] => destruct b eqn:?
         | |- context [match ?o with Some _ => _ | None => _ end] => destruct o eqn:?
         end;
  cbn; try reflexivity.

(** X10.  World-up detection always ends with one of the four axis
    vectors (0,0,1), (0,0,-1), (0,1,0), (0,-1,0) and with the flag set,
    whatever the inverse and the normalisation return; it logs the axis it
    chose and touches nothing else. *)
Theorem DetectWorldUp_axis viewMat c :
  m_upDetected (DetectWorldUp viewMat c) = true
  /\ ((In (m_worldUp (DetectWorldUp viewMat c)) [z_up; z_down]
       /\ logged (DetectWorldUp viewMat c) = logged c ++ [LogZUp])
      \/ (In (m_worldUp (DetectWorldUp viewMat c)) [y_up; y_down]
          /\ logged (DetectWorldUp viewMat c) = logged c ++ [LogYUp]))
  /\ clear_log (DetectWorldUp viewMat c)
     = clear_log (set_worldUp (m_worldUp (DetectWorldUp viewMat c)) c).
Proof.
  unfold DetectWorldUp.
  destruct (F32.gtb (F32.abs _) (F32.abs _)).
  - split; [reflexivity|]. split; [left|reflexivity].
    destruct (F32.gtb _ F32.zero); cbn; auto.
  - split; [reflexivity|]. split; [right|reflexivity].
    destruct (F32.gtb _ F32.zero); cbn; auto.
Qed.

(** *** The loops stop at the first match *)

Lemma find_map_seq_Some {A} (test : A -> bool) (g : nat -> A) n : forall a x,
  List.find test (map g (seq a n)) = Some x ->
  exists k, (a <= k < a + n)%nat /\ x = g k /\ test (g k) = true
            /\ forall k', (a <= k' < k)%nat -> test (g k') = false.
Proof.
  induction n as [|n IH]; intros a x; cbn [seq map List.find]; [discriminate|].
  destruct (test (g a)) eqn:Ht.
  - intros [= <-]. exists a. repeat split; try lia. done.
  - intros (k & Hk & -> & Hk1 & Hk2)%IH. exists k. repeat split; try lia; [done|].
    intros k' Hk'. destruct (decide (k' = a)) as [->|]; [done|]. apply Hk2. lia.
Qed.

Lemma find_map_seq_None {A} (test : A -> bool) (g : nat -> A) n : forall a,
  List.find test (map g (seq a n)) = None ->
  forall k, (a <= k < a + n)%nat -> test (g k) = false.
Proof.
  induction n as [|n IH]; intros a; cbn [seq map List.find]; [lia|].
  destruct (test (g a)) eqn:Ht; [discriminate|].
  intros Hn k Hk. destruct (decide (k = a)) as [->|]; [done|]. apply (IH _ Hn). lia.
Qed.

(** What a loop over [scan_offsets] returns, for any test. *)
Lemma find_scan_offsets (test : Z -> bool) floatCount :
  match List.find test (scan_offsets floatCount) with
  | Some i =>
      0 <= i /\ i mod 4 = 0 /\ i + 16 <= floatCount /\ test i = true
      /\ forall j, 0 <= j < i -> j mod 4 = 0 -> test j = false
  | None =>
      forall j, 0 <= j -> j mod 4 = 0 -> j + 16 <= floatCount -> test j = false
  end.
Proof.
  unfold scan_offsets.
  destruct (List.find _ _) as [i|] eqn:Hf.
  - apply find_map_seq_Some in Hf as (k & Hk & -> & Ht & Hfirst).
    assert (Z.of_nat k < (floatCount - 16) / 4 + 1) by lia.
    pose proof (Z.mul_div_le (floatCount - 16) 4 ltac:(lia)).
    repeat split; try lia.
    + rewrite Z.mul_comm. apply Z.mod_mul. lia.
    + done.
    + intros j Hj Hmod. specialize (Hfirst (Z.to_nat (j / 4))). cbv beta in Hfirst.
      replace (4 * Z.of_nat (Z.to_nat (j / 4))) with j in Hfirst
        by (revert Hmod; Z.div_mod_to_equations; lia).
      apply Hfirst. revert Hmod. Z.div_mod_to_equations. lia.
  - intros j Hj Hmod Hfit.
    pose proof (find_map_seq_None _ _ _ _ Hf (Z.to_nat (j / 4))) as Hnone.
    cbv beta in Hnone.
    replace (4 * Z.of_nat (Z.to_nat (j / 4))) with j in Hnone
      by (revert Hmod; Z.div_mod_to_equations; lia).
    apply Hnone. revert Hmod. Z.div_mod_to_equations. lia.
Qed.

(** X11.  The view-matrix loop stops at the first match: the offset it
    reports is a multiple of 4 whose window lies inside the buffer and
    passes the test, and no window at a smaller multiple of 4 passes; it
    reports nothing only when no aligned window of the buffer passes. *)
Theorem find_view_first floatData floatCount :
  match find_view floatData floatCount with
  | Some i =>
      0 <= i /\ i mod 4 = 0 /\ i + 16 <= floatCount
      /\ fst (IsViewMatrix (offset_by floatData i)) = true
      /\ forall j, 0 <= j < i -> j mod 4 = 0 ->
                   fst (IsViewMatrix (offset_by floatData j)) = false
  | None =>
      forall j, 0 <= j -> j mod 4 = 0 -> j + 16 <= floatCount ->
                fst (IsViewMatrix (offset_by floatData j)) = false
  end.
Proof.
  apply (find_scan_offsets (fun i => fst (IsViewMatrix (offset_by floatData i)))).
Qed.

(** X12.  The projection-matrix loop stops at the first match in the same
    way: first aligned window inside the buffer that passes the projection
    test, or nothing when no aligned window passes. *)
Theorem find_proj_first floatData floatCount :
  match find_proj floatData floatCount with
  | Some i =>
      0 <= i /\ i mod 4 = 0 /\ i + 16 <= floatCount
      /\ IsProjectionMatrix (offset_by floatData i) = true
      /\ forall j, 0 <= j < i -> j mod 4 = 0 ->
                   IsProjectionMatrix (offset_by floatData j) = false
  | None =>
      forall j, 0 <= j -> j mod 4 = 0 -> j + 16 <= floatCount ->
                IsProjectionMatrix (offset_by floatData j) = false
  end.
Proof.
  apply (find_scan_offsets (fun i => IsProjectionMatrix (offset_by floatData i))).
Qed.

(** *** The cache *)

Lemma map_nth_seq (l : list byte) :
  map (fun k => nth k l x00) (seq 0 (length l)) = l.
Proof.
  induction l as [|b l IH]; [reflexivity|].
  cbn [length seq map nth]. f_equal.
  rewrite <- seq_shift, map_map. exact IH.
Qed.

Lemma read_bytes_memory_of (l : list byte) :
  read_bytes (memory_of l) (Z.of_nat (length l)) = l.
Proof.
  unfold read_bytes, memory_of. rewrite Nat2Z.id.
  etrans; [|apply map_nth_seq]. apply map_ext. intros k. by rewrite Nat2Z.id.
Qed.

(** X13.  A scan that is not rejected stores the scanned bytes: after
    scanning the buffer [l] the cache entry of the resource holds exactly
    [l], whatever it held before. *)
Theorem scan_caches_buffer resource (l : list byte) isMapped c :
  accepted (Z.of_nat (length l)) isMapped = true ->
  exists st,
    m_bufferCache (ScanBufferImpl resource (memory_of l) (Z.of_nat (length l)) isMapped c)
      !! resource = Some st
    /\ data st = l.
Proof.
  intros Ha. eexists. rewrite ScanBufferImpl_cache by done.
  split; [apply lookup_insert_eq|].
  rewrite scanned_state_data. apply read_bytes_memory_of.
Qed.

Lemma step_cache_other c op h :
  call_resource op <> Some h -> m_bufferCache (step c op) !! h = m_bufferCache c !! h.
Proof.
  assert (Hscan : forall resource p size isMapped, Some resource <> Some h ->
            m_bufferCache (ScanBufferImpl resource p size isMapped c) !! h
            = m_bufferCache c !! h).
  { intros resource p size isMapped Hne.
    destruct (accepted size isMapped) eqn:Ha; [|by rewrite ScanBufferImpl_rejected].
    rewrite ScanBufferImpl_cache by done. apply lookup_insert_ne. congruence. }
  destruct op; cbn [step call_resource]; intros Hne.
  - by apply Hscan.
  - by apply Hscan.
  - by rewrite GetModifiedBufferData_state.
Qed.

Lemma step_cache_is_Some c op h :
  is_Some (m_bufferCache c !! h) -> is_Some (m_bufferCache (step c op) !! h).
Proof.
  intros Hs.
  assert (Hscan : forall resource p size isMapped,
            is_Some (m_bufferCache (ScanBufferImpl resource p size isMapped c) !! h)).
  { intros resource p size isMapped.
    destruct (accepted size isMapped) eqn:Ha; [|by rewrite ScanBufferImpl_rejected].
    rewrite ScanBufferImpl_cache by done. rewrite lookup_insert_is_Some.
    destruct (decide (resource = h)); auto. }
  destruct op; cbn [step]; [apply Hscan|apply Hscan|by rewrite GetModifiedBufferData_state].
Qed.

(** X14.  Cache entries are never dropped: a handle that has an entry
    keeps one through any sequence of calls, and the entry of a handle
    that none of the calls scans stays exactly as it was. *)
Theorem cache_entries_persist ops c h :
  (is_Some (m_bufferCache c !! h) -> is_Some (m_bufferCache (run ops c) !! h))
  /\ (Forall (fun op => call_resource op <> Some h) ops ->
      m_bufferCache (run ops c) !! h = m_bufferCache c !! h).
Proof.
  revert c. induction ops as [|op ops IH]; intros c; [done|].
  cbn [run fold_left]. destruct (IH (step c op)) as [IH1 IH2]. split.
  - intros Hs. apply IH1. by apply step_cache_is_Some.
  - intros Hall. inversion Hall; subst.
    etrans; [by apply IH2|]. by apply step_cache_other.
Qed.

Lemma scanned_state_isCamera p size old :
  isCamera (scanned_state p size old)
  = isCamera old || bool_decide (is_Some (find_view (as_floats p) (size / 4)))
    || bool_decide (is_Some (find_proj (as_floats p) (size / 4))).
Proof.
  unfold scanned_state.
  destruct (find_view _ _), (find_proj _ _); cbn; by rewrite ?orb_true_r, ?orb_false_r.
Qed.

Lemma step_isCamera c op h st :
  m_bufferCache c !! h = Some st -> isCamera st = true ->
  exists st', m_bufferCache (step c op) !! h = Some st' /\ isCamera st' = true.
Proof.
  intros Hst Hcam.
  assert (Hscan : forall resource p size isMapped,
            exists st', m_bufferCache (ScanBufferImpl resource p size isMapped c) !! h = Some st'
                        /\ isCamera st' = true).
  { intros resource p size isMapped.
    destruct (accepted size isMapped) eqn:Ha; [|rewrite ScanBufferImpl_rejected by done; eauto].
    rewrite ScanBufferImpl_cache by done.
    destruct (decide (resource = h)) as [->|Hne].
    - rewrite lookup_insert_eq. eexists; split; [reflexivity|].
      rewrite scanned_state_isCamera, Hst. unfold default. cbn [from_option id].
      by rewrite Hcam.
    - rewrite lookup_insert_ne by done. eauto. }
  destruct op; cbn [step]; [apply Hscan|apply Hscan|rewrite GetModifiedBufferData_state; eauto].
Qed.

(** X15.  The [isCamera] mark of a cache entry is never cleared: once a
    matrix was found in a buffer, its entry stays marked through every
    later call, also through scans of the same handle that find nothing. *)
Theorem isCamera_sticky ops c h st :
  m_bufferCache c !! h = Some st -> isCamera st = true ->
  exists st', m_bufferCache (run ops c) !! h = Some st' /\ isCamera st' = true.
Proof.
  revert c st. induction ops as [|op ops IH]; intros c st Hst Hcam; [eauto|].
  cbn [run fold_left].
  destruct (step_isCamera c op h st Hst Hcam) as (st1 & Hst1 & Hcam1).
  exact (IH _ _ Hst1 Hcam1).
Qed.

(** X16.  The camera handle after a sequence of calls is the resource of
    the last scan in it that found a view or a projection matrix, and the
    handle held before when no scan found one: a later detection replaces
    an earlier one, and nothing else changes the handle. *)
Theorem camera_is_last_detected ops c :
  m_cameraBuffer (run ops c) = last_camera ops (m_cameraBuffer c).
Proof.
  unfold run, last_camera.
  revert c. induction ops as [|op ops IH]; intros c; [done|].
  cbn [fold_left]. rewrite IH. f_equal.
  destruct op; unfold default; cbn [step detects call_resource from_option id].
  - unfold OnUpdateBuffer. apply ScanBufferImpl_cameraBuffer.
  - unfold OnScanBuffer. apply ScanBufferImpl_cameraBuffer.
  - by rewrite GetModifiedBufferData_state.
Qed.

End MoreController.

(* ===================================================================== *)
(** ** Properties of the diagnostic log *)
(* ===================================================================== *)

Section Logging.
Context {dx : DirectXMath}.
Import Camera.

Ltac scan_cases :=
  unfold ScanBufferImpl, accepted, log_sampling, on_view_match, on_proj_match,
    DetectWorldUp, scanned_state;
  repeat match goal with
         | |- context [if ?b then _ else _] => destruct b eqn:?
         | |- context [match ?o with Some _ => _ | None => _ end] => destruct o eqn:?
         end;
  cbn; try reflexivity.

Lemma count_noisy_app l1 l2 : count_noisy (l1 ++ l2) = count_noisy l1 + count_noisy l2.
Proof. unfold count_noisy. rewrite List.filter_app, length_app. lia. Qed.

Lemma count_dumps_app l1 l2 : count_dumps (l1 ++ l2) = count_dumps l1 + count_dumps l2.
Proof. unfold count_dumps. rewrite List.filter_app, length_app. lia. Qed.

Lemma dump_lines_no_scanning floatData floatCount :
  count_noisy (dump_lines floatData floatCount) = 0
  /\ count_dumps (dump_lines floatData floatCount) = 0.
Proof.
  unfold dump_lines. generalize (seq 0 (Z.to_nat ((floatCount + 7) / 8))). intros ks.
  induction ks as [|k ks IH]; [split; reflexivity|].
  cbn [flat_map]. rewrite count_noisy_app, count_dumps_app.
  destruct IH as [-> ->]. destruct (_ <? _); split; reflexivity.
Qed.

Ltac scan_branches :=
  unfold ScanBufferImpl, accepted, log_sampling, on_view_match, on_proj_match,
    DetectWorldUp, scanned_state;
  repeat match goal with
         | |- context [if ?b then _ else _] => destruct b eqn:?
         | |- context [match ?o with Some _ => _ | None => _ end] => destruct o eqn:?
         end;
  cbn [logged noiseLogCount logCounter m_deepScanDone LOG_INFO set_counters set_deepScanDone
       set_view_identity set_proj_identity set_cameraBuffer set_worldUp set_bufferCache
       fst snd andb] in *;
  try discriminate.

Lemma count_noisy_scanning h size m f0 f1 f2 f3 :
  count_noisy [LogScanning h size m f0 f1 f2 f3]
  = if (9000 <? size) && (size <? 11000) then 1 else 0.
Proof. unfold count_noisy. cbn. by destruct (_ && _). Qed.

(** What one scan adds to the log and to its counters. *)
Lemma ScanBufferImpl_noisy resource p size isMapped c :
  noiseLogCount c <= 5 ->
  noiseLogCount c <= noiseLogCount (ScanBufferImpl resource p size isMapped c) <= 5
  /\ count_noisy (logged (ScanBufferImpl resource p size isMapped c)) - count_noisy (logged c)
     <= noiseLogCount (ScanBufferImpl resource p size isMapped c) - noiseLogCount c.
Proof.
  intros H5. pose proof (dump_lines_no_scanning (as_floats p) (size / 4)) as [Hd _].
  scan_branches; rewrite ?count_noisy_app, ?Hd, ?count_noisy_scanning;
    repeat match goal with
           | H : negb _ = true |- _ => apply negb_true_iff in H
           | H : negb _ = false |- _ => apply negb_false_iff in H
           end;
    repeat match goal with H : (_ && _) = _ |- _ => rewrite ?H; clear H end;
    change (count_noisy [LogDumpStart resource size]) with 0;
    change (count_noisy [LogDumpEnd]) with 0;
    change (count_noisy [LogFoundView resource _]) with 0;
    change (count_noisy [LogFoundProj resource _]) with 0;
    change (count_noisy [LogZUp]) with 0;
    change (count_noisy [LogYUp]) with 0;
    repeat match goal with H : (_ <? _) = _ |- _ => apply Z.ltb_lt in H || apply Z.ltb_ge in H end;
    lia.
Qed.

(** X17.  Verbose "Scanning Buffer" messages for the noisy size class
    (9000 to 11000 bytes) are rationed: the budget counter never exceeds
    5, and a sequence of calls adds at most as many such messages as the
    budget had left, so at most five over the life of a controller. *)
Theorem noisy_log_budget ops c :
  0 <= noiseLogCount c <= 5 ->
  noiseLogCount (run ops c) <= 5
  /\ count_noisy (logged (run ops c)) <= count_noisy (logged c) + (5 - noiseLogCount c).
Proof.
  intros [_ H5].
  assert (Hgen : noiseLogCount c <= noiseLogCount (run ops c) <= 5
                 /\ count_noisy (logged (run ops c)) - count_noisy (logged c)
                    <= noiseLogCount (run ops c) - noiseLogCount c); [|lia].
  revert c H5. induction ops as [|op ops IH]; intros c H5; [cbn; lia|].
  cbn [run fold_left].
  assert (Hstep : noiseLogCount c <= noiseLogCount (step c op) <= 5
                  /\ count_noisy (logged (step c op)) - count_noisy (logged c)
                     <= noiseLogCount (step c op) - noiseLogCount c).
  { destruct op; cbn [step].
    - by apply ScanBufferImpl_noisy.
    - by apply ScanBufferImpl_noisy.
    - rewrite GetModifiedBufferData_state. lia. }
  destruct Hstep as [[Hs1 Hs2] Hs3].
  pose proof (IH (step c op) Hs2) as IH'. unfold run in *. lia.
Qed.

Lemma ScanBufferImpl_dump resource p size isMapped c :
  count_dumps (logged (ScanBufferImpl resource p size isMapped c))
  + (if m_deepScanDone (ScanBufferImpl resource p size isMapped c) then 0 else 1)
  <= count_dumps (logged c) + (if m_deepScanDone c then 0 else 1)
  /\ (m_deepScanDone c = true ->
      m_deepScanDone (ScanBufferImpl resource p size isMapped c) = true).
Proof.
  pose proof (dump_lines_no_scanning (as_floats p) (size / 4)) as [_ Hd].
  destruct (m_deepScanDone c) eqn:Hdone;
    scan_branches; rewrite ?Hdone in *;
    repeat match goal with
           | H : (_ && _) = true |- _ => apply andb_true_iff in H as [? ?]
           end;
    try discriminate;
    rewrite ?count_dumps_app, ?Hd;
    change (count_dumps [LogDumpStart resource size]) with 1;
    change (count_dumps [LogDumpEnd]) with 0;
    change (count_dumps [LogFoundView resource _]) with 0;
    change (count_dumps [LogFoundProj resource _]) with 0;
    change (count_dumps [LogZUp]) with 0;
    change (count_dumps [LogYUp]) with 0;
    repeat match goal with
           | |- context [count_dumps [LogScanning ?a ?b ?c0 ?d ?e ?f ?g]] =>
               change (count_dumps [LogScanning a b c0 d e f g]) with 0
           end;
    (split; [lia|done]).
Qed.

(** X18.  The full buffer dump is written at most once: once
    [m_deepScanDone] is set it stays set, and a sequence of calls adds no
    dump when it is already set and at most one when it is not. *)
Theorem dump_at_most_once ops c :
  (m_deepScanDone c = true -> m_deepScanDone (run ops c) = true)
  /\ count_dumps (logged (run ops c))
     <= count_dumps (logged c) + (if m_deepScanDone c then 0 else 1).
Proof.
  assert (Hgen : (m_deepScanDone c = true -> m_deepScanDone (run ops c) = true)
                 /\ count_dumps (logged (run ops c))
                    + (if m_deepScanDone (run ops c) then 0 else 1)
                    <= count_dumps (logged c) + (if m_deepScanDone c then 0 else 1)).
  { revert c. induction ops as [|op ops IH]; intros c; [split; [done|cbn; lia]|].
    cbn [run fold_left].
    assert (Hstep : count_dumps (logged (step c op))
                    + (if m_deepScanDone (step c op) then 0 else 1)
                    <= count_dumps (logged c) + (if m_deepScanDone c then 0 else 1)
                    /\ (m_deepScanDone c = true -> m_deepScanDone (step c op) = true)).
    { destruct op; cbn [step].
      - apply ScanBufferImpl_dump.
      - apply ScanBufferImpl_dump.
      - rewrite GetModifiedBufferData_state. split; [lia|done]. }
    destruct (IH (step c op)) as [IH1 IH2]. unfold run in *. split; [tauto|lia]. }
  destruct Hgen as [H1 H2]. split; [exact H1|].
  destruct (m_deepScanDone (run ops c)); lia.
Qed.

End Logging.

Section ScanEffects.
Context {dx : DirectXMath}.
Import Camera.

Ltac scan_cases :=
  unfold ScanBufferImpl, accepted, log_sampling, on_view_match, on_proj_match,
    DetectWorldUp, scanned_state;
  repeat match goal with
         | |- context [if ?b then _ else _] => destruct b eqn:?
         | |- context [match ?o with Some _ => _ | None => _ end] => destruct o eqn:?
         end;
  cbn; try reflexivity.

Lemma flat_map_all {A B} (f : A -> list B) (g : A -> B) (l : list A) :
  Forall (fun x => f x = [g x]) l -> flat_map f l = map g l.
Proof. induction 1 as [|x l Hx _ IH]; cbn; [done|]. by rewrite Hx, IH. Qed.

Lemma flat_map_none {A B} (f : A -> list B) (l : list A) :
  Forall (fun x => f x = []) l -> flat_map f l = [].
Proof. induction 1 as [|x l Hx _ IH]; cbn; [done|]. by rewrite Hx, IH. Qed.

(** X19.  The full dump prints whole lines of eight floats only: for a
    buffer of [floatCount] floats it has [floatCount / 8] lines, and the
    up to seven floats left over at the end are not printed. *)
Theorem dump_lines_length floatData floatCount :
  0 <= floatCount ->
  length (dump_lines floatData floatCount) = Z.to_nat (floatCount / 8).
Proof.
  intros Hfc. unfold dump_lines.
  set (f := fun k : nat => if 8 * Z.of_nat k + 7 <? floatCount then _ else _).
  set (m := Z.to_nat (floatCount / 8)). set (n := Z.to_nat ((floatCount + 7) / 8)).
  assert (Hmn : (m <= n)%nat).
  { unfold m, n. apply Z2Nat.inj_le; Z.div_mod_to_equations; lia. }
  replace n with (m + (n - m))%nat by lia.
  rewrite seq_app, flat_map_app, length_app.
  rewrite (flat_map_none f (seq (0 + m) (n - m))).
  - rewrite (flat_map_all f (fun k => LogDumpLine (8 * Z.of_nat k * 4)
               (map (fun j => floatData (8 * Z.of_nat k + Z.of_nat j)) (seq 0 8)))).
    + rewrite length_map, length_seq. cbn [length]. lia.
    + apply Forall_forall. intros k Hk%elem_of_seq. unfold f.
      replace (8 * Z.of_nat k + 7 <? floatCount) with true; [done|].
      symmetry. apply Z.ltb_lt. unfold m in Hk. Z.div_mod_to_equations. lia.
  - apply Forall_forall. intros k Hk%elem_of_seq. unfold f.
    replace (8 * Z.of_nat k + 7 <? floatCount) with false; [done|].
    symmetry. apply Z.ltb_ge. unfold m in Hk. Z.div_mod_to_equations. lia.
Qed.

Lemma ScanBufferImpl_logCounter resource p size isMapped c :
  accepted size isMapped = true ->
  logCounter (ScanBufferImpl resource p size isMapped c) = to_int (logCounter c + 1).
Proof. intros Ha. revert Ha. scan_cases; discriminate. Qed.

(** X20.  A scan leaves the controller exactly as it was if and only if
    the buffer is rejected (fewer than 64 bytes, or mapped and more than
    4096): every scan that is let through changes the controller, at
    least its sampling counter. *)
Theorem scan_unchanged_iff_rejected resource p size isMapped c :
  ScanBufferImpl resource p size isMapped c = c <-> accepted size isMapped = false.
Proof.
  split; [|apply ScanBufferImpl_rejected].
  intros Heq. destruct (accepted size isMapped) eqn:Ha; [exfalso|done].
  apply (f_equal logCounter) in Heq. rewrite ScanBufferImpl_logCounter in Heq by done.
  revert Heq. unfold to_int. generalize (logCounter c). intros x.
  Z.div_mod_to_equations. lia.
Qed.

(** X21.  For a buffer of at most 4096 bytes the two entry points differ
    only in what they log: the cache, the camera identity and the counters
    come out the same through the mapped and the update path. *)
Theorem entry_points_agree resource p size c :
  size <= 4096 ->
  clear_log (OnScanBuffer resource p size c) = clear_log (OnUpdateBuffer resource p size c).
Proof.
  intros Hs. unfold OnScanBuffer, OnUpdateBuffer.
  assert (H4 : (4096 <? size) = false) by (apply Z.ltb_ge; lia).
  unfold ScanBufferImpl. rewrite H4. cbn [andb].
  unfold log_sampling, on_view_match, on_proj_match, DetectWorldUp.
  repeat match goal with
         | |- context [if ?b then _ else _] => destruct b eqn:?
         | |- context [match ?o with Some _ => _ | None => _ end] => destruct o eqn:?
         end;
    cbn [clear_log m_bufferCache m_cameraBuffer m_lastGameView m_lastGameProj m_isTransposed
         m_isRH m_worldUp m_upDetected m_deepScanDone logCounter noiseLogCount logged
         LOG_INFO set_counters set_deepScanDone set_view_identity set_proj_identity
         set_cameraBuffer set_worldUp set_bufferCache fst snd andb negb] in *;
    first [reflexivity | congruence].
Qed.

(** X22.  A scan that is let through replaces the remembered view matrix
    and transposition flag exactly when it finds a view matrix, and the
    remembered projection matrix and handedness exactly when it finds a
    projection matrix; a buffer holding only one of the two leaves what is
    remembered of the other, the world-up vector included, untouched. *)
Theorem scan_updates_identity resource p size isMapped c :
  accepted size isMapped = true ->
  match find_view (as_floats p) (size / 4) with
  | Some i =>
      m_isTransposed (ScanBufferImpl resource p size isMapped c)
      = snd (IsViewMatrix (offset_by (as_floats p) i))
      /\ m_lastGameView (ScanBufferImpl resource p size isMapped c)
         = (if snd (IsViewMatrix (offset_by (as_floats p) i))
            then XMMatrixTranspose (XMLoadFloat4x4 (offset_by (as_words p) i))
            else XMLoadFloat4x4 (offset_by (as_words p) i))
  | None =>
      m_isTransposed (ScanBufferImpl resource p size isMapped c) = m_isTransposed c
      /\ m_lastGameView (ScanBufferImpl resource p size isMapped c) = m_lastGameView c
      /\ m_worldUp (ScanBufferImpl resource p size isMapped c) = m_worldUp c
      /\ m_upDetected (ScanBufferImpl resource p size isMapped c) = m_upDetected c
  end
  /\ match find_proj (as_floats p) (size / 4) with
     | Some i =>
         m_isRH (ScanBufferImpl resource p size isMapped c)
         = IsRightHandedProjection (offset_by (as_floats p) i)
         /\ m_lastGameProj (ScanBufferImpl resource p size isMapped c)
            = XMLoadFloat4x4 (offset_by (as_words p) i)
     | None =>
         m_isRH (ScanBufferImpl resource p size isMapped c) = m_isRH c
         /\ m_lastGameProj (ScanBufferImpl resource p size isMapped c) = m_lastGameProj c
     end.
Proof.
  intros Ha. revert Ha. unfold ScanBufferImpl.
  unfold accepted, log_sampling, on_view_match, on_proj_match, DetectWorldUp.
  destruct (find_view _ _) as [i|]; destruct (find_proj _ _) as [j|];
    repeat match goal with
           | |- context [if ?b then _ else _] => destruct b eqn:?
           end;
    cbn; intros; try discriminate; repeat split; reflexivity.
Qed.

End ScanEffects.

(* ===================================================================== *)
(** ** What the rewriter writes *)
(* ===================================================================== *)

Section Rewriter.
Context {dx : DirectXMath}.
Import Camera.

(** The lanes of the literals decode to the literals. *)
Lemma Lane_literals :
  F32.of_bits Lane.zero = F32.zero /\ F32.of_bits Lane.one = F32.one
  /\ F32.of_bits Lane.neg_one = F32.neg_one.
Proof. repeat split. Qed.

Lemma byte_val_range b : 0 <= byte_val b < 256.
Proof.
  unfold byte_val. pose proof (Byte.to_N_bounded b) as H. lia.
Qed.

Lemma byte_of_Z_val b x : byte_of_Z (byte_val b + 256 * x) = b.
Proof.
  pose proof (byte_val_range b) as Hb. unfold byte_of_Z.
  replace ((byte_val b + 256 * x) mod 256) with (byte_val b)
    by (Z.div_mod_to_equations; lia).
  unfold byte_val. rewrite N2Z.id, Byte.of_to_N. reflexivity.
Qed.

Lemma store_u32_load_u32 p j :
  store_u32 (load_u32 p j) = [p (4 * j); p (4 * j + 1); p (4 * j + 2); p (4 * j + 3)].
Proof.
  unfold store_u32, load_u32.
  pose proof (byte_val_range (p (4 * j))) as H0.
  pose proof (byte_val_range (p (4 * j + 1))) as H1.
  pose proof (byte_val_range (p (4 * j + 2))) as H2.
  pose proof (byte_val_range (p (4 * j + 3))) as H3.
  set (b0 := byte_val (p (4 * j))) in *. set (b1 := byte_val (p (4 * j + 1))) in *.
  set (b2 := byte_val (p (4 * j + 2))) in *. set (b3 := byte_val (p (4 * j + 3))) in *.
  replace ((b0 + 2 ^ 8 * b1 + 2 ^ 16 * b2 + 2 ^ 24 * b3) / 2 ^ 8)
    with (b1 + 256 * (b2 + 256 * b3)) by (Z.div_mod_to_equations; lia).
  replace ((b0 + 2 ^ 8 * b1 + 2 ^ 16 * b2 + 2 ^ 24 * b3) / 2 ^ 16)
    with (b2 + 256 * b3) by (Z.div_mod_to_equations; lia).
  replace ((b0 + 2 ^ 8 * b1 + 2 ^ 16 * b2 + 2 ^ 24 * b3) / 2 ^ 24)
    with (b3 + 256 * 0) by (Z.div_mod_to_equations; lia).
  replace (b0 + 2 ^ 8 * b1 + 2 ^ 16 * b2 + 2 ^ 24 * b3)
    with (b0 + 256 * (b1 + 256 * (b2 + 256 * b3))) by lia.
  unfold b0, b1, b2, b3. rewrite !byte_of_Z_val. reflexivity.
Qed.

(** Loading a matrix from a buffer and storing it gives back the 64 bytes
    it was loaded from, whatever they encode: lanes are moved as bits. *)
Lemma matrix_bytes_XMLoadFloat4x4 p i :
  matrix_bytes (XMLoadFloat4x4 (offset_by (as_words p) i))
  = map (fun k => p (4 * i + Z.of_nat k)) (seq 0 64).
Proof.
  unfold matrix_bytes, matrix_lanes, vector_lanes, XMLoadFloat4x4, offset_by, as_words.
  cbn [r0 r1 r2 r3 vx vy vz vw app flat_map].
  rewrite !store_u32_load_u32. cbn [app seq map].
  repeat (f_equal; [f_equal; lia|]). f_equal. f_equal. lia.
Qed.

Lemma XMStoreFloat4x4_inside out offset m (i : nat) :
  0 <= offset -> 4 * offset + 64 <= Z.of_nat (length out) ->
  in_slot offset i ->
  XMStoreFloat4x4 out offset m !! i = matrix_bytes m !! (i - Z.to_nat (4 * offset))%nat.
Proof.
  intros H0 Hfit [Hlo Hhi]. unfold XMStoreFloat4x4.
  rewrite lookup_app_r by (rewrite length_take; lia).
  rewrite length_take.
  replace (Z.to_nat (4 * offset) `min` length out)%nat with (Z.to_nat (4 * offset)) by lia.
  apply lookup_app_l. rewrite matrix_bytes_length. lia.
Qed.

Lemma GetModifiedBufferData_slots face out c state :
  m_cameraBuffer c <> 0%N -> m_bufferCache c !! m_cameraBuffer c = Some state ->
  representable state ->
  let fc := Z.of_nat (length (data state)) / 4 in
  let out' := snd (snd (GetModifiedBufferData face out c)) in
  (slot_fits (projMatrixOffset state) fc = true ->
   forall i : nat, in_slot (projMatrixOffset state) i ->
     out' !! i = matrix_bytes (synthesized_proj c)
                   !! (i - Z.to_nat (4 * projMatrixOffset state))%nat)
  /\ (slot_fits (viewMatrixOffset state) fc = true ->
      forall i : nat, in_slot (viewMatrixOffset state) i ->
        ~ (slot_fits (projMatrixOffset state) fc = true /\ in_slot (projMatrixOffset state) i) ->
        out' !! i = matrix_bytes (synthesized_view face c)
                      !! (i - Z.to_nat (4 * viewMatrixOffset state))%nat).
Proof.
  intros Hnz Hst (Hv & Hp & Hlen) fc out'.
  unfold out'. rewrite (GetModifiedBufferData_output face out c state Hnz Hst).
  cbn [fst snd]. cbv zeta. fold fc.
  assert (Hfc : 0 <= fc < 2 ^ 62) by (unfold fc; Z.div_mod_to_equations; lia).
  assert (H4 : 4 * fc <= Z.of_nat (length (data state))) by (unfold fc; Z.div_mod_to_equations; lia).
  set (o1 := if slot_fits (viewMatrixOffset state) fc then _ else _).
  assert (Hl1 : length o1 = length (data state)).
  { unfold o1. destruct (slot_fits (viewMatrixOffset state) fc) eqn:Ev; [|done].
    apply (slot_fits_bound _ _ Hv Hfc) in Ev. apply XMStoreFloat4x4_length; lia. }
  split.
  - intros Ep i Hi. rewrite Ep.
    apply (slot_fits_bound _ _ Hp Hfc) in Ep.
    apply XMStoreFloat4x4_inside; [lia|rewrite Hl1; lia|done].
  - intros Ev i Hi Hnot.
    assert (Ho1 : o1 !! i = matrix_bytes (synthesized_view face c)
                              !! (i - Z.to_nat (4 * viewMatrixOffset state))%nat).
    { unfold o1. rewrite Ev. apply (slot_fits_bound _ _ Hv Hfc) in Ev.
      apply XMStoreFloat4x4_inside; [lia|lia|done]. }
    destruct (slot_fits (projMatrixOffset state) fc) eqn:Ep; [|exact Ho1].
    rewrite <- Ho1. apply (slot_fits_bound _ _ Hp Hfc) in Ep.
    apply XMStoreFloat4x4_outside; [lia|rewrite Hl1; lia|].
    intros Hin. apply Hnot. split; [reflexivity|exact Hin].
Qed.

(** X23.  On success the 64 bytes at a projection offset that fits hold
    the 90-degree projection matrix of the remembered handedness, and the
    64 bytes at a view offset that fits hold the view matrix synthesized
    for the face, transposed when the original was, except where the
    projection slot overlaps them: the projection is written last.  The
    bytes are the lanes of the matrix the library returned, bit for bit,
    also where a lane is a NaN. *)
Theorem rewritten_slots face out c state :
  m_cameraBuffer c <> 0%N -> m_bufferCache c !! m_cameraBuffer c = Some state ->
  representable state ->
  let fc := Z.of_nat (length (data state)) / 4 in
  let out' := snd (snd (GetModifiedBufferData face out c)) in
  (slot_fits (projMatrixOffset state) fc = true ->
   forall i : nat, in_slot (projMatrixOffset state) i ->
     out' !! i = matrix_bytes (synthesized_proj c)
                   !! (i - Z.to_nat (4 * projMatrixOffset state))%nat)
  /\ (slot_fits (viewMatrixOffset state) fc = true ->
      forall i : nat, in_slot (viewMatrixOffset state) i ->
        ~ (slot_fits (projMatrixOffset state) fc = true /\ in_slot (projMatrixOffset state) i) ->
        out' !! i = matrix_bytes (synthesized_view face c)
                      !! (i - Z.to_nat (4 * viewMatrixOffset state))%nat).
Proof. exact (GetModifiedBufferData_slots face out c state). Qed.

(** X24.  Offsets that are unset or no longer fit the cached size are
    skipped without failing: when neither slot fits, the call still
    succeeds and returns the cached snapshot unchanged. *)
Theorem stale_offsets_skipped face out c state :
  m_cameraBuffer c <> 0%N -> m_bufferCache c !! m_cameraBuffer c = Some state ->
  slot_fits (viewMatrixOffset state) (Z.of_nat (length (data state)) / 4) = false ->
  slot_fits (projMatrixOffset state) (Z.of_nat (length (data state)) / 4) = false ->
  GetModifiedBufferData face out c = (c, (true, data state)).
Proof.
  intros Hnz Hst Ev Ep. rewrite (GetModifiedBufferData_output face out c state Hnz Hst).
  cbv zeta. by rewrite Ev, Ep.
Qed.

Lemma to_int_small z : - 2 ^ 31 <= z < 2 ^ 31 -> to_int z = z.
Proof. intros Hz. unfold to_int. Z.div_mod_to_equations. lia. Qed.

Lemma slot_fits_intro offset floatCount :
  0 <= offset -> offset + 16 <= floatCount -> floatCount < 2 ^ 31 ->
  slot_fits offset floatCount = true.
Proof.
  intros H0 Hfit Hfc. unfold slot_fits. rewrite to_int_small by lia.
  unfold to_size_t. rewrite Z.mod_small by lia.
  apply andb_true_iff. split; [apply Z.leb_le|apply Z.leb_le]; lia.
Qed.

(** X25.  Scan, then rewrite.  After a scan of a resource with a nonzero
    handle that is let through and finds a view or a projection matrix in
    a buffer of less than 8 GiB, the rewriter succeeds for every face and
    returns as many bytes as the buffer had.  If the scan found a
    projection matrix at element [j], bytes [4j .. 4j+63] of the output
    are the synthesized projection; if it found a view matrix at element
    [i], bytes [4i .. 4i+63] are the synthesized view for the face, except
    where the projection slot overlaps them.  The hypothesis on the
    earlier entry states the C++ types of its fields. *)
Theorem rewrite_after_scan resource p size isMapped c face out :
  resource <> 0%N -> accepted size isMapped = true -> size < 2 ^ 33 ->
  (forall old, m_bufferCache c !! resource = Some old -> representable old) ->
  is_Some (find_view (as_floats p) (size / 4)) \/ is_Some (find_proj (as_floats p) (size / 4)) ->
  let c' := ScanBufferImpl resource p size isMapped c in
  let out' := snd (snd (GetModifiedBufferData face out c')) in
  exists st,
    m_bufferCache c' !! m_cameraBuffer c' = Some st
    /\ fst (snd (GetModifiedBufferData face out c')) = true
    /\ Z.of_nat (length out') = size
    /\ (forall j, find_proj (as_floats p) (size / 4) = Some j ->
          projMatrixOffset st = j
          /\ forall k : nat, in_slot j k ->
               out' !! k = matrix_bytes (synthesized_proj c') !! (k - Z.to_nat (4 * j))%nat)
    /\ (forall i, find_view (as_floats p) (size / 4) = Some i ->
          viewMatrixOffset st = i
          /\ forall k : nat, in_slot i k ->
               ~ (slot_fits (projMatrixOffset st) (size / 4) = true
                  /\ in_slot (projMatrixOffset st) k) ->
               out' !! k = matrix_bytes (synthesized_view face c') !! (k - Z.to_nat (4 * i))%nat).
Proof.
  intros Hnz Ha Hsize Hold Hfound c' out'.
  assert (H64 : 64 <= size).
  { unfold accepted in Ha. destruct (Z.ltb_spec size 64); [discriminate|lia]. }
  assert (Hcam : m_cameraBuffer c' = resource).
  { unfold c'. rewrite ScanBufferImpl_cameraBuffer. unfold finds_camera. rewrite Ha.
    destruct Hfound as [H|H].
    - by rewrite (bool_decide_eq_true_2 _ H).
    - rewrite (bool_decide_eq_true_2 _ H). by rewrite orb_true_r. }
  set (st := scanned_state p size (default new_BufferState (m_bufferCache c !! resource))).
  assert (Hst : m_bufferCache c' !! m_cameraBuffer c' = Some st).
  { rewrite Hcam. unfold c'. rewrite ScanBufferImpl_cache by done. apply lookup_insert_eq. }
  assert (Hnz' : m_cameraBuffer c' <> 0%N) by (rewrite Hcam; exact Hnz).
  assert (Hlen : Z.of_nat (length (data st)) = size).
  { unfold st. rewrite scanned_state_data, read_bytes_length. lia. }
  assert (Hfc : 0 <= size / 4 < 2 ^ 31) by (Z.div_mod_to_equations; lia).
  assert (H4 : 4 * (size / 4) <= size) by (Z.div_mod_to_equations; lia).
  assert (Hrep : representable st).
  { unfold st. apply scanned_state_representable; [lia|].
    destruct (m_bufferCache c !! resource) as [old|] eqn:Eold; cbn [default from_option id].
    - by apply Hold.
    - repeat split; cbn; lia. }
  pose proof (GetModifiedBufferData_slots face out c' st Hnz' Hst Hrep) as Hslots.
  cbv zeta in Hslots. rewrite Hlen in Hslots. fold out' in Hslots.
  destruct Hslots as [Hps Hvs].
  pose proof (GetModifiedBufferData_output face out c' st Hnz' Hst) as Hout.
  exists st. split; [exact Hst|]. split; [by rewrite Hout|]. split.
  - unfold out'. rewrite Hout. cbn [snd]. cbv zeta. rewrite Hlen.
    destruct Hrep as (Hv & Hp & _).
    set (o1 := if slot_fits (viewMatrixOffset st) (size / 4) then _ else _).
    assert (Hl1 : length o1 = length (data st)).
    { unfold o1. destruct (slot_fits (viewMatrixOffset st) (size / 4)) eqn:Ev; [|done].
      apply (slot_fits_bound _ _ Hv) in Ev; [|lia]. apply XMStoreFloat4x4_length; lia. }
    destruct (slot_fits (projMatrixOffset st) (size / 4)) eqn:Ep; [|lia].
    apply (slot_fits_bound _ _ Hp) in Ep; [|lia].
    rewrite XMStoreFloat4x4_length; lia.
  - split.
    + intros j Hj.
      assert (Hoff : projMatrixOffset st = j).
      { unfold st. rewrite scanned_state_proj, Hj.
        apply find_proj_bound in Hj. apply to_int_small. lia. }
      split; [exact Hoff|]. intros k Hk. rewrite <- Hoff. apply Hps; [|by rewrite Hoff].
      rewrite Hoff. apply find_proj_bound in Hj. apply slot_fits_intro; lia.
    + intros i Hi.
      assert (Hoff : viewMatrixOffset st = i).
      { unfold st. rewrite scanned_state_view, Hi.
        apply find_view_bound in Hi. apply to_int_small. lia. }
      split; [exact Hoff|]. intros k Hk Hnot. rewrite <- Hoff.
      apply Hvs; [|by rewrite Hoff|exact Hnot].
      rewrite Hoff. apply find_view_bound in Hi. apply slot_fits_intro; lia.
Qed.

End Rewriter.

(* ===================================================================== *)
(** ** The six faces *)
(* ===================================================================== *)

Section Faces.
Context {dx : DirectXMath}.
Import Camera.

(** X26.  The six faces look along the six signed axes, each along its
    own: whatever the remembered up vector and handedness are, the target
    directions that [GetViewMatrixForFace] hands to the look-at function
    (from the eye position, row 3 of the inverse of the remembered view
    matrix) are (1,0,0), (-1,0,0), (0,1,0), (0,-1,0), (0,0,1), (0,0,-1) in
    some order, so no direction is rendered twice or left out. *)
Theorem faces_cover_axes c :
  (forall face,
     GetViewMatrixForFace face c
     = (if m_isRH c then XMMatrixLookAtRH else XMMatrixLookAtLH)
         (r3 (XMMatrixInverse (m_lastGameView c)))
         (XMVectorAdd (r3 (XMMatrixInverse (m_lastGameView c)))
                      (fst (face_directions face c)))
         (snd (face_directions face c)))
  /\ map (fun face => fst (face_directions face c)) all_faces
     ≡ₚ [x_pos; x_neg; y_up; y_down; z_up; z_down].
Proof.
  split.
  - intros face. unfold GetViewMatrixForFace, face_directions.
    destruct (F32.gtb _ _), (m_isRH c), face; reflexivity.
  - unfold all_faces, face_directions. cbn [map fst].
    destruct (F32.gtb _ _).
    + do 2 apply perm_skip. apply (Permutation_app_comm [z_up; z_down] [y_up; y_down]).
    + destruct (m_isRH c); [|reflexivity].
      do 4 apply perm_skip. apply perm_swap.
Qed.

End Faces.

(* ===================================================================== *)
(** ** The further properties on sample inputs *)
(* ===================================================================== *)

Lemma OnMapBuffer_records_witness :
  Graphics.m_mappedBuffers (Graphics.OnMapBuffer 9%N 128 8192 large_mapping) !! 9%N
  = Some {| Graphics.data := 8192; Graphics.size := 128 |}
  /\ Graphics.m_mappedBuffers (Graphics.OnMapBuffer 9%N 128 8192 large_mapping) !! 7%N
     = Some {| Graphics.data := 4096; Graphics.size := 8192 |}.
Proof.
  destruct (proj2 (OnMapBuffer_records 9%N 128 8192 large_mapping)) as (Hnew & Hother & _).
  - lia.
  - split; [exact Hnew|]. rewrite Hother; [reflexivity|discriminate].
Defined.

Lemma OnUnmapBuffer_erases_witness :
  let g := {| Graphics.m_mappedBuffers :=
                {[ 7%N := {| Graphics.data := 4096; Graphics.size := 8192 |} ]};
              Graphics.m_cameraController := None |} in
  Graphics.m_cameraController
    (Graphics.OnUnmapBuffer (dx := sample_math) (fun _ => zero_memory) 7%N g) = None.
Proof.
  intros g.
  apply (proj2 (OnUnmapBuffer_erases (dx := sample_math) (fun _ => zero_memory) 7%N g)).
  reflexivity.
Defined.

Lemma OnUnmapBuffer_small_not_forwarded_witness :
  let g := {| Graphics.m_mappedBuffers :=
                {[ 7%N := {| Graphics.data := 4096; Graphics.size := 64 |} ]};
              Graphics.m_cameraController := Some initial_controller |} in
  Graphics.OnUnmapBuffer (dx := sample_math) (fun _ => memory_of z_up_view_buffer) 7%N g
  = {| Graphics.m_mappedBuffers := delete 7%N (Graphics.m_mappedBuffers g);
       Graphics.m_cameraController := Some initial_controller |}.
Proof.
  intros g.
  apply (OnUnmapBuffer_small_not_forwarded (dx := sample_math)
           (fun _ => memory_of z_up_view_buffer) 7%N g
           {| Graphics.data := 4096; Graphics.size := 64 |}).
  - reflexivity.
  - cbn. lia.
Defined.

Lemma map_then_unmap_witness :
  Graphics.OnUnmapBuffer (dx := sample_math) (fun _ => memory_of view_at_4_buffer) 9%N
    (Graphics.OnMapBuffer 9%N 80 8192 large_mapping)
  = {| Graphics.m_mappedBuffers := delete 9%N (Graphics.m_mappedBuffers large_mapping);
       Graphics.m_cameraController :=
         Some (Camera.OnUpdateBuffer (dx := sample_math) 9%N (memory_of view_at_4_buffer) 80
                 initial_controller) |}.
Proof.
  apply (map_then_unmap (dx := sample_math) (fun _ => memory_of view_at_4_buffer) 9%N 80 8192
           large_mapping).
  lia.
Defined.

Lemma view_window_not_projection_witness :
  fst (Camera.IsViewMatrix (window_of_bits translated_view_bits)) = true
  /\ Camera.IsProjectionMatrix (window_of_bits translated_view_bits) = false.
Proof.
  assert (H : fst (Camera.IsViewMatrix (window_of_bits translated_view_bits)) = true)
    by (vm_compute; reflexivity).
  split; [exact H|]. exact (view_window_not_projection translated_view_bits H).
Defined.

Lemma handedness_of_accepted_witness :
  Camera.tested_not_nan (window_of_bits rh_projection_bits)
  /\ Camera.IsRightHandedProjection (window_of_bits rh_projection_bits) = true
  /\ F32.within F32.eps (inject_Z (-1)) (window_of_bits rh_projection_bits 11).
Proof.
  assert (Hnum : Camera.tested_not_nan (window_of_bits rh_projection_bits)).
  { unfold Camera.tested_not_nan.
    repeat (apply Forall_cons_2; [vm_compute; reflexivity|]). apply Forall_nil_2. }
  assert (Hacc : Camera.IsProjectionMatrix (window_of_bits rh_projection_bits) = true)
    by (vm_compute; reflexivity).
  assert (Hrh : Camera.IsRightHandedProjection (window_of_bits rh_projection_bits) = true)
    by (vm_compute; reflexivity).
  split; [exact Hnum|]. split; [exact Hrh|].
  exact (proj1 (proj1 (handedness_of_accepted rh_projection_bits Hnum Hacc)) Hrh).
Defined.

Lemma scan_caches_buffer_witness :
  exists st,
    Camera.m_bufferCache
      (Camera.ScanBufferImpl (dx := sample_math) 7%N (memory_of view_at_4_buffer) 80 false
         initial_controller) !! 7%N = Some st
    /\ Camera.data st = view_at_4_buffer.
Proof.
  apply (scan_caches_buffer (dx := sample_math) 7%N view_at_4_buffer false initial_controller).
  reflexivity.
Defined.

Lemma cache_entries_persist_witness :
  let c := Camera.OnUpdateBuffer (dx := sample_math) 7%N (memory_of view_at_4_buffer) 80
             initial_controller in
  let ops := [Camera.CallUpdateBuffer 8%N (memory_of z_up_view_buffer) 64;
              Camera.CallGetModifiedBufferData Camera.Up []] in
  Camera.m_bufferCache (Camera.run (dx := sample_math) ops c) !! 7%N
  = Camera.m_bufferCache c !! 7%N.
Proof.
  intros c ops.
  apply (proj2 (cache_entries_persist (dx := sample_math) ops c 7%N)).
  repeat constructor; cbn; discriminate.
Defined.

Lemma isCamera_sticky_witness :
  let c := Camera.OnUpdateBuffer (dx := sample_math) 7%N (memory_of view_at_4_buffer) 80
             initial_controller in
  exists st', Camera.m_bufferCache
                (Camera.run (dx := sample_math)
                   [Camera.CallUpdateBuffer 7%N (memory_of zero_buffer) 64] c) !! 7%N = Some st'
              /\ Camera.isCamera st' = true.
Proof.
  intros c.
  apply (isCamera_sticky (dx := sample_math)
           [Camera.CallUpdateBuffer 7%N (memory_of zero_buffer) 64] c 7%N
           {| Camera.data := view_at_4_buffer; Camera.viewMatrixOffset := 4;
              Camera.projMatrixOffset := -1; Camera.isCamera := true |}).
  - vm_compute. reflexivity.
  - reflexivity.
Defined.

Lemma noisy_log_budget_witness :
  let ops := [Camera.CallUpdateBuffer 7%N zero_memory 10000;
              Camera.CallUpdateBuffer 7%N zero_memory 10000] in
  Camera.noiseLogCount (Camera.run (dx := sample_math) ops initial_controller) <= 5
  /\ count_noisy (Camera.logged (Camera.run (dx := sample_math) ops initial_controller)) <= 5.
Proof.
  intros ops.
  destruct (noisy_log_budget (dx := sample_math) ops initial_controller) as [H1 H2].
  - cbn. lia.
  - split; [exact H1|]. exact H2.
Defined.

Lemma dump_at_most_once_witness :
  let c := Camera.OnUpdateBuffer (dx := sample_math) 7%N zero_memory 256 initial_controller in
  Camera.m_deepScanDone c = true
  /\ Camera.m_deepScanDone
       (Camera.run (dx := sample_math) [Camera.CallUpdateBuffer 8%N zero_memory 512] c) = true.
Proof.
  intros c.
  assert (H : Camera.m_deepScanDone c = true) by (vm_compute; reflexivity).
  split; [exact H|].
  exact (proj1 (dump_at_most_once (dx := sample_math)
                  [Camera.CallUpdateBuffer 8%N zero_memory 512] c) H).
Defined.

Lemma dump_lines_length_witness :
  length (Camera.dump_lines (as_floats (memory_of view_at_4_buffer)) 20) = 2%nat.
Proof.
  apply (dump_lines_length (as_floats (memory_of view_at_4_buffer)) 20). lia.
Defined.

Lemma entry_points_agree_witness :
  clear_log (Camera.OnScanBuffer (dx := sample_math) 7%N (memory_of view_at_4_buffer) 80
               initial_controller)
  = clear_log (Camera.OnUpdateBuffer (dx := sample_math) 7%N (memory_of view_at_4_buffer) 80
                 initial_controller).
Proof.
  apply (entry_points_agree (dx := sample_math)). lia.
Defined.

Lemma scan_updates_identity_witness :
  let c := Camera.ScanBufferImpl (dx := sample_math) 7%N (memory_of view_at_4_buffer) 80 false
             initial_controller in
  Camera.find_view (as_floats (memory_of view_at_4_buffer)) (80 / 4) = Some 4
  /\ Camera.m_isTransposed c = true
  /\ Camera.m_isRH c = Camera.m_isRH initial_controller
  /\ Camera.m_lastGameProj c = Camera.m_lastGameProj initial_controller.
Proof.
  intros c.
  assert (Hv : Camera.find_view (as_floats (memory_of view_at_4_buffer)) (80 / 4) = Some 4)
    by (vm_compute; reflexivity).
  assert (Hp : Camera.find_proj (as_floats (memory_of view_at_4_buffer)) (80 / 4) = None)
    by (vm_compute; reflexivity).
  pose proof (scan_updates_identity (dx := sample_math) 7%N (memory_of view_at_4_buffer) 80 false
                initial_controller eq_refl) as H.
  rewrite Hv, Hp in H. destruct H as ((Ht & _) & Hrh & Hproj).
  split; [exact Hv|]. split; [|split; [exact Hrh|exact Hproj]].
  unfold c. rewrite Ht. vm_compute. reflexivity.
Defined.

Lemma rewritten_slots_witness :
  let c := Camera.OnUpdateBuffer (dx := nan_math) 7%N (memory_of view_at_4_buffer) 80
             initial_controller in
  let out := snd (snd (Camera.GetModifiedBufferData (dx := nan_math) Camera.Front [] c)) in
  out !! 16%nat = Some xff /\ out !! 19%nat = Some xff
  /\ out !! 20%nat = Some x01 /\ out !! 23%nat = Some x7f.
Proof.
  intros c out.
  set (st := {| Camera.data := view_at_4_buffer; Camera.viewMatrixOffset := 4;
                Camera.projMatrixOffset := -1; Camera.isCamera := true |}).
  assert (Hnz : Camera.m_cameraBuffer c <> 0%N) by (vm_compute; discriminate).
  assert (Hst : Camera.m_bufferCache c !! Camera.m_cameraBuffer c = Some st)
    by (vm_compute; reflexivity).
  assert (Hrep : Camera.representable st).
  { vm_compute. repeat split; intros H; discriminate H. }
  destruct (rewritten_slots (dx := nan_math) Camera.Front [] c st Hnz Hst Hrep) as [_ Hview].
  assert (Hno : forall i : nat,
            ~ (Camera.slot_fits (Camera.projMatrixOffset st)
                 (Z.of_nat (length (Camera.data st)) / 4) = true
               /\ in_slot (Camera.projMatrixOffset st) i)).
  { intros i [H _]. vm_compute in H. discriminate H. }
  assert (Hin : forall i : nat, (16 <= i < 80)%nat -> in_slot (Camera.viewMatrixOffset st) i).
  { intros i Hi. unfold in_slot. cbn. lia. }
  unfold out.
  rewrite (Hview eq_refl 16%nat (Hin 16%nat ltac:(lia)) (Hno 16%nat)).
  rewrite (Hview eq_refl 19%nat (Hin 19%nat ltac:(lia)) (Hno 19%nat)).
  rewrite (Hview eq_refl 20%nat (Hin 20%nat ltac:(lia)) (Hno 20%nat)).
  rewrite (Hview eq_refl 23%nat (Hin 23%nat ltac:(lia)) (Hno 23%nat)).
  vm_compute. repeat split.
Defined.

Lemma stale_offsets_skipped_witness :
  let c := Camera.run (dx := sample_math)
             [Camera.CallUpdateBuffer 7%N (memory_of view_at_4_buffer) 80;
              Camera.CallUpdateBuffer 7%N (memory_of zero_buffer) 64]
             initial_controller in
  Camera.GetModifiedBufferData (dx := sample_math) Camera.Left [] c = (c, (true, zero_buffer)).
Proof.
  intros c.
  apply (stale_offsets_skipped (dx := sample_math) Camera.Left [] c
           {| Camera.data := zero_buffer; Camera.viewMatrixOffset := 4;
              Camera.projMatrixOffset := -1; Camera.isCamera := true |}).
  - vm_compute. discriminate.
  - vm_compute. reflexivity.
  - vm_compute. reflexivity.
  - vm_compute. reflexivity.
Defined.

Lemma rewrite_after_scan_witness :
  let c' := Camera.ScanBufferImpl (dx := sample_math) 7%N (memory_of view_at_4_buffer) 80 false
              initial_controller in
  fst (snd (Camera.GetModifiedBufferData (dx := sample_math) Camera.Down [] c')) = true
  /\ Z.of_nat (length (snd (snd (Camera.GetModifiedBufferData (dx := sample_math)
                                   Camera.Down [] c')))) = 80.
Proof.
  intros c'.
  destruct (rewrite_after_scan (dx := sample_math) 7%N (memory_of view_at_4_buffer) 80 false
              initial_controller Camera.Down []) as (st & _ & Hok & Hlen & _).
  - discriminate.
  - reflexivity.
  - lia.
  - intros old Hold. vm_compute in Hold. discriminate Hold.
  - left. exists 4. vm_compute. reflexivity.
  - split; [exact Hok|exact Hlen].
Defined.
